(** * Spreadsheet ingestion and query core: data_loader.py, data_processor.py

  A shallow embedding of the loader (date normalisation, header-driven
  column mapping, table construction) and of the query functions (range
  filter, metric lookup, conversion rate, statistics), with the properties
  proved about them.

  Conventions of the embedding.
  - A spreadsheet cell is a [cell]: blank, Python int, Python float, text,
    a datetime, or anything else.
  - A Python float is an IEEE binary64 value, [spec_float] with precision 53
    and maximal exponent 1024; NaN is the missing value of a numeric column.
  - A text is the string of the bytes of its UTF-8 encoding.
  - A datetime / pandas Timestamp is a number of nanoseconds since the Unix
    epoch; NaT is [None].
  - [pd.to_datetime] is a parameter of the embedding, a [date_parser]: what
    it reads from a text, and from a number of days outside the days on
    which every version of pandas agrees, is left open.
  - A DataFrame is the ordered list of its named columns.
  - A Python exception is [None] / [Raise]. *)

From Stdlib Require Import String Ascii.
From Stdlib Require Import ZArith List Bool Lia.
From Stdlib Require Import Permutation Sorted.
From Stdlib Require Import Floats.SpecFloat.
Import ListNotations.
Local Open Scope Z_scope.

(** ** Binary64 floats *)

Module F64.

Definition prec : Z := 53.
Definition emax : Z := 1024.

Definition f64 := spec_float.

Definition nan : f64 := S754_nan.
Definition pinf : f64 := S754_infinity false.
Definition ninf : f64 := S754_infinity true.
Definition zero : f64 := S754_zero false.

(** int -> float conversion (round to nearest even). *)
Definition of_Z (z : Z) : f64 := binary_normalize prec emax z 0 false.

Definition add : f64 -> f64 -> f64 := SFadd prec emax.
Definition mul : f64 -> f64 -> f64 := SFmul prec emax.
Definition div : f64 -> f64 -> f64 := SFdiv prec emax.
Definition ltb : f64 -> f64 -> bool := SFltb.

Definition is_nan (x : f64) : bool :=
  match x with S754_nan => true | _ => false end.

Definition is_zero (x : f64) : bool :=
  match x with S754_zero _ => true | _ => false end.

(** The signed mantissa of a finite float. *)
Definition smant (s : bool) (m : positive) : Z := cond_Zopp s (Zpos m).

(** Python compares a float with an int exactly (no rounding of the int):
    [cmp_Z x n] is the comparison of the real value of [x] with [n], and
    [None] for NaN, with which every comparison is false. *)
Definition cmp_Z (x : f64) (n : Z) : option comparison :=
  match x with
  | S754_nan => None
  | S754_infinity s => Some (if s then Lt else Gt)
  | S754_zero _ => Some (0 ?= n)
  | S754_finite s m e =>
      if 0 <=? e then Some (smant s m * 2 ^ e ?= n)
      else Some (smant s m ?= n * 2 ^ (- e))
  end.

(** [n <= x], [x <= n] and [x < n] for a float [x] and an int [n]. *)
Definition Z_le (n : Z) (x : f64) : bool :=
  match cmp_Z x n with Some Gt | Some Eq => true | _ => false end.
Definition le_Z (x : f64) (n : Z) : bool :=
  match cmp_Z x n with Some Lt | Some Eq => true | _ => false end.
Definition lt_Z (x : f64) (n : Z) : bool :=
  match cmp_Z x n with Some Lt => true | _ => false end.

(** [int(x)]: truncation toward zero; raises on NaN and infinities. *)
Definition trunc (x : f64) : option Z :=
  match x with
  | S754_nan | S754_infinity _ => None
  | S754_zero _ => Some 0
  | S754_finite s m e =>
      if 0 <=? e then Some (smant s m * 2 ^ e)
      else Some (Z.quot (smant s m) (2 ^ (- e)))
  end.

(** [math.floor(x)]. *)
Definition floor (x : f64) : option Z :=
  match x with
  | S754_nan | S754_infinity _ => None
  | S754_zero _ => Some 0
  | S754_finite s m e =>
      if 0 <=? e then Some (smant s m * 2 ^ e)
      else Some (Z.div (smant s m) (2 ^ (- e)))
  end.

End F64.

Import F64.

(** ** Cells and timestamps *)

Inductive cell : Type :=
| CNa                    (* blank cell: None / NaN / NaT *)
| CInt (z : Z)           (* Python int *)
| CFloat (x : f64)       (* Python float *)
| CStr (s : string)      (* text *)
| CTime (t : Z)          (* datetime / Timestamp, ns since 1970-01-01 *)
| COther.                (* any other object *)

(** [pd.isna] / [pd.notna] on a scalar. *)
Definition isna (c : cell) : bool :=
match c with
| CNa => true
| CFloat x => is_nan x
| _ => false
end.

Definition notna (c : cell) : bool := negb (isna c).

Definition ns_per_day : Z := 86400000000000.

(** [datetime(1899, 12, 30)]: 25569 days before the Unix epoch. *)
Definition base_date : Z := - 25569 * ns_per_day.

(** Bounds of [pd.Timestamp] (int64 nanoseconds, the minimum kept for NaT). *)
Definition timestamp_max : Z := 2 ^ 63 - 1.
Definition timestamp_ok (t : Z) : bool :=
(- timestamp_max <=? t) && (t <=? timestamp_max).

(** The last day of [datetime]: 9999-12-31 is day 2958465 from [base_date]. *)
Definition datetime_max_day : Z := 2958465.

(** [str.strip()] removes the white space of Unicode at both ends of a text:
  the characters U+0009 to U+000D, U+001C to U+0020, U+0085, U+00A0, U+1680,
  U+2000 to U+200A, U+2028, U+2029, U+202F, U+205F and U+3000.  A text is
  the string of the bytes of its UTF-8 encoding, in which these characters
  take one byte ([is_space]), two bytes ([is_space2]: C2 85, C2 A0) or three
  bytes ([is_space3]: E1 9A 80, E2 80 80 to E2 80 8A, E2 80 A8, E2 80 A9,
  E2 80 AF, E2 81 9F, E3 80 80). *)
Definition is_space (a : ascii) : bool :=
let n := nat_of_ascii a in
(Nat.eqb n 32 || (Nat.leb 9 n && Nat.leb n 13) || (Nat.leb 28 n && Nat.leb n 31))%bool.

Definition is_space2 (a b : ascii) : bool :=
let m := nat_of_ascii a in
let n := nat_of_ascii b in
(Nat.eqb m 194 && (Nat.eqb n 133 || Nat.eqb n 160))%bool.

Definition is_space3 (a b c : ascii) : bool :=
let m := nat_of_ascii a in
let n := nat_of_ascii b in
let k := nat_of_ascii c in
((Nat.eqb m 225 && Nat.eqb n 154 && Nat.eqb k 128)
 || (Nat.eqb m 226 && Nat.eqb n 128
     && ((Nat.leb 128 k && Nat.leb k 138)
         || Nat.eqb k 168 || Nat.eqb k 169 || Nat.eqb k 175))
 || (Nat.eqb m 226 && Nat.eqb n 129 && Nat.eqb k 159)
 || (Nat.eqb m 227 && Nat.eqb n 128 && Nat.eqb k 128))%bool.

(** [str.lstrip()]: the white space characters at the start are removed. *)
Fixpoint lstrip (s : string) : string :=
match s with
| String a r =>
    if is_space a then lstrip r
    else
      match r with
      | String b r2 =>
          if is_space2 a b then lstrip r2
          else
            match r2 with
            | String c r3 => if is_space3 a b c then lstrip r3 else s
            | EmptyString => s
            end
      | EmptyString => s
      end
| EmptyString => EmptyString
end.

(** The text is one white space character. *)
Definition is_space_char (s : string) : bool :=
match s with
| String a EmptyString => is_space a
| String a (String b EmptyString) => is_space2 a b
| String a (String b (String c EmptyString)) => is_space3 a b c
| _ => false
end.

(** [str.rstrip()]: the white space characters at the end are removed. *)
Fixpoint rstrip (s : string) : string :=
match s with
| String a r =>
    let t := String a (rstrip r) in
    if is_space_char t then EmptyString else t
| EmptyString => EmptyString
end.

Definition strip (s : string) : string := rstrip (lstrip s).

Definition str_in (s : string) (l : list string) : bool :=
existsb (String.eqb s) l.

Local Open Scope string_scope.

(** Header labels that the date normaliser skips. *)
Definition date_labels : list string :=
["日期"; "date"; "Date"; "DATE"; "Date"; "时间"; "时间"].

Local Close Scope string_scope.

(** ** Date Normalizer: convert_excel_date and safe_convert_date *)

(** [convert_excel_date(excel_date)]; [None] when it raises (ValueError for a
  non-number or a negative number, and the errors of [int()] and of
  [datetime + timedelta] past year 9999). *)
Definition convert_excel_date (x : cell) : option Z :=
match x with
| CInt z =>
    if z <? 0 then None
    else if z <=? datetime_max_day then Some (base_date + z * ns_per_day)
    else None
| CFloat f =>
    if lt_Z f 0 then None
    else
      match trunc f with
      | Some d =>
          if d <=? datetime_max_day then Some (base_date + d * ns_per_day)
          else None
      | None => None
      end
| _ => None
end.

(** [1 <= x <= 100000]. *)
Definition in_day_count_range (x : cell) : bool :=
match x with
| CInt z => (1 <=? z) && (z <=? 100000)
| CFloat f => Z_le 1 f && le_Z f 100000
| _ => false
end.

(** [pd.to_datetime], the date conversion of pandas, in the two forms in
  which the loader and the range filter call it.
  - [parse_text s] is [pd.to_datetime(s)] on a text: [None] when it raises,
    [Some None] when it returns NaT, [Some (Some t)] for the timestamp [t].
  - [parse_days x] is [pd.to_datetime(x, origin='1899-12-30', unit='D')] on
    a number [x]: the timestamp, or [None] when the call raises or returns
    NaT.
  Both are left open: the texts that pandas reads as a date, the bounds of
  its timestamps and the rounding of a fraction of a day differ from one
  version of pandas to the next.  A [date_parser] applied to a text is its
  [parse_text]. *)
Record date_parser : Type := mkDateParser
  { parse_text :> string -> option (option Z);
    parse_days : cell -> option Z }.

Section DateNormalizer.

Variable to_datetime : date_parser.

(** [pd.to_datetime(x, origin='1899-12-30', unit='D')] on a number, NaT and
    an exception both [None].  A whole number of days from -81182 to 132320
    gives the date that many days after the origin under every version of
    pandas: these are the days from 1677-09-22 to 2262-04-11, within the
    bounds of a nanosecond timestamp, and the arithmetic on whole days is
    exact.  The other numbers are left to [parse_days]. *)
Definition to_datetime_origin (x : cell) : option Z :=
  match x with
  | CInt z =>
      if (-81182 <=? z) && (z <=? 132320) then Some (base_date + z * ns_per_day)
      else parse_days to_datetime x
  | CFloat _ => parse_days to_datetime x
  | _ => None
  end.

(** [safe_convert_date(x)]; NaT is [None]. *)
Definition safe_convert_date (x : cell) : option Z :=
  if isna x then None
  else
    match x with
    | CTime t => Some t
    | CStr s =>
        if str_in (strip s) date_labels then None
        else
          match to_datetime s with
          | Some t => t
          | None => None
          end
    | CInt _ | CFloat _ =>
        if in_day_count_range x then convert_excel_date x
        else to_datetime_origin x
    | _ => None
    end.

End DateNormalizer.

(** ** Errors *)

(** Column types as pandas reports them ([Series.dtype]). *)
Inductive dtype : Type := Int64 | Float64 | Datetime64 | Object.

Inductive error : Type :=
| FileNotFoundError                 (* the file does not exist *)
| ReadFailed                        (* ValueError wrapping any other exception of the load *)
| EmptyFile                         (* ValueError: the sheet is empty *)
| TooFewColumns (n : nat)           (* ValueError: fewer than 12 columns *)
| NoParsableDates (ty : dtype) (sample : list cell)
                                    (* ValueError: no date could be parsed *)
| InvalidMetric (metric : string)   (* ValueError: unknown metric name *)
| KeyError (column : string)        (* a column that the frame does not have *)
| TypeError                         (* arithmetic on a cell that is not a number *)
| DateParseError.                   (* pd.to_datetime raised *)

Inductive result (A : Type) : Type :=
| Ok (a : A)
| Raise (e : error).

Arguments Ok {A} a.
Arguments Raise {A} e.

Definition bind {A B : Type} (r : result A) (k : A -> result B) : result B :=
match r with
| Ok a => k a
| Raise e => Raise e
end.

Notation "x <- r ;; k" := (bind r (fun x => k))
  (at level 61, r at next level, right associativity).

(** ** Series and DataFrame *)

Definition Series : Type := list cell.

(** The columns of the frame, in order; a column name occurs once. *)
Definition DataFrame : Type := list (string * Series).

(** A dict with text keys, in insertion order: lookup, and assignment, which
    replaces the value of a key in place or appends a new key. *)
Fixpoint dict_get {V : Type} (d : list (string * V)) (k : string) : option V :=
match d with
| [] => None
| (k', v) :: rest => if String.eqb k' k then Some v else dict_get rest k
end.

Fixpoint dict_set {V : Type} (d : list (string * V)) (k : string) (v : V)
  : list (string * V) :=
match d with
| [] => [(k, v)]
| (k', v') :: rest =>
    if String.eqb k' k then (k', v) :: rest else (k', v') :: dict_set rest k v
end.

(** [df[name]]: KeyError when the frame has no such column. *)
Definition get_col (df : DataFrame) (name : string) : option Series :=
dict_get df name.

Definition getitem (df : DataFrame) (name : string) : result Series :=
match get_col df name with
| Some c => Ok c
| None => Raise (KeyError name)
end.

(** [df[name] = s]: replaces the column in place, or appends a new one. *)
Definition set_col (df : DataFrame) (name : string) (s : Series) : DataFrame :=
dict_set df name s.

(** [df.columns.tolist()] and [len(df)]. *)
Definition columns (df : DataFrame) : list string := map fst df.

Definition nrows (df : DataFrame) : nat :=
match df with
| [] => 0%nat
| (_, c) :: _ => List.length c
end.

(** Every column has the length of the frame. *)
Definition well_formed (df : DataFrame) : Prop :=
Forall (fun nc => List.length (snd nc) = nrows df) df.

(** Positional selection of rows ([take]): the rows at the positions [idx],
    in that order, in every column. *)
Definition take (idx : list nat) (s : Series) : Series :=
map (fun i => nth i s CNa) idx.

Definition take_rows (idx : list nat) (df : DataFrame) : DataFrame :=
map (fun nc => (fst nc, take idx (snd nc))) df.

(** The positions at which a boolean mask holds ([mask.nonzero()]). *)
Fixpoint where_from (i : nat) (mask : list bool) : list nat :=
match mask with
| [] => []
| b :: rest => if b then i :: where_from (S i) rest else where_from (S i) rest
end.

Definition where_ (mask : list bool) : list nat := where_from 0 mask.

(** [df[mask]]: boolean indexing. *)
Definition select_rows (mask : list bool) (df : DataFrame) : DataFrame :=
take_rows (where_ mask) df.

(** Row [i] of the frame, one cell per column, and all its rows. *)
Definition row_at (df : DataFrame) (i : nat) : list cell :=
map (fun nc => nth i (snd nc) CNa) df.

Definition rows (df : DataFrame) : list (list cell) :=
map (row_at df) (seq 0 (nrows df)).

(** The rows of a frame, each with its date cell. *)
Definition dated_rows (df : DataFrame) : list (cell * list cell) :=
match get_col df "date"%string with
| Some d => combine d (rows df)
| None => []
end.

(** [pd.api.types.is_datetime64_any_dtype]: a datetime column holds
    timestamps and NaT only. *)
Definition is_datetime_cell (c : cell) : bool :=
match c with
| CTime _ | CNa => true
| _ => false
end.

Definition is_datetime64_any_dtype (s : Series) : bool :=
forallb is_datetime_cell s.

(** A numeric column read as float64: blank is NaN, an int is converted;
    [None] for a cell that is not a number. *)
Definition to_float (c : cell) : option f64 :=
match c with
| CNa => Some nan
| CInt z => Some (of_Z z)
| CFloat x => Some x
| _ => None
end.

Fixpoint as_float64 (s : Series) : result (list f64) :=
match s with
| [] => Ok []
| c :: rest =>
    match to_float c with
    | Some x => (xs <- as_float64 rest ;; Ok (x :: xs))
    | None => Raise TypeError
    end
end.

Definition of_float64 (xs : list f64) : Series := map CFloat xs.

(** ** Query layer: data_processor.py

    Every function of the query layer receives the frame by reference.  Its
    embedding returns a pair: what the call returns or raises, and the
    caller's frame as the call leaves it. *)

Local Open Scope string_scope.

Definition metric_mapping : list (string * (string * string)) :=
[ ("曝光", ("user1_exposure", "user2_exposure"));
  ("新招呼", ("user1_greet", "user2_greet"));
  ("交换微信", ("user1_exchange", "user2_exchange"));
  ("添加微信", ("user1_add", "user2_add"));
  ("补刀次数", ("user1_kill", "user2_kill")) ].

Section RangeFilter.

Variable to_datetime : date_parser.

(** [pd.to_datetime] on one cell of a column that is not a datetime column:
    an int or a float counts nanoseconds since the Unix epoch. *)
Definition to_datetime_cell (c : cell) : result cell :=
match c with
| CNa => Ok CNa
| CTime t => Ok (CTime t)
| CStr s =>
    match to_datetime s with
    | Some (Some t) => Ok (CTime t)
    | Some None => Ok CNa
    | None => Raise DateParseError
    end
| CInt z => if timestamp_ok z then Ok (CTime z) else Raise DateParseError
| CFloat x =>
    if is_nan x then Ok CNa
    else
      match trunc x with
      | Some z => if timestamp_ok z then Ok (CTime z) else Raise DateParseError
      | None => Raise DateParseError
      end
| COther => Raise TypeError
end.

Fixpoint to_datetime_series (s : Series) : result Series :=
match s with
| [] => Ok []
| c :: rest =>
    c' <- to_datetime_cell c ;;
    rest' <- to_datetime_series rest ;;
    Ok (c' :: rest')
end.

(** [(date >= start_dt) & (date <= end_dt)] on one cell: false on NaT, on
    either side. *)
Definition in_date_range (start_dt end_dt : option Z) (c : cell) : bool :=
match c, start_dt, end_dt with
| CTime t, Some s, Some e => (s <=? t)%Z && (t <=? e)%Z
| _, _, _ => false
end.

Definition parse_bound (s : string) : result (option Z) :=
match to_datetime s with
| Some t => Ok t
| None => Raise DateParseError
end.

(** [filter_by_date_range(df, start_date, end_date)]. *)
Definition filter_by_date_range (df : DataFrame) (start_date end_date : string)
  : result DataFrame * DataFrame :=
match parse_bound start_date with
| Raise e => (Raise e, df)
| Ok start_dt =>
match parse_bound end_date with
| Raise e => (Raise e, df)
| Ok end_dt =>
match getitem df "date" with
| Raise e => (Raise e, df)
| Ok date =>
    (* df['date'] = pd.to_datetime(df['date']), on the caller's frame *)
    let converted :=
      if is_datetime64_any_dtype date then Ok df
      else (d <- to_datetime_series date ;; Ok (set_col df "date" d)) in
    match converted with
    | Raise e => (Raise e, df)
    | Ok df1 =>
        match getitem df1 "date" with
        | Raise e => (Raise e, df1)
        | Ok date1 =>
            let mask := map (in_date_range start_dt end_dt) date1 in
            (Ok (select_rows mask df1), df1)
        end
    end
end
end
end.

End RangeFilter.

(** [a.div(b)] and [a * k] on columns of a numeric dtype (int64, float64):
    the division and the product of numpy, cell by cell in float64, where a
    division by zero gives an infinity or NaN and raises nothing.  The
    dtype of a column is not part of the embedding.  On a column of dtype
    object, which holds Python objects, pandas divides cell by cell with
    Python's own division, which raises ZeroDivisionError on a zero
    divisor: this is not what [series_div] computes. *)
Definition series_div (a b : Series) : result Series :=
xs <- as_float64 a ;;
ys <- as_float64 b ;;
Ok (of_float64 (map (fun p => div (fst p) (snd p)) (combine xs ys))).

Definition series_mul (a : Series) (k : Z) : result Series :=
xs <- as_float64 a ;;
Ok (of_float64 (map (fun x => mul x (of_Z k)) xs)).

Definition conversion_rate (add_col exchange_col : Series) : result Series :=
q <- series_div add_col exchange_col ;;
series_mul q 100.

(** [calculate_conversion_rates(df)]: works on [df.copy()]. *)
Definition calculate_conversion_rates (df : DataFrame)
  : result DataFrame * DataFrame :=
let result_df := df in
(a1 <- getitem result_df "user1_add" ;;
 e1 <- getitem result_df "user1_exchange" ;;
 r1 <- conversion_rate a1 e1 ;;
 let result_df := set_col result_df "user1_conversion_rate" r1 in
 a2 <- getitem result_df "user2_add" ;;
 e2 <- getitem result_df "user2_exchange" ;;
 r2 <- conversion_rate a2 e2 ;;
 let result_df := set_col result_df "user2_conversion_rate" r2 in
 Ok result_df,
 df).

Definition lookup_metric (metric : string) : result (string * string) :=
match dict_get metric_mapping metric with
| Some cols => Ok cols
| None => Raise (InvalidMetric metric)
end.

(** [get_metric_data(df, metric)]: dates, user 1 values, user 2 values. *)
Definition get_metric_data (df : DataFrame) (metric : string)
  : result (Series * Series * Series) * DataFrame :=
(cols <- lookup_metric metric ;;
 dates <- getitem df "date" ;;
 user1_values <- getitem df (fst cols) ;;
 user2_values <- getitem df (snd cols) ;;
 Ok (dates, user1_values, user2_values),
 df).

(** [get_dual_metric_data(df, metric1, metric2)]. *)
Definition get_dual_metric_data (df : DataFrame) (metric1 metric2 : string)
  : result (Series * Series * Series * Series * Series) * DataFrame :=
(cols1 <- lookup_metric metric1 ;;
 cols2 <- lookup_metric metric2 ;;
 dates <- getitem df "date" ;;
 m1u1 <- getitem df (fst cols1) ;;
 m1u2 <- getitem df (snd cols1) ;;
 m2u1 <- getitem df (fst cols2) ;;
 m2u2 <- getitem df (snd cols2) ;;
 Ok (dates, m1u1, m1u2, m2u1, m2u2),
 df).

(** *** Reductions of a float64 column, as pandas.core.nanops computes them
    with [skipna=True]: the missing values are masked and replaced by the
    neutral value of the reduction, the array is reduced, and the result is
    nulled when no value was present.  The maximum and the minimum do not
    depend on the order of the reduction.  The sum does, by its rounding:
    [np_sum] adds from left to right, while numpy adds a long float64 array
    pairwise, in blocks, and an int64 column in integers; the properties
    below speak of the maximum and of the minimum only. *)

Definition fill (v : f64) (xs : list f64) : list f64 :=
map (fun x => if is_nan x then v else x) xs.

(** Number of values that are not missing. *)
Definition count (xs : list f64) : nat :=
List.length (filter (fun x => negb (is_nan x)) xs).

Definition fmax (a b : f64) : f64 := if ltb a b then b else a.
Definition fmin (a b : f64) : f64 := if ltb b a then b else a.

(** [np.add.reduce], [np.maximum.reduce], [np.minimum.reduce]. *)
Definition np_sum (xs : list f64) : f64 := fold_left add xs zero.

Definition np_reduce (op : f64 -> f64 -> f64) (xs : list f64) : f64 :=
match xs with
| [] => nan
| x :: rest => fold_left op rest x
end.

Definition nansum (xs : list f64) : f64 := np_sum (fill zero xs).

Definition nanmean (xs : list f64) : f64 :=
if Nat.eqb (count xs) 0 then nan
else div (nansum xs) (of_Z (Z.of_nat (count xs))).

Definition nanmax (xs : list f64) : f64 :=
if Nat.eqb (count xs) 0 then nan else np_reduce fmax (fill ninf xs).

Definition nanmin (xs : list f64) : f64 :=
if Nat.eqb (count xs) 0 then nan else np_reduce fmin (fill pinf xs).

Record Stats : Type := mkStats
  { stat_mean : f64; stat_max : f64; stat_min : f64; stat_sum : f64 }.

Definition series_stats (s : Series) : result Stats :=
xs <- as_float64 s ;;
Ok (mkStats (nanmean xs) (nanmax xs) (nanmin xs) (nansum xs)).

(** [calculate_statistics(df, metric)]: the statistics of user 1 and of
    user 2. *)
Definition calculate_statistics (df : DataFrame) (metric : string)
  : result (Stats * Stats) * DataFrame :=
(cols <- lookup_metric metric ;;
 c1 <- getitem df (fst cols) ;;
 s1 <- series_stats c1 ;;
 c2 <- getitem df (snd cols) ;;
 s2 <- series_stats c2 ;;
 Ok (s1, s2),
 df).

Local Close Scope string_scope.

(** ** numpy's argsort, kind='quicksort'

    [DataFrame.sort_values(by)] on one column sorts with
    [values.argsort(kind='quicksort')], its default, and takes the rows at the
    positions returned.  numpy's quicksort is an introsort on the array
    [tosort] of positions (npysort/quicksort.cpp, [aquicksort_]): partitions
    around the median of three while a segment has more than 16 elements,
    insertion sort on the short segments, and heapsort ([aheapsort_]) on a
    segment taken from the stack once the depth budget is used up.

    The C function keeps the pending segments on an explicit stack.  The
    segments are disjoint parts of the array, so that each is sorted on its
    own: the embedding sorts a segment as a list and recurses on the two
    parts of a partition. *)

Module Npysort.

Local Open Scope nat_scope.

Section Keys.

(** The array of keys. *)
Variable v : list Z.

(** [Tag::less(v[a], v[b])]. *)
Definition less (a b : nat) : bool := (nth a v 0%Z <? nth b v 0%Z)%Z.

(** [a[i] = x] and [INTP_SWAP(a[i], a[j])]. *)
Fixpoint upd (i : nat) (x : nat) (a : list nat) : list nat :=
match a, i with
| [], _ => []
| _ :: rest, O => x :: rest
| y :: rest, S i' => y :: upd i' x rest
end.

Definition swap (i j : nat) (a : list nat) : list nat :=
upd i (nth j a 0) (upd j (nth i a 0) a).

(** *** Insertion sort of a segment: each element is moved left past the
    elements of the sorted prefix that are greater.  The prefix is kept
    reversed, its last element first. *)
Fixpoint insert_from_right (vi : nat) (rprefix : list nat) : list nat :=
match rprefix with
| [] => [vi]
| k :: rest =>
    if less vi k then k :: insert_from_right vi rest else vi :: rprefix
end.

Definition insertion_sort (seg : list nat) : list nat :=
rev (fold_left (fun rprefix vi => insert_from_right vi rprefix) seg []).

(** *** Partition of a segment [a] with [pl = 0] and [pr = length a - 1]. *)

(** [do ++pi while less(v[*pi], vp)], started at [i]; [vp] is the position
    of the pivot key. *)
Fixpoint scan_up (fuel : nat) (a : list nat) (vp : nat) (i : nat) : nat :=
match fuel with
| O => i
| S fuel' => if less (nth i a 0) vp then scan_up fuel' a vp (S i) else i
end.

(** [do --pj while less(vp, v[*pj])], started at [j]. *)
Fixpoint scan_down (fuel : nat) (a : list nat) (vp : nat) (j : nat) : nat :=
match fuel with
| O => j
| S fuel' => if less vp (nth j a 0) then scan_down fuel' a vp (pred j) else j
end.

Fixpoint partition_loop (fuel : nat) (a : list nat) (vp : nat) (pi pj : nat)
  : list nat * nat :=
match fuel with
| O => (a, pi)
| S fuel' =>
    let i := scan_up (length a) a vp (S pi) in
    let j := scan_down (length a) a vp (pred pj) in
    if j <=? i then (a, i)
    else partition_loop fuel' (swap i j a) vp i j
end.

(** The median of three goes to the middle, the pivot to [pr - 1]; after the
    loop the pivot is swapped to its place [pi].  Returns the array and
    [pi]. *)
Definition partition (a : list nat) : list nat * nat :=
let pl := 0 in
let pr := length a - 1 in
let pm := pl + (pr - pl) / 2 in
let a := if less (nth pm a 0) (nth pl a 0) then swap pm pl a else a in
let a := if less (nth pr a 0) (nth pm a 0) then swap pr pm a else a in
let a := if less (nth pm a 0) (nth pl a 0) then swap pm pl a else a in
let vp := nth pm a 0 in
let a := swap pm (pr - 1) a in
let '(a, pi) := partition_loop (length a) a vp pl (pr - 1) in
(swap pi (pr - 1) a, pi).

(** *** Heapsort of a segment; the heap is indexed from 1. *)
Definition hget (a : list nat) (k : nat) : nat := nth (k - 1) a 0.
Definition hset (a : list nat) (k : nat) (x : nat) : list nat := upd (k - 1) x a.

(** The inner loop shared by the two phases: [tmp] sinks from [i] in the
    heap [a[1..n]]. *)
Fixpoint sift (fuel : nat) (a : list nat) (tmp : nat) (i n : nat) : list nat :=
match fuel with
| O => hset a i tmp
| S fuel' =>
    let j := 2 * i in
    if n <? j then hset a i tmp
    else
      let j := if (j <? n) && less (hget a j) (hget a (j + 1)) then j + 1 else j in
      if less tmp (hget a j) then sift fuel' (hset a i (hget a j)) tmp j n
      else hset a i tmp
end.

(** [for (l = n >> 1; l > 0; --l)]: [l] runs from [count] down to 1. *)
Fixpoint heapify (count : nat) (a : list nat) (n : nat) : list nat :=
match count with
| O => a
| S l' => heapify l' (sift n a (hget a (S l')) (S l') n) n
end.

(** [for (; n > 1;)]: the last element of the heap [a[1..n]] is taken out,
    the root goes to its place, and the element sinks from the root in
    [a[1..n-1]]. *)
Fixpoint extract (n : nat) (a : list nat) : list nat :=
match n with
| O => a
| S n' =>
    match n' with
    | O => a
    | S _ =>
        let tmp := hget a n in
        let a := hset a n (hget a 1) in
        extract n' (sift n' a tmp 1 n')
    end
end.

Definition aheapsort (seg : list nat) : list nat :=
let n := length seg in
extract n (heapify (n / 2) seg n).

(** *** The introsort.  [quick] is the loop that partitions a segment of
    more than 16 elements, followed by the insertion sort; the larger part
    of a partition goes to the stack with the decremented depth, and is
    heapsorted when it is taken from the stack with a negative depth. *)
Fixpoint quick (fuel : nat) (cdepth : Z) (seg : list nat) {struct fuel} : list nat :=
match fuel with
| O => seg
| S fuel' =>
    if 16 <? length seg then
      let '(a, pi) := partition seg in
      let left := firstn pi a in
      let right := skipn (S pi) a in
      let cdepth := (cdepth - 1)%Z in
      let popped part :=
        if (cdepth <? 0)%Z then aheapsort part else quick fuel' cdepth part in
      if length left <? length right
      then quick fuel' cdepth left ++ nth pi a 0 :: popped right
      else popped left ++ nth pi a 0 :: quick fuel' cdepth right
    else insertion_sort seg
end.

(** *** Notions for the proof that the introsort sorts *)

Definition key (i : nat) : Z := nth i v 0%Z.

Definition le_key (a b : nat) : Prop := (key a <= key b)%Z.

Definition ge_key (a b : nat) : Prop := (key b <= key a)%Z.

(** One step of the median of three: the greater key goes to [p]. *)
Definition ordered_two (a : list nat) (p q : nat) : list nat :=
if less (nth p a 0) (nth q a 0) then swap p q a else a.

(** The invariant of the partition loop on an array of length [n]: the
  keys up to [pi] are at most the pivot key, the keys from [pj] on are at
  least the pivot key, and the pivot is at [n - 2]. *)
Definition partition_inv (n vp : nat) (a : list nat) (pi pj : nat) : Prop :=
length a = n /\ pi < pj /\ pj <= n - 2 /\
(forall k, k <= pi -> le_key (nth k a 0) vp) /\
(forall k, pj <= k <= n - 1 -> le_key vp (nth k a 0)) /\
key (nth (n - 2) a 0) = key vp.

(** The key at a position of the heap. *)
Definition hkey (a : list nat) (k : nat) : Z := key (hget a k).

(** The heap order at the nodes from [l] on in [a[1..n]], at all of them
  or at all but [i]; and the order between the parent of [i] and the
  children of [i]. *)
Definition heap_all (a : list nat) (l n : nat) : Prop :=
forall k c, l <= k -> (c = 2 * k \/ c = 2 * k + 1) -> c <= n ->
            (hkey a c <= hkey a k)%Z.

Definition heap_except (a : list nat) (l n i : nat) : Prop :=
forall k c, l <= k -> k <> i -> (c = 2 * k \/ c = 2 * k + 1) -> c <= n ->
            (hkey a c <= hkey a k)%Z.

Definition heap_grand (a : list nat) (l n i : nat) : Prop :=
forall p c, l <= p -> (i = 2 * p \/ i = 2 * p + 1) ->
            (c = 2 * i \/ c = 2 * i + 1) -> c <= n ->
            (hkey a c <= hkey a p)%Z.

(** The invariant of the second phase: [a[1..m]] is a heap, the keys after
  it are in order, and none of them is below a key of the heap. *)
Definition extract_inv (a : list nat) (m N : nat) : Prop :=
length a = N /\ m <= N /\ heap_all a 1 m /\
(forall i j, m < i -> i < j -> j <= N -> (hkey a i <= hkey a j)%Z) /\
(forall i j, 1 <= i <= m -> m < j <= N -> (hkey a i <= hkey a j)%Z).

End Keys.

(** [keys.argsort(kind='quicksort')]: the positions of the keys in sorted
    order; the depth budget is twice the position of the highest set bit of
    the length. *)
Definition aquicksort (keys : list Z) : list nat :=
let num := length keys in
quick keys num (2 * Z.log2 (Z.of_nat num))%Z (seq 0 num).

End Npysort.

(** ** Loader: data_loader.py

    The three [pd.read_excel] calls of [load_excel_data] give what a
    [Workbook] holds: whether the file exists, the first two rows of the
    sheet read without header ([df_raw], and again [df_header]), and the
    sheet read with its first row as the column names ([df]).  The display
    names read from the first row do not enter the table and are left out. *)

Record Workbook : Type := mkWorkbook
  { file_exists : bool;
    wb_raw : list (list cell);
    wb_df : DataFrame }.

Local Open Scope string_scope.

(** The dtype pandas infers for a column of a sheet. *)
Definition is_int_cell (c : cell) : bool :=
match c with CInt _ => true | _ => false end.

Definition is_number_cell (c : cell) : bool :=
match c with CInt _ | CFloat _ | CNa => true | _ => false end.

Definition is_time_cell (c : cell) : bool :=
match c with CTime _ => true | _ => false end.

Definition dtype_of (s : Series) : dtype :=
if forallb is_int_cell s then Int64
else if forallb is_number_cell s then Float64
else if forallb is_datetime_cell s && existsb is_time_cell s then Datetime64
else Object.

(** [df.empty]. *)
Definition df_empty (df : DataFrame) : bool :=
match df with
| [] => true
| _ => Nat.eqb (nrows df) 0
end.

Definition date_cell (t : option Z) : cell :=
match t with
| Some t => CTime t
| None => CNa
end.

(** [str(cell).strip() if pd.notna(cell) else '']; the text [str] gives for a
    number or a datetime is none of the metric labels, and is read as the
    empty label. *)
Definition header_val (c : cell) : string :=
if isna c then ""
else match c with
     | CStr s => strip s
     | _ => ""
     end.

(** The chain of comparisons of a header label, for user 1 or user 2. *)
Definition field_of_label (user : string) (header_val : string) : option string :=
if String.eqb header_val "曝光" then Some (user ++ "_exposure")
else if String.eqb header_val "新招呼" then Some (user ++ "_greet")
else if String.eqb header_val "补刀次数" then Some (user ++ "_kill")
else if String.eqb header_val "交换微信" then Some (user ++ "_exchange")
else if String.eqb header_val "添加微信" then Some (user ++ "_add")
else None.

(** [for col_idx in range(lo, min(hi, len(header_row)))]: the columns of a
    block with a recognised label, and their fields. *)
Definition block_cols (user : string) (header_row : list cell) (lo hi : nat)
  : list (nat * string) :=
flat_map
  (fun col_idx =>
     match field_of_label user (header_val (nth col_idx header_row CNa)) with
     | Some field => [(col_idx, field)]
     | None => []
     end)
  (seq lo (Nat.min hi (length header_row) - lo)).

(** [if col_idx < len(headers): column_mapping[headers[col_idx]] = col_name]. *)
Definition merge_cols (headers : list string) (cols : list (nat * string))
  (column_mapping : list (string * string)) : list (string * string) :=
fold_left
  (fun m (c : nat * string) =>
     match nth_error headers (fst c) with
     | Some h => dict_set m h (snd c)
     | None => m
     end)
  cols column_mapping.

(** The column mapping of the sheet: the two positional entries first, then
    the labelled columns of the block of user 1 and of user 2. *)
Definition column_mapping_of (headers : list string) (header_row : list cell)
  : list (string * string) :=
let column_mapping :=
  dict_set (dict_set [] (nth 1 headers "") "user1_exposure")
           (nth 2 headers "") "user1_greet" in
let user1_cols := block_cols "user1" header_row 1 6 in
let user2_cols := block_cols "user2" header_row 8 13 in
merge_cols headers user2_cols (merge_cols headers user1_cols column_mapping).

(** [new_df['date'] = df['date']], then [new_df[new_col] = df[old_col]] for
    every item of the mapping whose column is in [df]. *)
Definition build_new_df (df : DataFrame) (date : Series)
  (column_mapping : list (string * string)) : DataFrame :=
fold_left
  (fun new_df (item : string * string) =>
     match get_col df (fst item) with
     | Some c => set_col new_df (snd item) c
     | None => new_df
     end)
  column_mapping (set_col [] "date" date).

(** The sort key of a date cell, in a column without NaT. *)
Definition date_key (c : cell) : Z :=
match c with
| CTime t => t
| _ => 0%Z
end.

(** [df.dropna(subset=['date'])] and [df.sort_values('date')]. *)
Definition dropna_date (df : DataFrame) : result DataFrame :=
date <- getitem df "date" ;;
Ok (select_rows (map notna date) df).

Definition sort_values_date (df : DataFrame) : result DataFrame :=
date <- getitem df "date" ;;
Ok (take_rows (Npysort.aquicksort (map date_key date)) df).

Section Loader.

Variable to_datetime : date_parser.

(** The date column of the sheet, converted. *)
Definition convert_date_column (date_col : Series) : Series :=
if is_datetime64_any_dtype date_col then date_col
else map (fun x => date_cell (safe_convert_date to_datetime x)) date_col.

(** What the [try] block of [load_excel_data] computes; an exception that is
    neither FileNotFoundError nor ValueError is wrapped by the handler. *)
Definition load_excel_data (wb : Workbook) : result DataFrame :=
if negb (file_exists wb) then Raise FileNotFoundError
else
  match nth_error (wb_raw wb) 0 with
  | None => Raise ReadFailed
  | Some first_row =>
  let df := wb_df wb in
  if df_empty df then Raise EmptyFile
  else
  let headers := columns df in
  if Nat.ltb (length headers) 12 then Raise (TooFewColumns (length headers))
  else
  match get_col df (nth 0 headers "") with
  | None => Raise ReadFailed
  | Some date_col =>
  let df := set_col df "date" (convert_date_column date_col) in
  match nth_error (wb_raw wb) 1 with
  | None => Raise ReadFailed
  | Some header_row =>
  let column_mapping := column_mapping_of headers header_row in
  match get_col df "date" with
  | None => Raise ReadFailed
  | Some date =>
  let new_df := build_new_df df date column_mapping in
  match dropna_date new_df with
  | Raise _ => Raise ReadFailed
  | Ok new_df =>
  if Nat.eqb (nrows new_df) 0
  then Raise (NoParsableDates (dtype_of date_col) (firstn 5 date_col))
  else
    match sort_values_date new_df with
    | Raise _ => Raise ReadFailed
    | Ok new_df => Ok new_df
    end
  end
  end
  end
  end
  end.

End Loader.

Local Close Scope string_scope.

(** ** Notions used to state the properties *)

(** The floor of a number cell. *)
Definition num_floor (x : cell) : option Z :=
match x with
| CInt z => Some z
| CFloat f => floor f
| _ => None
end.

(** A number cell below 1 (in particular every negative number). *)
Definition below_one (x : cell) : bool :=
match x with
| CInt z => (z <? 1)%Z
| CFloat f => lt_Z f 1
| _ => false
end.

(** The binary64 value nearest to 0.999, which is what the literal 0.999
    denotes. *)
Definition f_0_999 : f64 := S754_finite false 8998192055486251 (-53).

(** The values of a float64 column that are not missing. *)
Definition present (xs : list f64) : list f64 :=
filter (fun x => negb (is_nan x)) xs.

(** The maximum and the minimum of a list of present values: numpy's
    reduction of the list. *)
Definition max_of (vs : list f64) : f64 := np_reduce fmax vs.
Definition min_of (vs : list f64) : f64 := np_reduce fmin vs.

(** The maximum and the minimum of [st] are those of the present values of
    [xs]. *)
Definition stats_over_present (xs : list f64) (st : Stats) : Prop :=
stat_max st = max_of (present xs) /\
stat_min st = min_of (present xs).

(** ** Sample inputs *)

Local Open Scope string_scope.

(** Scenario D: one row with exchange = 0 and add = 5 for user 1. *)
Definition scenario_D : DataFrame :=
[ ("date", [CTime 1735603200000000000]);
  ("user1_add", [CInt 5]); ("user1_exchange", [CInt 0]);
  ("user2_add", [CInt 5]); ("user2_exchange", [CInt 8]) ].

Local Close Scope string_scope.

Local Open Scope string_scope.

(** Three rows; user 2 has no exposure value at all. *)
Definition sample_exposure : DataFrame :=
[ ("date", [CTime 1735603200000000000; CTime 1735689600000000000;
            CTime 1735776000000000000]);
  ("user1_exposure", [CInt 10; CNa; CInt 30]);
  ("user2_exposure", [CNa; CNa; CNa]) ].

Local Close Scope string_scope.

(** A MetricTable: a well-formed frame with a "date" column that holds a
    timestamp in every row. *)
Definition is_metric_table (df : DataFrame) : Prop :=
well_formed df /\
exists date, get_col df "date" = Some date /\ forallb is_time_cell date = true.

(** The date cell [c] lies in [[s, e]]. *)
Definition date_within (s e : Z) (c : cell) : bool :=
match c with
| CTime t => (s <=? t) && (t <=? e)
| _ => false
end.

(** The operations of the query layer, and what each returns or raises. *)
Inductive query : Type :=
| QFilter (start_date end_date : string)
| QMetric (metric : string)
| QDual (metric1 metric2 : string)
| QConversion
| QStatistics (metric : string).

Inductive answer : Type :=
| AFrame (r : result DataFrame)
| AMetric (r : result (Series * Series * Series))
| ADual (r : result (Series * Series * Series * Series * Series))
| AStatistics (r : result (Stats * Stats)).

(** One call on the table [df]: its answer, and [df] after the call. *)
Definition run_query (parse : date_parser) (q : query)
  (df : DataFrame) : answer * DataFrame :=
match q with
| QFilter s e =>
    let r := filter_by_date_range parse df s e in (AFrame (fst r), snd r)
| QMetric m => let r := get_metric_data df m in (AMetric (fst r), snd r)
| QDual m1 m2 =>
    let r := get_dual_metric_data df m1 m2 in (ADual (fst r), snd r)
| QConversion => let r := calculate_conversion_rates df in (AFrame (fst r), snd r)
| QStatistics m =>
    let r := calculate_statistics df m in (AStatistics (fst r), snd r)
end.

(** The table after a sequence of calls. *)
Definition run_queries (parse : date_parser) (qs : list query)
  (df : DataFrame) : DataFrame :=
fold_left (fun d q => snd (run_query parse q d)) qs df.

Local Open Scope string_scope.

(** A date parser that reads two dates, for the examples: the midnights
    that open 2024-12-31 and 2025-01-01.  It raises on every other text,
    and on the numbers that are left to [parse_days]. *)
Definition sample_parser : date_parser :=
mkDateParser
  (fun s =>
     if String.eqb s "2024-12-31" then Some (Some 1735603200000000000)
     else if String.eqb s "2025-01-01" then Some (Some 1735689600000000000)
     else None)
  (fun _ => None).

(** The parser that reads no date at all. *)
Definition no_parser : date_parser :=
mkDateParser (fun _ => None) (fun _ => None).

Local Close Scope string_scope.

(** The frame of a sheet given by its column names and its rows. *)
Definition frame_of_rows (headers : list string) (body : list (list cell))
  : DataFrame :=
map (fun i => (nth i headers ""%string, map (fun r => nth i r CNa) body))
    (seq 0 (length headers)).

(** The stages of the Table Builder on a sheet that passed the structural
    checks: the normalised dates of the date column, the frame of the
    mapped columns, and the rows that are retained (those with a date). *)
Definition normalized_dates (parse : date_parser)
  (date_col : Series) : Series :=
map (fun x => date_cell (safe_convert_date parse x)) date_col.

Definition mapped_frame (parse : date_parser)
  (df : DataFrame) (header_row : list cell) (date_col : Series) : DataFrame :=
let date := normalized_dates parse date_col in
build_new_df (set_col df "date" date) date
  (column_mapping_of (columns df) header_row).

Definition retained_positions (parse : date_parser)
  (date_col : Series) : list nat :=
where_ (map notna (normalized_dates parse date_col)).

Definition retained_frame (parse : date_parser)
  (df : DataFrame) (header_row : list cell) (date_col : Series) : DataFrame :=
take_rows (retained_positions parse date_col)
  (mapped_frame parse df header_row date_col).

(** The structural checks of the load pass, and the date column is
    [date_col], the header row [header_row]. *)
Definition passes_checks (wb : Workbook) (header_row : list cell)
  (date_col : Series) : Prop :=
file_exists wb = true /\
nth_error (wb_raw wb) 1 = Some header_row /\
df_empty (wb_df wb) = false /\
(12 <= length (columns (wb_df wb)))%nat /\
get_col (wb_df wb) (nth 0 (columns (wb_df wb)) ""%string) = Some date_col.

Local Open Scope string_scope.

(** Scenario C: a sheet of 12 columns, without the kill-count columns.  The
    first row names the two users, the second row holds the labels, and
    the rows below hold the data. *)
Definition names_12 : list cell :=
[CStr "Alice"; CNa; CNa; CNa; CNa; CNa; CNa; CStr "Bob"; CNa; CNa; CNa; CNa].

Definition labels_12 : list cell :=
[CStr "日期"; CStr "曝光"; CStr "新招呼"; CStr "交换微信"; CStr "添加微信"; CNa; CNa;
 CStr "日期"; CStr "曝光"; CStr "新招呼"; CStr "交换微信"; CStr "添加微信"].

Definition headers_12 : list string :=
["Alice"; "Unnamed: 1"; "Unnamed: 2"; "Unnamed: 3"; "Unnamed: 4"; "Unnamed: 5";
 "Unnamed: 6"; "Bob"; "Unnamed: 8"; "Unnamed: 9"; "Unnamed: 10"; "Unnamed: 11"].

Definition workbook_12 : Workbook :=
mkWorkbook true [names_12; labels_12]
  (frame_of_rows headers_12
     [ labels_12;
       [CInt 45657; CInt 100; CInt 20; CInt 8; CInt 5; CNa; CNa;
        CInt 45657; CInt 90; CInt 30; CInt 0; CInt 5];
       [CInt 45658; CInt 110; CInt 25; CInt 9; CInt 6; CNa; CNa;
        CInt 45658; CInt 95; CInt 35; CInt 7; CInt 3] ]).

(** The same sheet with a date column that holds no date. *)
Definition workbook_no_date : Workbook :=
mkWorkbook true [names_12; labels_12]
  (frame_of_rows headers_12
     [ labels_12;
       [CStr "N/A"; CInt 100; CInt 20; CInt 8; CInt 5; CNa; CNa;
        CStr "N/A"; CInt 90; CInt 30; CInt 0; CInt 5] ]).

Local Close Scope string_scope.

(** The table that the load builds from the 12-column sheet. *)
Definition table_12 : DataFrame :=
Eval vm_compute in
  match load_excel_data sample_parser workbook_12 with
  | Ok df => df
  | Raise _ => []
  end.

Local Open Scope string_scope.

(** The field that the label of column [i] names, in the block of user 1
    (columns 1 to 5) or of user 2 (columns 8 to 12). *)
Definition label_field (header_row : list cell) (i : nat) : option string :=
if Nat.leb 1 i && Nat.leb i 5
then field_of_label "user1" (header_val (nth i header_row CNa))
else if Nat.leb 8 i && Nat.leb i 12
then field_of_label "user2" (header_val (nth i header_row CNa))
else None.

(** The field that columns 1 and 2 get by position. *)
Definition positional_field (i : nat) : option string :=
match i with
| 1%nat => Some "user1_exposure"
| 2%nat => Some "user1_greet"
| _ => None
end.

(** The last field recorded for column [i] in the list of a block. *)
Fixpoint lookup_last (cols : list (nat * string)) (i : nat) : option string :=
match cols with
| [] => None
| (j, f) :: rest =>
    match lookup_last rest i with
    | Some f' => Some f'
    | None => if Nat.eqb j i then Some f else None
    end
end.

(** A sheet of 13 columns whose column 1 carries a label that is none of
    the five, and the same sheet with columns 1 and 3 exchanged. *)
Definition headers_13 : list string :=
["Alice"; "Unnamed: 1"; "Unnamed: 2"; "Unnamed: 3"; "Unnamed: 4"; "Unnamed: 5";
 "Unnamed: 6"; "Bob"; "Unnamed: 8"; "Unnamed: 9"; "Unnamed: 10"; "Unnamed: 11";
 "Unnamed: 12"].

Definition labels_remark_first : list cell :=
[CStr "日期"; CStr "备注"; CStr "新招呼"; CStr "补刀次数"; CStr "交换微信"; CStr "添加微信"; CNa;
 CStr "日期"; CStr "曝光"; CStr "新招呼"; CStr "补刀次数"; CStr "交换微信"; CStr "添加微信"].

Definition labels_remark_third : list cell :=
[CStr "日期"; CStr "补刀次数"; CStr "新招呼"; CStr "备注"; CStr "交换微信"; CStr "添加微信"; CNa;
 CStr "日期"; CStr "曝光"; CStr "新招呼"; CStr "补刀次数"; CStr "交换微信"; CStr "添加微信"].

(** The labels of scenario A, and the same with columns 1 and 3
    exchanged. *)
Definition labels_13 : list cell :=
[CStr "日期"; CStr "曝光"; CStr "新招呼"; CStr "补刀次数"; CStr "交换微信"; CStr "添加微信"; CNa;
 CStr "日期"; CStr "曝光"; CStr "新招呼"; CStr "补刀次数"; CStr "交换微信"; CStr "添加微信"].

Definition labels_13_swapped : list cell :=
[CStr "日期"; CStr "补刀次数"; CStr "新招呼"; CStr "曝光"; CStr "交换微信"; CStr "添加微信"; CNa;
 CStr "日期"; CStr "曝光"; CStr "新招呼"; CStr "补刀次数"; CStr "交换微信"; CStr "添加微信"].

(** The exchange of positions 1 and 3. *)
Definition swap_1_3 (i : nat) : nat :=
match i with
| 1%nat => 3%nat
| 3%nat => 1%nat
| _ => i
end.

Local Close Scope string_scope.

(** The rows of [output] that share a date are in the order they have in
    [input]: a stable sort keeps the order of ties. *)
Definition keeps_order_of_ties (input output : list (cell * list cell)) : Prop :=
forall t,
  filter (fun dr => date_key (fst dr) =? t) output
  = filter (fun dr => date_key (fst dr) =? t) input.

(** The rows of a table are in the order of their dates. *)
Definition date_le (r1 r2 : cell * list cell) : Prop :=
date_key (fst r1) <= date_key (fst r2).

(** The rows of the sheet that the Table Builder retains, in the order of
    the sheet. *)
Definition retained_rows (parse : date_parser)
  (df : DataFrame) (header_row : list cell) (date_col : Series)
  : list (cell * list cell) :=
filter (fun dr => notna (fst dr))
       (dated_rows (mapped_frame parse df header_row date_col)).

(** A sheet of 12 columns with 18 data rows of the same day, numbered 1 to
    18 in the exposure column of user 1. *)
Definition tie_row (k : Z) : list cell :=
[CInt 45657; CInt k; CInt 0; CInt 0; CInt 0; CNa; CNa;
 CInt 45657; CInt 0; CInt 0; CInt 0; CInt 0].

Definition workbook_ties : Workbook :=
mkWorkbook true [names_12; labels_12]
  (frame_of_rows headers_12
     (labels_12 :: map tie_row [1; 2; 3; 4; 5; 6; 7; 8; 9; 10; 11; 12; 13; 14; 15; 16; 17; 18])).

Definition table_ties : DataFrame :=
Eval vm_compute in
  match load_excel_data sample_parser workbook_ties with
  | Ok df => df
  | Raise _ => []
  end.



(** ** Notions for the further properties of the loader *)

(** [int(x)] for a number cell. *)
Definition num_trunc (x : cell) : option Z :=
match x with
| CInt z => Some z
| CFloat f => trunc f
| _ => None
end.

(** [x < 0] for a number cell. *)
Definition negative (x : cell) : bool :=
match x with
| CInt z => (z <? 0)%Z
| CFloat f => lt_Z f 0
| _ => false
end.

(** The normalised date of a cell is a date, not NaT. *)
Definition has_date (parse : date_parser) (x : cell) : bool :=
match safe_convert_date parse x with
| Some _ => true
| None => false
end.

Local Open Scope string_scope.

(** The names of the metric columns of a table. *)
Definition canonical_fields : list string :=
[ "user1_exposure"; "user1_greet"; "user1_kill"; "user1_exchange"; "user1_add";
  "user2_exposure"; "user2_greet"; "user2_kill"; "user2_exchange"; "user2_add" ].

Local Close Scope string_scope.

(** The error is one that [load_excel_data] lets out: FileNotFoundError, or
    a ValueError (raised by the checks, or wrapping another exception). *)
Definition is_load_error (e : error) : bool :=
match e with
| FileNotFoundError | ReadFailed | EmptyFile | TooFewColumns _
| NoParsableDates _ _ => true
| _ => false
end.

(** The positions of [l] whose key in [v] is [t]. *)
Definition with_key (v : list Z) (t : Z) (l : list nat) : list nat :=
filter (fun i => Npysort.key v i =? t) l.

(** The field under which the loader stores column [i] of the sheet: the
    field that its label names, and else the field it gets by position. *)
Definition field_of_column (header_row : list cell) (i : nat) : option string :=
match label_field header_row i with
| Some f => Some f
| None => positional_field i
end.

Local Open Scope string_scope.

(** A frame whose date column holds text. *)
Definition text_dates : DataFrame :=
[ ("date", [CStr "2024-12-31"; CStr "2025-01-01"]);
  ("user1_exposure", [CInt 10; CInt 20]) ].

Local Close Scope string_scope.

(** The conversion rate of one row of two columns of a numeric dtype, from
    the add count [x] and the exchange count [y]: [x / y * 100] in
    binary64. *)
Definition rate (x y : f64) : f64 := mul (div x y) (of_Z 100).

(** The rates of two columns, row by row. *)
Definition rates (xs ys : list f64) : list f64 :=
map (fun p => rate (fst p) (snd p)) (combine xs ys).

(** The statistics [st] of a column whose present values are [vs]: the
    maximum and the minimum are values of the column, no value is above
    the maximum, and none is below the minimum. *)
Definition extremes_of (vs : list f64) (st : Stats) : Prop :=
In (stat_max st) vs /\ In (stat_min st) vs /\
forall x, In x vs -> ltb (stat_max st) x = false /\ ltb x (stat_min st) = false.

(** The order of [ltb] on the floats that are not NaN is the order of the
    triples (class, exponent, mantissa), the last two negated for a
    negative float. *)
Definition float_rank (x : f64) : Z * Z * Z :=
match x with
| S754_nan => (0, 0, 0)
| S754_infinity true => (-2, 0, 0)
| S754_infinity false => (2, 0, 0)
| S754_zero _ => (0, 0, 0)
| S754_finite true m e => (-1, - e, - Z.pos m)
| S754_finite false m e => (1, e, Z.pos m)
end.

Definition rank_lt (a b : Z * Z * Z) : Prop :=
fst (fst a) < fst (fst b) \/
(fst (fst a) = fst (fst b) /\
 (snd (fst a) < snd (fst b) \/ (snd (fst a) = snd (fst b) /\ snd a < snd b))).

(** The date of the first row is before the date of the second. *)
Definition date_lt (r1 r2 : cell * list cell) : Prop :=
date_key (fst r1) < date_key (fst r2).

(** A sheet of 12 columns with three data rows of the same day, numbered 1
    to 3 in the exposure column of user 1, and the table built from it. *)
Definition workbook_three_ties : Workbook :=
mkWorkbook true [names_12; labels_12]
  (frame_of_rows headers_12 (labels_12 :: map tie_row [1; 2; 3])).

Definition table_three_ties : DataFrame :=
Eval vm_compute in
  match load_excel_data sample_parser workbook_three_ties with
  | Ok df => df
  | Raise _ => []
  end.

(** Some column of the sheet is mapped to the field [f]. *)
Definition is_mapped (headers : list string) (header_row : list cell)
  (f : string) : Prop :=
exists j, (j < length headers)%nat /\ field_of_column header_row j = Some f.

(** ** The display names of the two users: load_excel_data, first part

    The loader reads the names of the two users from the first row of the
    sheet, at columns 0 and 7, and returns them beside the table.  [py_str]
    is [str] on a cell: the text itself for a text cell, and for the other
    cells the text that Python prints for the object. *)

Section UserNames.

Variable py_str : cell -> string.

Local Open Scope string_scope.

(** [str(first_row.iloc[i]).strip()] when the row has a cell at [i] that is
    not blank, and the default name otherwise. *)
Definition user_name (first_row : list cell) (i : nat) (default : string) : string :=
match nth_error first_row i with
| Some c => if notna c then strip (py_str c) else default
| None => default
end.

Definition user_names (first_row : list cell) : string * string :=
(user_name first_row 0 "用户1", user_name first_row 7 "用户2").

Variable to_datetime : date_parser.

(** [load_excel_data(file_path)] with the two values it returns: the table
    and the names. *)
Definition load_excel_data_with_names (wb : Workbook)
  : result (DataFrame * (string * string)) :=
match load_excel_data to_datetime wb with
| Ok new_df =>
    match nth_error (wb_raw wb) 0 with
    | Some first_row => Ok (new_df, user_names first_row)
    | None => Raise ReadFailed
    end
| Raise e => Raise e
end.

Local Close Scope string_scope.

End UserNames.

(** [str] on the cells of the examples, which hold text or nothing. *)
Definition str_of_text (c : cell) : string :=
match c with
| CStr s => s
| _ => ""%string
end.

(** The text starts with a white space character; a text without white
    space at its start. *)
Definition starts_with_space (s : string) : bool :=
match s with
| String a r =>
    is_space a
    || match r with
       | String b r2 =>
           is_space2 a b
           || match r2 with
              | String c _ => is_space3 a b c
              | EmptyString => false
              end
       | EmptyString => false
       end
| EmptyString => false
end.

Definition starts_clean (s : string) : Prop := starts_with_space s = false.

(** A label cell with the white space around its text removed. *)
Definition strip_text (c : cell) : cell :=
match c with
| CStr s => CStr (strip s)
| _ => c
end.

(** ** The default date range of the application: app.py, main

    For a table that is not empty the application offers the last 30 days
    of the table as the date range, bounded by the first and the last day
    of the table.  A calendar day is its number of days since 1970-01-01. *)







(** * Properties *)

(** ** Date Normalizer *)

Lemma compare_ge_true (a b : Z) :
  match a ?= b with Gt | Eq => true | Lt => false end = true -> b <= a.
Proof. destruct (Z.compare_spec a b); intros; try discriminate; lia. Qed.

Lemma compare_le_true (a b : Z) :
  match a ?= b with Lt | Eq => true | Gt => false end = true -> a <= b.
Proof. destruct (Z.compare_spec a b); intros; try discriminate; lia. Qed.

Lemma compare_lt_false (a b : Z) :
  b <= a -> match a ?= b with Lt => true | _ => false end = false.
Proof. destruct (Z.compare_spec a b); intros; try reflexivity; lia. Qed.

Lemma in_range_float_floor (f : f64) :
  Z_le 1 f && le_Z f 100000 = true ->
  exists d, floor f = Some d /\ trunc f = Some d /\
            1 <= d <= 100000 /\ lt_Z f 0 = false.
Proof.
  intros H. apply andb_prop in H. destruct H as [H1 H2].
  destruct f as [s | s | | s m e];
    unfold Z_le, le_Z, lt_Z, cmp_Z, floor, trunc in *;
    try (simpl in H1; discriminate).
  - destruct s; discriminate.
  - destruct (0 <=? e) eqn:He.
    + apply compare_ge_true in H1. apply compare_le_true in H2.
      exists (smant s m * 2 ^ e). repeat split; try lia.
      apply compare_lt_false. lia.
    + apply Z.leb_gt in He.
      apply compare_ge_true in H1. apply compare_le_true in H2.
      assert (Hk : 0 < 2 ^ (- e)) by (apply Z.pow_pos_nonneg; lia).
      exists (smant s m / 2 ^ (- e)). repeat split.
      * rewrite Z.quot_div_nonneg by lia. reflexivity.
      * apply Z.div_le_lower_bound; lia.
      * apply Z.div_le_upper_bound; lia.
      * apply compare_lt_false. lia.
Qed.

Lemma in_range_floor (x : cell) :
  in_day_count_range x = true ->
  exists d, num_floor x = Some d /\ 1 <= d <= 100000 /\
            convert_excel_date x = Some (base_date + d * ns_per_day) /\
            isna x = false.
Proof.
  destruct x as [ | z | f | s | t | ];
    unfold in_day_count_range, num_floor, convert_excel_date, isna;
    try discriminate.
  - intros H. apply andb_prop in H. destruct H as [H1 H2].
    apply Z.leb_le in H1. apply Z.leb_le in H2.
    exists z. repeat split; try lia.
    destruct (z <? 0) eqn:E; [apply Z.ltb_lt in E; lia | ].
    destruct (z <=? datetime_max_day) eqn:E'; [reflexivity | ].
    apply Z.leb_gt in E'. unfold datetime_max_day in E'. lia.
  - intros H. destruct (in_range_float_floor f H) as (d & Hf & Ht & Hd & Hn).
    exists d. repeat split; try lia; try assumption.
    + rewrite Hn, Ht.
      destruct (d <=? datetime_max_day) eqn:E'; [reflexivity | ].
      apply Z.leb_gt in E'. unfold datetime_max_day in E'. lia.
    + destruct f; try reflexivity. discriminate.
Qed.

(** C10.  For every numeric input [x] with [1 <= x <= 100000] the Date
    Normalizer discards the fractional part: the result is the epoch
    1899-12-30 plus [floor x] whole days, the same date as for the input
    [floor x]. *)
Theorem C10_day_count_is_truncated
  (parse : date_parser) (x : cell) :
  in_day_count_range x = true ->
  exists d,
    num_floor x = Some d /\
    safe_convert_date parse x = Some (base_date + d * ns_per_day) /\
    safe_convert_date parse (CInt d) = safe_convert_date parse x.
Proof.
  intros H. destruct (in_range_floor x H) as (d & Hd & Hr & Hc & Hn).
  exists d. split; [assumption | ].
  assert (Hx : safe_convert_date parse x = Some (base_date + d * ns_per_day)).
  { unfold safe_convert_date. rewrite Hn, H.
    destruct x; try discriminate; exact Hc. }
  split; [exact Hx | ].
  rewrite Hx. unfold safe_convert_date, isna, in_day_count_range, convert_excel_date.
  destruct (1 <=? d) eqn:E1; [ | apply Z.leb_gt in E1; lia].
  destruct (d <=? 100000) eqn:E2; [ | apply Z.leb_gt in E2; lia].
  cbn [andb].
  destruct (d <? 0) eqn:E3; [apply Z.ltb_lt in E3; lia | ].
  destruct (d <=? datetime_max_day) eqn:E4; [reflexivity | ].
  apply Z.leb_gt in E4. unfold datetime_max_day in E4. lia.
Qed.

(** A witness of C10: the day-count 45657.75 gives the date of day 45657. *)
Lemma C10_witness :
  exists d,
    num_floor (CFloat (S754_finite false 6275153377886208 (-37))) = Some d /\
    safe_convert_date no_parser
      (CFloat (S754_finite false 6275153377886208 (-37)))
    = Some (base_date + d * ns_per_day) /\
    safe_convert_date no_parser (CInt d)
    = safe_convert_date no_parser
        (CFloat (S754_finite false 6275153377886208 (-37))).
Proof.
  apply (C10_day_count_is_truncated no_parser
           (CFloat (S754_finite false 6275153377886208 (-37)))).
  vm_compute. reflexivity.
Defined.

Lemma below_one_not_in_range (x : cell) :
  below_one x = true -> isna x = false /\ in_day_count_range x = false.
Proof.
  destruct x as [ | z | f | s | t | ];
    unfold below_one, isna, in_day_count_range; try discriminate.
  - intros H. apply Z.ltb_lt in H. split; [reflexivity | ].
    destruct (1 <=? z) eqn:E; [apply Z.leb_le in E; lia | reflexivity].
  - unfold lt_Z, Z_le. intros H.
    destruct (cmp_Z f 1) as [[ | | ] | ] eqn:E; try discriminate.
    split; [ | reflexivity].
    destruct f; try reflexivity. discriminate.
Qed.

Lemma origin_of_int (parse : date_parser) (z : Z) :
  -81182 <= z <= 132320 ->
  to_datetime_origin parse (CInt z) = Some (base_date + z * ns_per_day).
Proof.
  intros [Hl Hu]. unfold to_datetime_origin.
  apply Z.leb_le in Hl. apply Z.leb_le in Hu. rewrite Hl, Hu. reflexivity.
Qed.

Lemma origin_of_other_int (parse : date_parser) (z : Z) :
  z < -81182 \/ 132320 < z ->
  to_datetime_origin parse (CInt z) = parse_days parse (CInt z).
Proof.
  intros H. unfold to_datetime_origin.
  destruct (Z.leb_spec (-81182) z) as [Hl | Hl];
    [destruct (Z.leb_spec z 132320) as [Hu | Hu]; [lia | ] | ]; reflexivity.
Qed.

(** C3, as the code has it.  A numeric input below 1 (every negative number,
    0, and 0.999) is outside the day-count range and is handed to the
    fallback conversion [pd.to_datetime(x, origin='1899-12-30', unit='D')];
    the check of [convert_excel_date] that rejects a negative number is not
    reached.  An integer [z] from -81182 to 0 is given the date [z] days
    from the epoch 1899-12-30, a date and not the "no date" marker; every
    other number below 1 is given what the call of pandas returns for it,
    and the marker only when that call raises or returns NaT. *)
Theorem C3_below_range_uses_fallback (parse : date_parser) (x : cell) :
  below_one x = true ->
  match x with
  | CInt z =>
      safe_convert_date parse x
      = if -81182 <=? z then Some (base_date + z * ns_per_day)
        else parse_days parse x
  | _ => safe_convert_date parse x = parse_days parse x
  end.
Proof.
  intros H. destruct (below_one_not_in_range x H) as [Hn Hr].
  assert (Hs : safe_convert_date parse x = to_datetime_origin parse x).
  { unfold safe_convert_date. rewrite Hn, Hr.
    destruct x; try discriminate; reflexivity. }
  destruct x as [ | z | f | s | t | ]; try discriminate H.
  - rewrite Hs. unfold below_one in H. apply Z.ltb_lt in H.
    destruct (Z.leb_spec (-81182) z) as [Hl | Hl].
    + apply origin_of_int. lia.
    + apply origin_of_other_int. left. exact Hl.
  - rewrite Hs. reflexivity.
Qed.

(** A witness of C3: the inputs -5 and 0.999. *)
Lemma C3_witness :
  safe_convert_date no_parser (CInt (-5))
  = (if -81182 <=? -5 then Some (base_date + -5 * ns_per_day)
     else parse_days no_parser (CInt (-5))) /\
  safe_convert_date no_parser (CFloat f_0_999) = parse_days no_parser (CFloat f_0_999).
Proof.
  split.
  - apply (C3_below_range_uses_fallback no_parser (CInt (-5))). reflexivity.
  - apply (C3_below_range_uses_fallback no_parser (CFloat f_0_999)). reflexivity.
Defined.

(** C3 as stated fails: the input -5 is a negative number, and it is given
    the date five days before the epoch, 1899-12-25, whatever pandas reads
    elsewhere. *)
Lemma C3_minus_five_gets_a_date :
  negative (CInt (-5)) = true /\
  (forall parse, safe_convert_date parse (CInt (-5)) = Some (-2209593600000000000)).
Proof.
  split; [reflexivity | ]. intros parse. vm_compute. reflexivity.
Qed.

(** ** Conversion rate *)

(** The rate of one row. *)
Lemma conversion_rate_row (a e : cell) (x y : f64) :
  to_float a = Some x -> to_float e = Some y ->
  conversion_rate [a] [e] = Ok [CFloat (mul (div x y) (of_Z 100))].
Proof.
  intros Ha He. unfold conversion_rate, series_div, series_mul.
  cbn [as_float64 bind]. rewrite Ha, He. reflexivity.
Qed.

(** A missing operand gives a missing rate, and so does 0 / 0. *)
Lemma rate_of_missing_operand (x y : f64) :
  is_nan x = true \/ is_nan y = true \/ (is_zero x = true /\ is_zero y = true) ->
  is_nan (mul (div x y) (of_Z 100)) = true.
Proof.
  intros [H | [H | [H1 H2]]].
  - destruct x; try discriminate. reflexivity.
  - destruct y; try discriminate. destruct x; reflexivity.
  - destruct x; try discriminate. destruct y; try discriminate. reflexivity.
Qed.

(** A finite add count that is not zero, divided by an exchange count of
    zero, gives an infinite rate. *)
Lemma rate_of_division_by_zero (s : bool) (m : positive) (e : Z) (s' : bool) :
  mul (div (S754_finite s m e) (S754_zero s')) (of_Z 100)
  = S754_infinity (xorb (xorb s s') false).
Proof. reflexivity. Qed.

(** C1, at the input of scenario D.  With exchange = 0 and add = 5 the
    conversion rate of the row is +infinity, which is not a missing value:
    the operation does not raise, and the rate is not absent. *)
Theorem C1_zero_exchange_gives_infinity :
  exists out,
    fst (calculate_conversion_rates scenario_D) = Ok out /\
    get_col out "user1_conversion_rate" = Some [CFloat pinf] /\
    isna (CFloat pinf) = false.
Proof.
  eexists. split; [vm_compute; reflexivity | ].
  split; reflexivity.
Qed.

(** ** Statistics *)

Lemma count_present (xs : list f64) : count xs = length (present xs).
Proof. reflexivity. Qed.

(** The filling infinity is neutral for the maximum and for the minimum of
    values that are not NaN. *)
Lemma fmax_ninf_r (a : f64) : is_nan a = false -> fmax a ninf = a.
Proof. destruct a as [s | [ | ] | | [ | ] m e]; try discriminate; reflexivity. Qed.

Lemma fmax_ninf_l (a : f64) : is_nan a = false -> fmax ninf a = a.
Proof. destruct a as [s | [ | ] | | [ | ] m e]; try discriminate; reflexivity. Qed.

Lemma fmin_pinf_r (a : f64) : is_nan a = false -> fmin a pinf = a.
Proof. destruct a as [s | [ | ] | | [ | ] m e]; try discriminate; reflexivity. Qed.

Lemma fmin_pinf_l (a : f64) : is_nan a = false -> fmin pinf a = a.
Proof. destruct a as [s | [ | ] | | [ | ] m e]; try discriminate; reflexivity. Qed.

Lemma fmax_not_nan (a b : f64) :
  is_nan a = false -> is_nan b = false -> is_nan (fmax a b) = false.
Proof. intros Ha Hb. unfold fmax. destruct (ltb a b); assumption. Qed.

Lemma fmin_not_nan (a b : f64) :
  is_nan a = false -> is_nan b = false -> is_nan (fmin a b) = false.
Proof. intros Ha Hb. unfold fmin. destruct (ltb b a); assumption. Qed.

Section Reduce.

(** A reduction [op] with a filling value [v] that is neutral on the values
    that are not NaN. *)
Variable op : f64 -> f64 -> f64.
Variable v : f64.
Hypothesis v_not_nan : is_nan v = false.
Hypothesis op_v_r : forall a, is_nan a = false -> op a v = a.
Hypothesis op_v_l : forall a, is_nan a = false -> op v a = a.
Hypothesis op_not_nan :
  forall a b, is_nan a = false -> is_nan b = false -> is_nan (op a b) = false.

Lemma fold_fill_present (xs : list f64) (acc : f64) :
  is_nan acc = false ->
  fold_left op (fill v xs) acc = fold_left op (present xs) acc.
Proof.
  revert acc. induction xs as [ | x xs IH]; intros acc H; [reflexivity | ].
  unfold fill, present in *. cbn [map filter fold_left].
  destruct (is_nan x) eqn:E; cbn [negb fold_left].
  - rewrite op_v_r by exact H. apply IH. exact H.
  - apply IH. apply op_not_nan; assumption.
Qed.

Lemma fold_fill_from_v (xs : list f64) :
  present xs <> [] ->
  fold_left op (fill v xs) v = np_reduce op (present xs).
Proof.
  induction xs as [ | x xs IH]; intros H; [contradiction H; reflexivity | ].
  unfold fill, present in *. cbn [map filter fold_left] in *.
  destruct (is_nan x) eqn:E; cbn [negb] in *.
  - rewrite op_v_r by exact v_not_nan. apply IH. exact H.
  - rewrite op_v_l by exact E. cbn [np_reduce].
    apply fold_fill_present. exact E.
Qed.

Lemma reduce_fill_present (xs : list f64) :
  present xs <> [] ->
  np_reduce op (fill v xs) = np_reduce op (present xs).
Proof.
  destruct xs as [ | x xs]; intros H; [contradiction H; reflexivity | ].
  unfold fill, present in *. cbn [map filter np_reduce] in *.
  destruct (is_nan x) eqn:E; cbn [negb np_reduce] in *.
  - apply fold_fill_from_v. exact H.
  - apply fold_fill_present. exact E.
Qed.

End Reduce.

Lemma nanmax_present (xs : list f64) : nanmax xs = max_of (present xs).
Proof.
  unfold nanmax, max_of. rewrite count_present.
  destruct (present xs) as [ | y ys] eqn:E; [reflexivity | ].
  cbn [length Nat.eqb]. rewrite <- E.
  apply (reduce_fill_present fmax ninf); auto using fmax_ninf_r, fmax_ninf_l, fmax_not_nan.
  rewrite E. discriminate.
Qed.

Lemma nanmin_present (xs : list f64) : nanmin xs = min_of (present xs).
Proof.
  unfold nanmin, min_of. rewrite count_present.
  destruct (present xs) as [ | y ys] eqn:E; [reflexivity | ].
  cbn [length Nat.eqb]. rewrite <- E.
  apply (reduce_fill_present fmin pinf); auto using fmin_pinf_r, fmin_pinf_l, fmin_not_nan.
  rewrite E. discriminate.
Qed.

Lemma series_stats_present (s : Series) (xs : list f64) :
  as_float64 s = Ok xs ->
  exists st, series_stats s = Ok st /\ stats_over_present xs st.
Proof.
  intros H. unfold series_stats. rewrite H. cbn [bind].
  eexists. split; [reflexivity | ].
  unfold stats_over_present. cbn [stat_max stat_min].
  split; [apply nanmax_present | apply nanmin_present].
Qed.

(** ** Frames: columns and rows under a selection of rows *)

Lemma get_col_take (idx : list nat) (df : DataFrame) (name : string) :
  get_col (take_rows idx df) name = option_map (take idx) (get_col df name).
Proof.
  unfold get_col, take_rows.
  induction df as [ | [n c] df IH]; [reflexivity | ].
  cbn [map dict_get fst snd]. destruct (String.eqb n name); [reflexivity | exact IH].
Qed.

Lemma take_length (idx : list nat) (s : Series) : length (take idx s) = length idx.
Proof. unfold take. apply length_map. Qed.

Lemma nrows_take (idx : list nat) (df : DataFrame) :
  df <> [] -> nrows (take_rows idx df) = length idx.
Proof.
  destruct df as [ | [n c] df]; [intros H; contradiction H; reflexivity | ].
  intros _. cbn [take_rows map nrows fst snd]. apply take_length.
Qed.

Lemma well_formed_take (idx : list nat) (df : DataFrame) :
  well_formed (take_rows idx df).
Proof.
  unfold well_formed. destruct df as [ | [n c] df]; [constructor | ].
  rewrite nrows_take by discriminate.
  apply Forall_forall. intros [n' c'] Hin.
  unfold take_rows in Hin. apply in_map_iff in Hin.
  destruct Hin as ([n0 c0] & E & _). inversion E; subst.
  cbn [snd]. apply take_length.
Qed.

Lemma get_col_in (df : DataFrame) (name : string) (c : Series) :
  get_col df name = Some c -> In (name, c) df.
Proof.
  unfold get_col. induction df as [ | [n c0] df IH]; [discriminate | ].
  cbn [dict_get]. destruct (String.eqb n name) eqn:E.
  - intros H. inversion H; subst. apply String.eqb_eq in E. subst. left. reflexivity.
  - intros H. right. apply IH. exact H.
Qed.

Lemma get_col_length (df : DataFrame) (name : string) (c : Series) :
  well_formed df -> get_col df name = Some c -> length c = nrows df.
Proof.
  intros W H. apply get_col_in in H.
  unfold well_formed in W. rewrite Forall_forall in W. apply (W _ H).
Qed.

Lemma nth_map_in_range {A B : Type} (f : A -> B) (l : list A) (k : nat) (d : A) (d' : B) :
  (k < length l)%nat -> nth k (map f l) d' = f (nth k l d).
Proof.
  intros H. rewrite (nth_indep _ d' (f d)) by (rewrite length_map; exact H).
  apply map_nth.
Qed.

Lemma map_nth_seq {A : Type} (f : nat -> A) (idx : list nat) :
  map (fun k => f (nth k idx 0%nat)) (seq 0 (length idx)) = map f idx.
Proof.
  induction idx as [ | i idx IH]; [reflexivity | ].
  cbn [length seq map nth]. f_equal.
  rewrite <- seq_shift, map_map. exact IH.
Qed.

Lemma row_at_take (idx : list nat) (df : DataFrame) (k : nat) :
  (k < length idx)%nat ->
  row_at (take_rows idx df) k = row_at df (nth k idx 0%nat).
Proof.
  intros H. unfold row_at, take_rows. rewrite map_map.
  apply map_ext. intros [n c]. cbn [fst snd]. unfold take.
  apply (nth_map_in_range (fun i => nth i c CNa) idx k 0%nat CNa). exact H.
Qed.

Lemma rows_take (idx : list nat) (df : DataFrame) :
  df <> [] -> rows (take_rows idx df) = map (row_at df) idx.
Proof.
  intros H. unfold rows. rewrite nrows_take by exact H.
  rewrite <- (map_nth_seq (row_at df) idx).
  apply map_ext_in. intros k Hk. apply in_seq in Hk.
  apply row_at_take. lia.
Qed.

(** The dated row at a position. *)
Lemma combine_map_same {A B C : Type} (f : A -> B) (g : A -> C) (l : list A) :
  combine (map f l) (map g l) = map (fun x => (f x, g x)) l.
Proof. induction l as [ | x l IH]; [reflexivity | ]. cbn. f_equal. exact IH. Qed.

Lemma map_seq_nth (s : Series) :
  map (fun k => nth k s CNa) (seq 0 (length s)) = s.
Proof.
  induction s as [ | c s IH]; [reflexivity | ].
  cbn [length seq map nth]. f_equal.
  rewrite <- seq_shift, map_map. exact IH.
Qed.

Lemma dated_rows_seq (df : DataFrame) (date : Series) :
  well_formed df -> get_col df "date" = Some date ->
  dated_rows df
  = map (fun i => (nth i date CNa, row_at df i)) (seq 0 (nrows df)).
Proof.
  intros W H. unfold dated_rows. rewrite H. unfold rows.
  rewrite <- (get_col_length df _ date W H).
  rewrite <- (map_seq_nth date) at 1.
  apply combine_map_same.
Qed.

Lemma dated_rows_take (idx : list nat) (df : DataFrame) (date : Series) :
  get_col df "date" = Some date ->
  dated_rows (take_rows idx df)
  = map (fun i => (nth i date CNa, row_at df i)) idx.
Proof.
  intros H. unfold dated_rows. rewrite get_col_take, H. cbn [option_map].
  rewrite rows_take.
  - unfold take. apply combine_map_same.
  - intros E. subst. discriminate.
Qed.

Lemma where_from_filter (mask : list bool) (i : nat) :
  where_from i mask
  = filter (fun k => nth (k - i) mask false) (seq i (length mask)).
Proof.
  revert i. induction mask as [ | b mask IH]; intros i; [reflexivity | ].
  assert (E : filter (fun k => nth (k - i) (b :: mask) false) (seq (S i) (length mask))
              = where_from (S i) mask).
  { rewrite IH. apply filter_ext_in. intros k Hk. apply in_seq in Hk.
    replace (k - i)%nat with (S (k - S i)) by lia. reflexivity. }
  change (seq i (length (b :: mask))) with (i :: seq (S i) (length mask)).
  change (filter ?f (i :: ?l)) with (if f i then i :: filter f l else filter f l).
  cbv beta. rewrite E, Nat.sub_diag. reflexivity.
Qed.

Lemma where_map (p : cell -> bool) (l : Series) :
  where_ (map p l) = filter (fun k => p (nth k l CNa)) (seq 0 (length l)).
Proof.
  unfold where_. rewrite where_from_filter, length_map.
  apply filter_ext_in. intros k Hk. apply in_seq in Hk.
  rewrite Nat.sub_0_r. apply (nth_map_in_range p l k CNa false). lia.
Qed.

Lemma map_filter_comm {A B : Type} (g : A -> B) (P : B -> bool) (l : list A) :
  map g (filter (fun x => P (g x)) l) = filter P (map g l).
Proof.
  induction l as [ | x l IH]; [reflexivity | ].
  cbn [filter map]. destruct (P (g x)); cbn [map]; rewrite IH; reflexivity.
Qed.

(** Boolean indexing keeps the dated rows at which the mask holds, in
    their order. *)
Lemma dated_rows_select (p : cell -> bool) (df : DataFrame) (date : Series) :
  well_formed df -> get_col df "date" = Some date ->
  dated_rows (select_rows (map p date) df)
  = filter (fun dr => p (fst dr)) (dated_rows df).
Proof.
  intros W H. unfold select_rows.
  rewrite (dated_rows_take _ df date H), (dated_rows_seq df date W H).
  rewrite where_map, (get_col_length df _ date W H).
  apply (map_filter_comm (fun i => (nth i date CNa, row_at df i))
                         (fun dr => p (fst dr))).
Qed.

(** ** Range filter *)




Lemma time_cells_are_datetime (s : Series) :
  forallb is_time_cell s = true -> is_datetime64_any_dtype s = true.
Proof.
  unfold is_datetime64_any_dtype. intros H.
  rewrite forallb_forall in *. intros c Hc. specialize (H c Hc).
  destruct c; try discriminate; reflexivity.
Qed.

Lemma in_date_range_within (s e : Z) (c : cell) :
  in_date_range (Some s) (Some e) c = date_within s e c.
Proof. destruct c; reflexivity. Qed.


Lemma date_within_is_time (s e : Z) (c : cell) :
  date_within s e c = true -> is_time_cell c = true.
Proof. destruct c; try discriminate; reflexivity. Qed.

(** The cells of a selection by a mask [map p date] satisfy [p]. *)
Lemma take_where_satisfy (p : cell -> bool) (date : Series) (c : cell) :
  In c (take (where_ (map p date)) date) -> p c = true.
Proof.
  unfold take. rewrite where_map. intros H. apply in_map_iff in H.
  destruct H as (k & E & Hk). apply filter_In in Hk. destruct Hk as [_ Hp].
  subst c. exact Hp.
Qed.

Lemma filter_none {A : Type} (p : A -> bool) (l : list A) :
  (forall x, In x l -> p x = false) -> filter p l = [].
Proof.
  induction l as [ | x l IH]; intros H; [reflexivity | ].
  cbn [filter]. rewrite (H x) by (left; reflexivity).
  apply IH. intros y Hy. apply H. right. exact Hy.
Qed.

(** On a MetricTable the range filter returns a fresh frame and leaves the
    table as it is. *)
Lemma filter_metric_table
  (parse : date_parser) (df : DataFrame) (date : Series)
  (start_date end_date : string) (s e : Z) :
  get_col df "date" = Some date -> forallb is_time_cell date = true ->
  parse start_date = Some (Some s) -> parse end_date = Some (Some e) ->
  filter_by_date_range parse df start_date end_date
  = (Ok (select_rows (map (date_within s e) date) df), df).
Proof.
  intros Hd Ht Hs He. unfold filter_by_date_range, parse_bound, getitem.
  rewrite Hs, He, Hd, (time_cells_are_datetime date Ht), Hd.
  replace (map (in_date_range (Some s) (Some e)) date)
    with (map (date_within s e) date); [reflexivity | ].
  apply map_ext. intros c. symmetry. apply in_date_range_within.
Qed.

Lemma select_metric_table (s e : Z) (df : DataFrame) (date : Series) :
  get_col df "date" = Some date ->
  is_metric_table (select_rows (map (date_within s e) date) df).
Proof.
  intros Hd. split; [apply well_formed_take | ].
  exists (take (where_ (map (date_within s e) date)) date). split.
  - unfold select_rows. rewrite get_col_take, Hd. reflexivity.
  - apply forallb_forall. intros c Hc. apply take_where_satisfy in Hc.
    apply (date_within_is_time s e). exact Hc.
Qed.


Lemma sample_exposure_is_metric_table : is_metric_table sample_exposure.
Proof.
  split.
  - repeat constructor.
  - eexists. split; reflexivity.
Qed.



(** ** The query layer is read-only *)

Lemma filter_leaves_metric_table
  (parse : date_parser) (df : DataFrame)
  (start_date end_date : string) :
  is_metric_table df ->
  snd (filter_by_date_range parse df start_date end_date) = df.
Proof.
  intros (W & date & Hd & Ht). unfold filter_by_date_range, getitem.
  destruct (parse_bound parse start_date); [ | reflexivity].
  destruct (parse_bound parse end_date); [ | reflexivity].
  rewrite Hd, (time_cells_are_datetime date Ht), Hd. reflexivity.
Qed.

Lemma run_query_leaves_metric_table
  (parse : date_parser) (q : query) (df : DataFrame) :
  is_metric_table df -> snd (run_query parse q df) = df.
Proof.
  intros H. destruct q; cbn [run_query snd]; try reflexivity.
  apply filter_leaves_metric_table. exact H.
Qed.

Lemma run_queries_leaves_metric_table
  (parse : date_parser) (qs : list query) (df : DataFrame) :
  is_metric_table df -> run_queries parse qs df = df.
Proof.
  intros H. unfold run_queries. induction qs as [ | q qs IH]; [reflexivity | ].
  cbn [fold_left]. rewrite run_query_leaves_metric_table by exact H. exact IH.
Qed.

(** C8.  Every operation of the query layer (range filter, metric lookup,
    dual-metric lookup, conversion rate, statistics) leaves the MetricTable
    it is applied to unchanged; hence after any sequence of operations an
    operation gives the answer it gives on the fresh table. *)
Theorem C8_query_layer_is_read_only
  (parse : date_parser) (df : DataFrame) :
  is_metric_table df ->
  (forall q, snd (run_query parse q df) = df) /\
  (forall qs q,
      fst (run_query parse q (run_queries parse qs df))
      = fst (run_query parse q df)).
Proof.
  intros H. split.
  - intros q. apply run_query_leaves_metric_table. exact H.
  - intros qs q. rewrite run_queries_leaves_metric_table by exact H. reflexivity.
Qed.

(** A witness of C8: the sample table. *)
Lemma C8_witness :
  (forall q, snd (run_query sample_parser q sample_exposure) = sample_exposure) /\
  (forall qs q,
      fst (run_query sample_parser q (run_queries sample_parser qs sample_exposure))
      = fst (run_query sample_parser q sample_exposure)).
Proof.
  apply (C8_query_layer_is_read_only sample_parser sample_exposure).
  exact sample_exposure_is_metric_table.
Defined.

(** The hypothesis of C8 is needed: on a frame whose date column holds
    text, the range filter converts the column of the caller's frame. *)
Example filter_converts_a_text_date_column :
  snd (filter_by_date_range sample_parser
         [("date"%string, [CStr "2024-12-31"])] "2024-12-31" "2025-01-01")
  = [("date"%string, [CTime 1735603200000000000])].
Proof. reflexivity. Qed.

(** ** Dicts and frames under assignment *)

Lemma dict_get_set_same {V : Type} (d : list (string * V)) (k : string) (v : V) :
  dict_get (dict_set d k v) k = Some v.
Proof.
  induction d as [ | [k' v'] d IH]; cbn [dict_set dict_get].
  - rewrite String.eqb_refl. reflexivity.
  - destruct (String.eqb k' k) eqn:E; cbn [dict_get]; rewrite E; [reflexivity | exact IH].
Qed.

Lemma dict_get_set_other {V : Type} (d : list (string * V)) (k k' : string) (v : V) :
  k <> k' -> dict_get (dict_set d k v) k' = dict_get d k'.
Proof.
  intros N. induction d as [ | [k0 v0] d IH]; cbn [dict_set dict_get].
  - destruct (String.eqb k k') eqn:E; [apply String.eqb_eq in E; contradiction | reflexivity].
  - destruct (String.eqb k0 k) eqn:E; cbn [dict_get].
    + apply String.eqb_eq in E. subst k0.
      destruct (String.eqb k k') eqn:E'; [apply String.eqb_eq in E'; contradiction | reflexivity].
    + destruct (String.eqb k0 k'); [reflexivity | exact IH].
Qed.

Lemma dict_set_values {V : Type} (Q : V -> Prop) (d : list (string * V))
  (k : string) (v : V) :
  Forall (fun it => Q (snd it)) d -> Q v ->
  Forall (fun it => Q (snd it)) (dict_set d k v).
Proof.
  intros H Hv. induction H as [ | [k' v'] d Hh Ht IH]; cbn [dict_set].
  - constructor; [exact Hv | constructor].
  - destruct (String.eqb k' k); constructor; auto.
Qed.

(** A frame that starts with its date column keeps it first under the
    assignment of another column. *)
Lemma set_col_keeps_head (name : string) (c s : Series) (rest : DataFrame) (k : string) :
  k <> name ->
  exists rest', set_col ((name, c) :: rest) k s = (name, c) :: rest'.
Proof.
  intros N. unfold set_col. cbn [dict_set].
  destruct (String.eqb name k) eqn:E.
  - apply String.eqb_eq in E. subst k. contradiction N. reflexivity.
  - eexists. reflexivity.
Qed.

Lemma build_new_df_head (df : DataFrame) (date : Series)
  (column_mapping : list (string * string)) :
  Forall (fun it => snd it <> "date"%string) column_mapping ->
  exists rest, build_new_df df date column_mapping = ("date"%string, date) :: rest.
Proof.
  unfold build_new_df. change (set_col [] "date" date) with [("date"%string, date)].
  generalize (@nil (string * Series)) as rest.
  induction column_mapping as [ | [old new] m IH]; intros rest H.
  - exists rest. reflexivity.
  - inversion H as [ | ? ? Hnew Hm]; subst. cbn [fold_left fst snd] in *.
    destruct (get_col df old) as [c | ].
    + destruct (set_col_keeps_head "date" date c rest new Hnew) as [rest' E].
      rewrite E. apply IH. exact Hm.
    + apply IH. exact Hm.
Qed.

(** ** The fields of the column mapping *)

Lemma field_of_label_cases (user hv f : string) :
  field_of_label user hv = Some f ->
  (hv = "曝光" /\ f = user ++ "_exposure")%string \/
  (hv = "新招呼" /\ f = user ++ "_greet")%string \/
  (hv = "补刀次数" /\ f = user ++ "_kill")%string \/
  (hv = "交换微信" /\ f = user ++ "_exchange")%string \/
  (hv = "添加微信" /\ f = user ++ "_add")%string.
Proof.
  unfold field_of_label.
  destruct (String.eqb hv "曝光") eqn:E1;
    [apply String.eqb_eq in E1; intros E; inversion E; auto | ].
  destruct (String.eqb hv "新招呼") eqn:E2;
    [apply String.eqb_eq in E2; intros E; inversion E; auto | ].
  destruct (String.eqb hv "补刀次数") eqn:E3;
    [apply String.eqb_eq in E3; intros E; inversion E; auto | ].
  destruct (String.eqb hv "交换微信") eqn:E4;
    [apply String.eqb_eq in E4; intros E; inversion E; auto 6 | ].
  destruct (String.eqb hv "添加微信") eqn:E5;
    [apply String.eqb_eq in E5; intros E; inversion E; auto 6 | ].
  discriminate.
Qed.

Section MappingValues.

(** A property [Q] of the two positional fields and of every field read
    from a label of the header row holds of every field of the mapping. *)
Variable Q : string -> Prop.
Variable header_row : list cell.
Hypothesis Q_exposure : Q "user1_exposure".
Hypothesis Q_greet : Q "user1_greet".
Hypothesis Q_labels :
  forall user i f,
    (user = "user1" \/ user = "user2")%string ->
    field_of_label user (header_val (nth i header_row CNa)) = Some f -> Q f.

Lemma block_cols_values (user : string) (lo hi : nat) :
  (user = "user1" \/ user = "user2")%string ->
  Forall (fun c => Q (snd c)) (block_cols user header_row lo hi).
Proof.
  intros U. unfold block_cols. apply Forall_forall. intros [i f] H.
  apply in_flat_map in H. destruct H as (j & _ & H).
  destruct (field_of_label user (header_val (nth j header_row CNa))) as [f' | ] eqn:E;
    [ | contradiction].
  destruct H as [H | []]. inversion H; subst.
  cbn [snd]. apply (Q_labels user _ _ U E).
Qed.

Lemma merge_cols_values (headers : list string) (cols : list (nat * string))
  (m : list (string * string)) :
  Forall (fun c => Q (snd c)) cols ->
  Forall (fun it => Q (snd it)) m ->
  Forall (fun it => Q (snd it)) (merge_cols headers cols m).
Proof.
  unfold merge_cols. revert m. induction cols as [ | [i f] cols IH]; intros m Hc Hm.
  - exact Hm.
  - inversion Hc as [ | ? ? Hf Hcs]; subst. cbn [fold_left fst snd] in *.
    apply IH; [exact Hcs | ].
    destruct (nth_error headers i); [ | exact Hm].
    apply (dict_set_values Q); assumption.
Qed.

Lemma column_mapping_values (headers : list string) :
  Forall (fun it => Q (snd it)) (column_mapping_of headers header_row).
Proof.
  unfold column_mapping_of.
  apply merge_cols_values; [apply block_cols_values; right; reflexivity | ].
  apply merge_cols_values; [apply block_cols_values; left; reflexivity | ].
  apply (dict_set_values Q); [ | exact Q_greet].
  apply (dict_set_values Q); [constructor | exact Q_exposure].
Qed.

End MappingValues.

Lemma column_mapping_fields (headers : list string) (header_row : list cell) :
  Forall (fun it => snd it <> "date"%string) (column_mapping_of headers header_row).
Proof.
  apply (column_mapping_values (fun f => f <> "date"%string)); try discriminate.
  intros user i f U E. apply field_of_label_cases in E.
  destruct U; subst user;
    destruct E as [[_ E] | [[_ E] | [[_ E] | [[_ E] | [_ E]]]]]; subst f; discriminate.
Qed.

(** ** Table Builder *)

Lemma convert_date_column_normalized
  (parse : date_parser) (date_col : Series) :
  convert_date_column parse date_col = normalized_dates parse date_col.
Proof.
  unfold convert_date_column, normalized_dates.
  destruct (is_datetime64_any_dtype date_col) eqn:E; [ | reflexivity].
  unfold is_datetime64_any_dtype in E. rewrite forallb_forall in E.
  rewrite <- (map_id date_col) at 1. apply map_ext_in. intros c Hc.
  specialize (E c Hc). destruct c; try discriminate; reflexivity.
Qed.

Lemma mapped_frame_head
  (parse : date_parser) (df : DataFrame)
  (header_row : list cell) (date_col : Series) :
  exists rest,
    mapped_frame parse df header_row date_col
    = ("date"%string, normalized_dates parse date_col) :: rest.
Proof.
  unfold mapped_frame. apply build_new_df_head. apply column_mapping_fields.
Qed.

Lemma mapped_frame_date
  (parse : date_parser) (df : DataFrame)
  (header_row : list cell) (date_col : Series) :
  get_col (mapped_frame parse df header_row date_col) "date"
  = Some (normalized_dates parse date_col).
Proof.
  destruct (mapped_frame_head parse df header_row date_col) as [rest E].
  rewrite E. reflexivity.
Qed.

Lemma retained_frame_date
  (parse : date_parser) (df : DataFrame)
  (header_row : list cell) (date_col : Series) :
  get_col (retained_frame parse df header_row date_col) "date"
  = Some (take (retained_positions parse date_col) (normalized_dates parse date_col)).
Proof.
  unfold retained_frame. rewrite get_col_take, mapped_frame_date. reflexivity.
Qed.

Lemma retained_frame_nrows
  (parse : date_parser) (df : DataFrame)
  (header_row : list cell) (date_col : Series) :
  nrows (retained_frame parse df header_row date_col)
  = length (retained_positions parse date_col).
Proof.
  unfold retained_frame. apply nrows_take.
  destruct (mapped_frame_head parse df header_row date_col) as [rest E].
  rewrite E. discriminate.
Qed.

(** The load, once the structural checks are passed. *)
Lemma load_after_checks
  (parse : date_parser) (wb : Workbook)
  (header_row : list cell) (date_col : Series) :
  passes_checks wb header_row date_col ->
  load_excel_data parse wb
  = if Nat.eqb (length (retained_positions parse date_col)) 0
    then Raise (NoParsableDates (dtype_of date_col) (firstn 5 date_col))
    else Ok (take_rows
               (Npysort.aquicksort
                  (map date_key
                     (take (retained_positions parse date_col)
                           (normalized_dates parse date_col))))
               (retained_frame parse (wb_df wb) header_row date_col)).
Proof.
  intros (Hf & Hh & He & Hn & Hd). unfold load_excel_data.
  rewrite Hf. cbn [negb].
  destruct (nth_error (wb_raw wb) 0) as [first_row | ] eqn:H0.
  2:{ destruct (wb_raw wb); discriminate. }
  rewrite He.
  destruct (Nat.ltb (length (columns (wb_df wb))) 12) eqn:E12;
    [apply Nat.ltb_lt in E12; lia | ].
  rewrite Hd, Hh.
  unfold get_col at 1, set_col at 1. rewrite dict_get_set_same.
  rewrite convert_date_column_normalized.
  fold (mapped_frame parse (wb_df wb) header_row date_col).
  unfold dropna_date, getitem. rewrite mapped_frame_date. cbn [bind].
  fold (retained_positions parse date_col).
  change (select_rows (map notna (normalized_dates parse date_col))
            (mapped_frame parse (wb_df wb) header_row date_col))
    with (retained_frame parse (wb_df wb) header_row date_col).
  rewrite retained_frame_nrows.
  destruct (Nat.eqb (length (retained_positions parse date_col)) 0); [reflexivity | ].
  unfold sort_values_date, getitem. rewrite retained_frame_date. reflexivity.
Qed.

Lemma notna_date_cell (t : option Z) : notna (date_cell t) = false <-> t = None.
Proof. destruct t; cbn; split; intros H; try discriminate; reflexivity. Qed.

Lemma where_from_nil (mask : list bool) (i : nat) :
  where_from i mask = [] <-> forallb negb mask = true.
Proof.
  revert i. induction mask as [ | b mask IH]; intros i; [split; reflexivity | ].
  cbn [where_from forallb]. destruct b; cbn [negb andb].
  - split; discriminate.
  - apply IH.
Qed.

Lemma no_retained_position
  (parse : date_parser) (date_col : Series) :
  length (retained_positions parse date_col) = 0%nat <->
  (forall x, In x date_col -> safe_convert_date parse x = None).
Proof.
  unfold retained_positions, where_, normalized_dates.
  rewrite length_zero_iff_nil, where_from_nil, forallb_forall. split.
  - intros H x Hx. apply notna_date_cell. apply negb_true_iff.
    apply H. apply in_map. apply (in_map (fun x => date_cell (safe_convert_date parse x))).
    exact Hx.
  - intros H b Hb. apply in_map_iff in Hb. destruct Hb as (c & E & Hc).
    apply in_map_iff in Hc. destruct Hc as (x & E' & Hx). subst.
    apply negb_true_iff. apply notna_date_cell. apply H. exact Hx.
Qed.

(** C5.  On a sheet that passed the structural checks the Table Builder
    raises if and only if the date of every data row normalises to "no
    date"; it then returns no table, and the error carries the dtype of the
    raw date column and its first five raw values. *)
Theorem C5_error_iff_no_date
  (parse : date_parser) (wb : Workbook)
  (header_row : list cell) (date_col : Series) :
  passes_checks wb header_row date_col ->
  ((exists e, load_excel_data parse wb = Raise e) <->
   (forall x, In x date_col -> safe_convert_date parse x = None)) /\
  ((forall x, In x date_col -> safe_convert_date parse x = None) ->
   load_excel_data parse wb
   = Raise (NoParsableDates (dtype_of date_col) (firstn 5 date_col))).
Proof.
  intros H. rewrite (load_after_checks parse wb header_row date_col H).
  rewrite <- no_retained_position.
  destruct (length (retained_positions parse date_col)) as [ | n]; cbn [Nat.eqb].
  - split; [ | reflexivity]. split; [reflexivity | ]. intros _. eexists. reflexivity.
  - split.
    + split; [intros [e E]; discriminate | discriminate].
    + discriminate.
Qed.

Lemma workbook_no_date_passes :
  passes_checks workbook_no_date labels_12 [CStr "日期"; CStr "N/A"].
Proof.
  unfold passes_checks. repeat split; reflexivity.
Qed.

(** A witness of C5: a sheet whose date column holds the label and the
    text "N/A". *)
Lemma C5_witness :
  ((exists e, load_excel_data sample_parser workbook_no_date = Raise e) <->
   (forall x, In x [CStr "日期"; CStr "N/A"] ->
              safe_convert_date sample_parser x = None)) /\
  ((forall x, In x [CStr "日期"; CStr "N/A"] ->
              safe_convert_date sample_parser x = None) ->
   load_excel_data sample_parser workbook_no_date
   = Raise (NoParsableDates (dtype_of [CStr "日期"; CStr "N/A"])
              (firstn 5 [CStr "日期"; CStr "N/A"]))).
Proof.
  apply (C5_error_iff_no_date sample_parser workbook_no_date labels_12
           [CStr "日期"; CStr "N/A"]).
  exact workbook_no_date_passes.
Defined.

(** ** Metric lookup on a table without the kill-count columns *)

Lemma build_new_df_lacks (df : DataFrame) (date : Series)
  (column_mapping : list (string * string)) (name : string) :
  name <> "date"%string ->
  Forall (fun it => snd it <> name) column_mapping ->
  get_col (build_new_df df date column_mapping) name = None.
Proof.
  intros Hn. unfold build_new_df.
  assert (H0 : get_col (set_col [] "date" date) name = None).
  { unfold get_col, set_col. cbn [dict_set dict_get].
    destruct (String.eqb "date" name) eqn:E; [ | reflexivity].
    apply String.eqb_eq in E. subst. contradiction Hn. reflexivity. }
  revert H0. generalize (set_col [] "date" date) as acc.
  induction column_mapping as [ | [old new] m IH]; intros acc H0 H.
  - exact H0.
  - inversion H as [ | ? ? Hnew Hm]; subst. cbn [fold_left fst snd] in *.
    apply IH; [ | exact Hm].
    destruct (get_col df old); [ | exact H0].
    unfold get_col, set_col in *. rewrite dict_get_set_other by exact Hnew. exact H0.
Qed.

Lemma no_kill_label_no_kill_field (header_row : list cell) (headers : list string) :
  (forall c, In c header_row -> header_val c <> "补刀次数"%string) ->
  Forall (fun it => snd it <> "user1_kill"%string)
         (column_mapping_of headers header_row).
Proof.
  intros H.
  apply (column_mapping_values (fun f => f <> "user1_kill"%string)); try discriminate.
  intros user i f U E. apply field_of_label_cases in E.
  destruct E as [[_ E] | [[_ E] | [[Hk E] | [[_ E] | [_ E]]]]]; subst f;
    try (destruct U; subst user; discriminate).
  exfalso. destruct (Nat.lt_ge_cases i (length header_row)) as [Hi | Hi].
  - apply (H (nth i header_row CNa)); [apply nth_In; exact Hi | exact Hk].
  - rewrite nth_overflow in Hk by exact Hi. discriminate.
Qed.

(** C2, as the code has it.  On the table built from a sheet whose header
    row holds no kill-count label (the 12-column sheet), metric lookup with
    the kill-count metric name does not return three sequences: it raises
    KeyError for the column "user1_kill", which the table does not have. *)
Theorem C2_kill_lookup_raises_without_kill_block
  (parse : date_parser) (wb : Workbook)
  (header_row : list cell) (date_col : Series) (df : DataFrame) :
  passes_checks wb header_row date_col ->
  (forall c, In c header_row -> header_val c <> "补刀次数"%string) ->
  load_excel_data parse wb = Ok df ->
  fst (get_metric_data df "补刀次数") = Raise (KeyError "user1_kill").
Proof.
  intros Hp Hk Hl. rewrite (load_after_checks parse wb header_row date_col Hp) in Hl.
  destruct (Nat.eqb (length (retained_positions parse date_col)) 0); [discriminate | ].
  inversion Hl as [E]. clear Hl.
  unfold get_metric_data, lookup_metric, getitem. cbn [fst dict_get metric_mapping].
  cbn [String.eqb Ascii.eqb Bool.eqb bind fst snd].
  rewrite get_col_take, retained_frame_date. cbn [option_map bind].
  rewrite get_col_take. unfold retained_frame. rewrite get_col_take.
  unfold mapped_frame. rewrite build_new_df_lacks; [reflexivity | discriminate | ].
  apply no_kill_label_no_kill_field. exact Hk.
Qed.

Lemma workbook_12_passes :
  passes_checks workbook_12 labels_12 [CStr "日期"; CInt 45657; CInt 45658].
Proof. unfold passes_checks. repeat split; reflexivity. Qed.

Lemma labels_12_without_kill :
  forall c, In c labels_12 -> header_val c <> "补刀次数"%string.
Proof.
  intros c Hc. unfold labels_12 in Hc.
  repeat (destruct Hc as [Hc | Hc]; [subst c; vm_compute; discriminate | ]).
  contradiction.
Qed.

(** A witness of C2: the 12-column sheet of scenario C. *)
Lemma C2_witness :
  fst (get_metric_data table_12 "补刀次数") = Raise (KeyError "user1_kill").
Proof.
  apply (C2_kill_lookup_raises_without_kill_block sample_parser workbook_12
           labels_12 [CStr "日期"; CInt 45657; CInt 45658] table_12).
  - exact workbook_12_passes.
  - exact labels_12_without_kill.
  - vm_compute. reflexivity.
Defined.

(** ** Statistics on a table without the kill-count columns *)

Lemma loaded_table_lacks_kill
  (parse : date_parser) (wb : Workbook)
  (header_row : list cell) (date_col : Series) (df : DataFrame) :
  passes_checks wb header_row date_col ->
  (forall c, In c header_row -> header_val c <> "补刀次数"%string) ->
  load_excel_data parse wb = Ok df ->
  get_col df "user1_kill" = None.
Proof.
  intros Hp Hk Hl. rewrite (load_after_checks parse wb header_row date_col Hp) in Hl.
  destruct (Nat.eqb (length (retained_positions parse date_col)) 0); [discriminate | ].
  injection Hl as <-.
  rewrite get_col_take. unfold retained_frame. rewrite get_col_take.
  unfold mapped_frame. rewrite build_new_df_lacks; [reflexivity | discriminate | ].
  apply no_kill_label_no_kill_field. exact Hk.
Qed.

(** A column that the frame does not have is not in the result of a range
    filter either. *)
Lemma filter_keeps_missing_column
  (parse : date_parser) (df out : DataFrame)
  (start_date end_date name : string) :
  name <> "date"%string -> get_col df name = None ->
  fst (filter_by_date_range parse df start_date end_date) = Ok out ->
  get_col out name = None.
Proof.
  intros Hn Hc. unfold filter_by_date_range.
  destruct (parse_bound parse start_date) as [start_dt | ]; [ | discriminate].
  destruct (parse_bound parse end_date) as [end_dt | ]; [ | discriminate].
  destruct (getitem df "date") as [date | ]; [ | discriminate].
  assert (Hsel : forall mask df1, get_col df1 name = None ->
                   get_col (select_rows mask df1) name = None).
  { intros mask df1 H1. unfold select_rows. rewrite get_col_take, H1. reflexivity. }
  destruct (is_datetime64_any_dtype date).
  - destruct (getitem df "date") as [date1 | ]; [ | discriminate].
    cbn [fst]. intros E. injection E as <-. apply Hsel. exact Hc.
  - destruct (to_datetime_series parse date) as [d | ]; cbn [bind]; [ | discriminate].
    destruct (getitem (set_col df "date" d) "date") as [date1 | ]; [ | discriminate].
    cbn [fst]. intros E. injection E as <-. apply Hsel.
    unfold get_col, set_col in *. rewrite dict_get_set_other; [exact Hc | ].
    intros E. apply Hn. symmetry. exact E.
Qed.

Lemma statistics_without_kill_column (df : DataFrame) :
  get_col df "user1_kill" = None ->
  fst (calculate_statistics df "补刀次数") = Raise (KeyError "user1_kill").
Proof.
  intros H. unfold calculate_statistics, lookup_metric, getitem.
  cbn [fst dict_get metric_mapping].
  cbn [String.eqb Ascii.eqb Bool.eqb bind fst snd].
  rewrite H. reflexivity.
Qed.

(** C9, as the code has it.  On the table built from a sheet whose header
    row holds no kill-count label (the 12-column sheet), the statistics of
    the kill-count metric, one of the five recognised metric names, are not
    computed: the call raises KeyError for the column "user1_kill", which
    the table does not have, on the table itself and on every result of a
    range filter of it.  The claim has, for an entity without any value,
    the mean, the maximum and the minimum absent and the sum 0. *)
Theorem C9_statistics_raise_without_kill_block
  (parse : date_parser) (wb : Workbook)
  (header_row : list cell) (date_col : Series) (df : DataFrame) :
  passes_checks wb header_row date_col ->
  (forall c, In c header_row -> header_val c <> "补刀次数"%string) ->
  load_excel_data parse wb = Ok df ->
  In "补刀次数"%string (map fst metric_mapping) /\
  fst (calculate_statistics df "补刀次数") = Raise (KeyError "user1_kill") /\
  (forall start_date end_date filtered_df,
      fst (filter_by_date_range parse df start_date end_date) = Ok filtered_df ->
      fst (calculate_statistics filtered_df "补刀次数")
      = Raise (KeyError "user1_kill")).
Proof.
  intros Hp Hk Hl.
  assert (Hc : get_col df "user1_kill" = None)
    by (apply (loaded_table_lacks_kill parse wb header_row date_col); assumption).
  split; [cbn [metric_mapping map fst In]; tauto | ].
  split; [apply statistics_without_kill_column; exact Hc | ].
  intros start_date end_date filtered_df Hf.
  apply statistics_without_kill_column.
  apply (filter_keeps_missing_column parse df filtered_df start_date end_date);
    [discriminate | exact Hc | exact Hf].
Qed.

(** A witness of C9: the 12-column sheet of scenario C. *)
Lemma C9_witness :
  In "补刀次数"%string (map fst metric_mapping) /\
  fst (calculate_statistics table_12 "补刀次数") = Raise (KeyError "user1_kill") /\
  (forall start_date end_date filtered_df,
      fst (filter_by_date_range sample_parser table_12 start_date end_date)
      = Ok filtered_df ->
      fst (calculate_statistics filtered_df "补刀次数")
      = Raise (KeyError "user1_kill")).
Proof.
  apply (C9_statistics_raise_without_kill_block sample_parser workbook_12
           labels_12 [CStr "日期"; CInt 45657; CInt 45658] table_12).
  - exact workbook_12_passes.
  - exact labels_12_without_kill.
  - vm_compute. reflexivity.
Defined.

(** ** Header Resolver: the column mapping, column by column *)

Lemma field_of_blank (user : string) : field_of_label user "" = None.
Proof. reflexivity. Qed.

Lemma block_cols_in (user : string) (header_row : list cell) (lo hi i : nat)
  (f : string) :
  In (i, f) (block_cols user header_row lo hi) <->
  (lo <= i < hi)%nat /\
  field_of_label user (header_val (nth i header_row CNa)) = Some f.
Proof.
  unfold block_cols. rewrite in_flat_map. split.
  - intros (j & Hj & H). apply in_seq in Hj.
    destruct (field_of_label user (header_val (nth j header_row CNa))) as [f' | ] eqn:E;
      [ | contradiction].
    destruct H as [H | []]. inversion H; subst. split; [lia | exact E].
  - intros (Hi & E). exists i. split.
    + apply in_seq.
      destruct (Nat.lt_ge_cases i (length header_row)) as [Hl | Hl]; [lia | ].
      rewrite nth_overflow in E by exact Hl. discriminate.
    + rewrite E. left. reflexivity.
Qed.

Lemma lookup_last_in (cols : list (nat * string)) (i : nat) (f : string) :
  lookup_last cols i = Some f -> In (i, f) cols.
Proof.
  induction cols as [ | [j g] cols IH]; cbn [lookup_last]; [discriminate | ].
  destruct (lookup_last cols i) as [f' | ].
  - intros E. inversion E; subst. right. apply IH. reflexivity.
  - destruct (Nat.eqb j i) eqn:Ej; [ | discriminate].
    apply Nat.eqb_eq in Ej. subst j. intros E. inversion E; subst. left. reflexivity.
Qed.

Lemma lookup_last_none (cols : list (nat * string)) (i : nat) :
  lookup_last cols i = None -> forall f, ~ In (i, f) cols.
Proof.
  induction cols as [ | [j g] cols IH]; cbn [lookup_last]; [intros _ f [] | ].
  destruct (lookup_last cols i) as [f' | ]; [discriminate | ].
  destruct (Nat.eqb j i) eqn:Ej; [discriminate | ].
  apply Nat.eqb_neq in Ej. intros _ f [H | H].
  - inversion H. contradiction.
  - apply (IH eq_refl f H).
Qed.

Lemma lookup_last_block (user : string) (header_row : list cell) (lo hi i : nat) :
  lookup_last (block_cols user header_row lo hi) i
  = if Nat.leb lo i && Nat.ltb i hi
    then field_of_label user (header_val (nth i header_row CNa))
    else None.
Proof.
  destruct (lookup_last (block_cols user header_row lo hi) i) as [f | ] eqn:E.
  - apply lookup_last_in, block_cols_in in E. destruct E as [Hi E].
    destruct (Nat.leb lo i) eqn:E1; [ | apply Nat.leb_gt in E1; lia].
    destruct (Nat.ltb i hi) eqn:E2; [ | apply Nat.ltb_ge in E2; lia].
    symmetry. exact E.
  - pose proof (lookup_last_none _ _ E) as N.
    destruct (Nat.leb lo i) eqn:E1; [ | reflexivity].
    destruct (Nat.ltb i hi) eqn:E2; [ | reflexivity].
    apply Nat.leb_le in E1. apply Nat.ltb_lt in E2. cbn [andb].
    destruct (field_of_label user (header_val (nth i header_row CNa))) as [f | ] eqn:F;
      [ | reflexivity].
    exfalso. apply (N f). apply block_cols_in. split; [lia | exact F].
Qed.

Section Headers.

(** The column names of a frame are distinct. *)
Variable headers : list string.
Hypothesis headers_distinct : NoDup headers.

Lemma nth_error_header (i j : nat) (h : string) :
  (i < length headers)%nat -> nth_error headers j = Some h ->
  h = nth i headers ""%string -> j = i.
Proof.
  intros Hi Hj E. subst h.
  rewrite NoDup_nth_error in headers_distinct.
  apply headers_distinct.
  - apply nth_error_Some. rewrite Hj. discriminate.
  - rewrite Hj. symmetry. apply nth_error_nth'. exact Hi.
Qed.

Lemma merge_cols_get (cols : list (nat * string)) (m : list (string * string))
  (i : nat) :
  (i < length headers)%nat ->
  dict_get (merge_cols headers cols m) (nth i headers ""%string)
  = match lookup_last cols i with
    | Some f => Some f
    | None => dict_get m (nth i headers ""%string)
    end.
Proof.
  intros Hi. unfold merge_cols. revert m.
  induction cols as [ | [j f] cols IH]; intros m; [reflexivity | ].
  cbn [fold_left lookup_last fst snd]. rewrite IH.
  destruct (lookup_last cols i) as [f' | ]; [reflexivity | ].
  destruct (nth_error headers j) as [h | ] eqn:Ej.
  - destruct (String.eqb h (nth i headers ""%string)) eqn:Eh.
    + apply String.eqb_eq in Eh.
      rewrite (nth_error_header i j h Hi Ej Eh), Nat.eqb_refl, <- Eh.
      apply dict_get_set_same.
    + apply String.eqb_neq in Eh. rewrite dict_get_set_other by exact Eh.
      destruct (Nat.eqb j i) eqn:Eji; [ | reflexivity].
      apply Nat.eqb_eq in Eji. subst j.
      rewrite (nth_error_nth' headers ""%string Hi) in Ej.
      congruence.
  - apply nth_error_None in Ej.
    destruct (Nat.eqb j i) eqn:Eji; [ | reflexivity].
    apply Nat.eqb_eq in Eji. lia.
Qed.

Lemma positional_get (i : nat) :
  (3 <= length headers)%nat -> (i < length headers)%nat ->
  dict_get (dict_set (dict_set [] (nth 1 headers "") "user1_exposure")
                     (nth 2 headers "") "user1_greet")%string
           (nth i headers ""%string)
  = positional_field i.
Proof.
  intros H3 Hi.
  assert (Inj : forall a b, (a < length headers)%nat -> (b < length headers)%nat ->
                            nth a headers ""%string = nth b headers ""%string -> a = b).
  { intros a b Ha Hb E. symmetry. apply (nth_error_header a b (nth b headers ""%string)).
    - exact Ha.
    - apply nth_error_nth'. exact Hb.
    - symmetry. exact E. }
  destruct (Nat.eq_dec i 2) as [E2 | N2].
  - subst i. apply dict_get_set_same.
  - rewrite dict_get_set_other.
    2:{ intros E. apply Inj in E; lia. }
    destruct (Nat.eq_dec i 1) as [E1 | N1].
    + subst i. apply dict_get_set_same.
    + rewrite dict_get_set_other.
      2:{ intros E. apply Inj in E; lia. }
      destruct i as [ | [ | [ | i]]]; try reflexivity; lia.
Qed.

(** The mapping of column [i]: the field of its label when the label is
    recognised in its block, and otherwise the positional field. *)
Lemma column_mapping_get (header_row : list cell) (i : nat) :
  (3 <= length headers)%nat -> (i < length headers)%nat ->
  dict_get (column_mapping_of headers header_row) (nth i headers ""%string)
  = match label_field header_row i with
    | Some f => Some f
    | None => positional_field i
    end.
Proof.
  intros H3 Hi. unfold column_mapping_of.
  rewrite merge_cols_get by exact Hi. rewrite merge_cols_get by exact Hi.
  rewrite positional_get by assumption.
  rewrite !lookup_last_block. unfold label_field.
  destruct (Nat.leb_spec 8 i), (Nat.ltb_spec i 13), (Nat.leb_spec 1 i),
    (Nat.ltb_spec i 6), (Nat.leb_spec i 5), (Nat.leb_spec i 12);
    cbn [andb]; try lia; try reflexivity;
    destruct (field_of_label _ (header_val (nth i header_row CNa))); reflexivity.
Qed.

End Headers.

Lemma block_bool (lo hi i : nat) :
  Nat.leb lo i && Nat.leb i hi = true <-> (lo <= i <= hi)%nat.
Proof.
  rewrite andb_true_iff, !Nat.leb_le. reflexivity.
Qed.

Lemma positional_field_none (i : nat) : (3 <= i)%nat -> positional_field i = None.
Proof. intros H. destruct i as [ | [ | [ | i]]]; try lia. reflexivity. Qed.

(** C6, as the code has it.  The mapping of a column is read from its label:
    a column whose label is none of the five recognised labels gets the
    positional field (user-1 exposure for column 1, user-1 greet for column
    2) and is left unmapped everywhere else; and when every column of the
    block 1-5 carries a recognised label, a rearrangement [sigma] of the
    columns inside the blocks 1-5 and 8-12 leaves the mapping of every
    column as it was: column [i] of the rearranged sheet, which is column
    [sigma i] of the sheet, is mapped as that column was. *)
Theorem C6_mapping_follows_labels
  (headers : list string) (header_row : list cell) :
  NoDup headers -> (3 <= length headers)%nat ->
  (forall i, (i < length headers)%nat -> label_field header_row i = None ->
             dict_get (column_mapping_of headers header_row) (nth i headers ""%string)
             = positional_field i) /\
  (forall (header_row' : list cell) (sigma : nat -> nat),
      (forall i, nth i header_row' CNa = nth (sigma i) header_row CNa) ->
      (forall i, (1 <= i <= 5)%nat -> (1 <= sigma i <= 5)%nat) ->
      (forall i, (8 <= i <= 12)%nat -> (8 <= sigma i <= 12)%nat) ->
      (forall i, ~ (1 <= i <= 5)%nat -> ~ (8 <= i <= 12)%nat -> sigma i = i) ->
      (forall i, (1 <= i <= 5)%nat -> label_field header_row i <> None) ->
      forall i, (i < length headers)%nat -> (sigma i < length headers)%nat ->
                dict_get (column_mapping_of headers header_row')
                         (nth i headers ""%string)
                = dict_get (column_mapping_of headers header_row)
                           (nth (sigma i) headers ""%string)).
Proof.
  intros ND H3. split.
  - intros i Hi E. rewrite (column_mapping_get headers ND header_row i H3 Hi), E.
    reflexivity.
  - intros header_row' sigma Hrow B1 B2 Out Rec i Hi Hs.
    rewrite (column_mapping_get headers ND header_row' i H3 Hi).
    rewrite (column_mapping_get headers ND header_row (sigma i) H3 Hs).
    assert (D : (1 <= i <= 5)%nat \/ (8 <= i <= 12)%nat \/
                (~ (1 <= i <= 5)%nat /\ ~ (8 <= i <= 12)%nat)) by lia.
    assert (E1 : Nat.leb 1 (sigma i) && Nat.leb (sigma i) 5
                 = Nat.leb 1 i && Nat.leb i 5).
    { apply eq_true_iff_eq. rewrite !block_bool.
      destruct D as [D | [D | [D D']]].
      - specialize (B1 i D). tauto.
      - specialize (B2 i D). lia.
      - rewrite (Out i D D'). tauto. }
    assert (E2 : Nat.leb 8 (sigma i) && Nat.leb (sigma i) 12
                 = Nat.leb 8 i && Nat.leb i 12).
    { apply eq_true_iff_eq. rewrite !block_bool.
      destruct D as [D | [D | [D D']]].
      - specialize (B1 i D). lia.
      - specialize (B2 i D). tauto.
      - rewrite (Out i D D'). tauto. }
    unfold label_field. rewrite Hrow, E1, E2.
    destruct (Nat.leb 1 i && Nat.leb i 5) eqn:In1.
    + apply block_bool in In1. specialize (Rec (sigma i) (B1 i In1)).
      unfold label_field in Rec. rewrite E1 in Rec.
      destruct (field_of_label "user1" (header_val (nth (sigma i) header_row CNa)));
        [reflexivity | contradiction Rec; reflexivity].
    + destruct (Nat.leb 8 i && Nat.leb i 12) eqn:In2.
      * apply block_bool in In2. specialize (B2 i In2).
        rewrite (positional_field_none i) by lia.
        rewrite (positional_field_none (sigma i)) by lia. reflexivity.
      * assert (N1 : ~ (1 <= i <= 5)%nat).
        { intros C. apply block_bool in C. congruence. }
        assert (N2 : ~ (8 <= i <= 12)%nat).
        { intros C. apply block_bool in C. congruence. }
        rewrite (Out i N1 N2). reflexivity.
Qed.

Lemma headers_13_distinct : NoDup headers_13.
Proof.
  unfold headers_13.
  repeat (constructor; [cbn [In]; intuition discriminate | ]).
  constructor.
Qed.

Lemma swap_1_3_rearranges_labels_13 :
  forall i, nth i labels_13_swapped CNa = nth (swap_1_3 i) labels_13 CNa.
Proof.
  intros i. do 14 (destruct i as [ | i]; [reflexivity | ]). reflexivity.
Qed.

Lemma swap_1_3_outside (i : nat) :
  ~ (1 <= i <= 5)%nat -> ~ (8 <= i <= 12)%nat -> swap_1_3 i = i.
Proof.
  intros N1 N2. do 4 (destruct i as [ | i]; [reflexivity || lia | ]). reflexivity.
Qed.

Lemma swap_1_3_block_1 (i : nat) :
  (1 <= i <= 5)%nat -> (1 <= swap_1_3 i <= 5)%nat.
Proof.
  intros H. do 6 (destruct i as [ | i]; [cbn [swap_1_3]; lia | ]). lia.
Qed.

Lemma swap_1_3_block_2 (i : nat) :
  (8 <= i <= 12)%nat -> (8 <= swap_1_3 i <= 12)%nat.
Proof.
  intros H. do 4 (destruct i as [ | i]; [lia | ]). cbn [swap_1_3]. lia.
Qed.

Lemma labels_13_block_1_recognised (i : nat) :
  (1 <= i <= 5)%nat -> label_field labels_13 i <> None.
Proof.
  intros H. do 6 (destruct i as [ | i]; [try lia; vm_compute; discriminate | ]). lia.
Qed.

(** A witness of C6: the sheet of scenario A, its blank column 6, and its
    columns 1 and 3 exchanged. *)
Lemma C6_witness :
  dict_get (column_mapping_of headers_13 labels_13) (nth 6 headers_13 ""%string)
  = positional_field 6 /\
  dict_get (column_mapping_of headers_13 labels_13_swapped) (nth 1 headers_13 ""%string)
  = dict_get (column_mapping_of headers_13 labels_13)
             (nth (swap_1_3 1) headers_13 ""%string).
Proof.
  assert (H3 : (3 <= length headers_13)%nat) by (vm_compute; lia).
  split.
  - apply (proj1 (C6_mapping_follows_labels headers_13 labels_13
                    headers_13_distinct H3)).
    + vm_compute. lia.
    + reflexivity.
  - apply (proj2 (C6_mapping_follows_labels headers_13 labels_13
                    headers_13_distinct H3) labels_13_swapped swap_1_3).
    + exact swap_1_3_rearranges_labels_13.
    + exact swap_1_3_block_1.
    + exact swap_1_3_block_2.
    + exact swap_1_3_outside.
    + exact labels_13_block_1_recognised.
    + vm_compute. lia.
    + vm_compute. lia.
Defined.

(** C6 as stated fails.  Column 1 of the first sheet carries a label that
    is none of the five, and is mapped all the same, to user-1 exposure;
    and after the exchange of columns 1 and 3 the same column, now third,
    is unmapped: the two mappings differ. *)
Lemma C6_unrecognised_column_is_mapped_by_position :
  field_of_label "user1" (header_val (nth 1 labels_remark_first CNa)) = None /\
  dict_get (column_mapping_of headers_13 labels_remark_first) "Unnamed: 1"
  = Some "user1_exposure"%string /\
  (forall i, nth i labels_remark_third CNa
             = nth (swap_1_3 i) labels_remark_first CNa) /\
  dict_get (column_mapping_of headers_13 labels_remark_third) "Unnamed: 3" = None.
Proof.
  split; [reflexivity | ]. split; [reflexivity | ]. split; [ | reflexivity].
  intros i. do 14 (destruct i as [ | i]; [reflexivity | ]). reflexivity.
Qed.

(** ** numpy's quicksort sorts *)

Module NpysortProofs.

Import Npysort.
Local Open Scope nat_scope.

(** *** Arrays *)

Lemma upd_length (i x : nat) (a : list nat) : length (upd i x a) = length a.
Proof.
  revert i. induction a as [ | y a IH]; intros i; [destruct i; reflexivity | ].
  destruct i; cbn [upd length]; [reflexivity | rewrite IH; reflexivity].
Qed.

Lemma nth_upd_same (i x : nat) (a : list nat) :
  i < length a -> nth i (upd i x a) 0 = x.
Proof.
  revert i. induction a as [ | y a IH]; intros i H; [cbn in H; lia | ].
  destruct i; cbn [upd nth]; [reflexivity | ]. apply IH. cbn in H. lia.
Qed.

Lemma nth_upd_other (i k x : nat) (a : list nat) :
  k <> i -> nth k (upd i x a) 0 = nth k a 0.
Proof.
  revert i k. induction a as [ | y a IH]; intros i k H; [destruct i; reflexivity | ].
  destruct i, k; cbn [upd nth]; try reflexivity; try lia. apply IH. lia.
Qed.

Lemma upd_split (i x : nat) (a : list nat) :
  i < length a -> upd i x a = firstn i a ++ x :: skipn (S i) a.
Proof.
  revert i. induction a as [ | y a IH]; intros i H; [cbn in H; lia | ].
  destruct i; cbn [upd firstn skipn app]; [reflexivity | ].
  f_equal. apply IH. cbn in H. lia.
Qed.

Lemma nth_split_at (i : nat) (a : list nat) :
  i < length a -> a = firstn i a ++ nth i a 0 :: skipn (S i) a.
Proof.
  revert i. induction a as [ | y a IH]; intros i H; [cbn in H; lia | ].
  destruct i; cbn [nth firstn skipn app]; [reflexivity | ].
  f_equal. apply IH. cbn in H. lia.
Qed.

Lemma swap_length (i j : nat) (a : list nat) : length (swap i j a) = length a.
Proof. unfold swap. rewrite !upd_length. reflexivity. Qed.

Lemma nth_swap_l (i j : nat) (a : list nat) :
  i < length a -> j < length a -> nth i (swap i j a) 0 = nth j a 0.
Proof.
  intros Hi Hj. unfold swap. apply nth_upd_same. rewrite upd_length. exact Hi.
Qed.

Lemma nth_swap_r (i j : nat) (a : list nat) :
  i < length a -> j < length a -> nth j (swap i j a) 0 = nth i a 0.
Proof.
  intros Hi Hj. unfold swap. destruct (Nat.eq_dec j i) as [E | N].
  - subst j. rewrite nth_upd_same by (rewrite upd_length; exact Hi). reflexivity.
  - rewrite nth_upd_other by exact N. apply nth_upd_same. exact Hj.
Qed.

Lemma nth_swap_other (i j k : nat) (a : list nat) :
  k <> i -> k <> j -> nth k (swap i j a) 0 = nth k a 0.
Proof.
  intros Hi Hj. unfold swap. rewrite !nth_upd_other by assumption. reflexivity.
Qed.

Lemma upd_perm (i x : nat) (a : list nat) :
  i < length a -> Permutation (nth i a 0 :: upd i x a) (x :: a).
Proof.
  intros H. rewrite (upd_split i x a H).
  pose proof (nth_split_at i a H) as E.
  remember (firstn i a) as l1. remember (skipn (S i) a) as l2.
  remember (nth i a 0) as y. rewrite E.
  apply Permutation_trans with (l1 ++ y :: x :: l2).
  - apply (Permutation_middle l1 (x :: l2) y).
  - apply Permutation_trans with (l1 ++ x :: y :: l2).
    + apply Permutation_app_head. apply perm_swap.
    + apply Permutation_sym. apply (Permutation_middle l1 (y :: l2) x).
Qed.

Lemma swap_perm (i j : nat) (a : list nat) :
  i < length a -> j < length a -> Permutation (swap i j a) a.
Proof.
  intros Hi Hj. unfold swap.
  assert (Hi' : i < length (upd j (nth i a 0) a)) by (rewrite upd_length; exact Hi).
  pose proof (upd_perm i (nth j a 0) _ Hi') as P1.
  pose proof (upd_perm j (nth i a 0) a Hj) as P2.
  destruct (Nat.eq_dec i j) as [E | N].
  - subst j. rewrite nth_upd_same in P1 by exact Hi.
    apply Permutation_cons_inv in P1.
    apply Permutation_trans with (upd i (nth i a 0) a); [exact P1 | ].
    apply Permutation_cons_inv with (a := nth i a 0).
    apply Permutation_trans with (nth i a 0 :: a); [exact P2 | apply Permutation_refl].
  - rewrite nth_upd_other in P1 by exact N.
    apply Permutation_cons_inv with (a := nth i a 0).
    apply Permutation_trans with (nth j a 0 :: upd j (nth i a 0) a); [exact P1 | ].
    apply Permutation_trans with (nth i a 0 :: a); [exact P2 | apply Permutation_refl].
Qed.

(** *** Order of the keys *)

Section Keys.

Variable v : list Z.

Lemma less_lt (a b : nat) : less v a b = true <-> (key v a < (key v) b)%Z.
Proof. unfold less, key. apply Z.ltb_lt. Qed.

Lemma less_ge (a b : nat) : less v a b = false <-> (key v b <= (key v) a)%Z.
Proof. unfold less, key. apply Z.ltb_ge. Qed.

Lemma sorted_app (R : nat -> nat -> Prop) (l1 l2 : list nat) :
  StronglySorted R l1 -> StronglySorted R l2 ->
  (forall x y, In x l1 -> In y l2 -> R x y) ->
  StronglySorted R (l1 ++ l2).
Proof.
  intros H1 H2 H. induction H1 as [ | x l1 Hs IH Hx]; [exact H2 | ].
  cbn [app]. constructor.
  - apply IH. intros a b Ha Hb. apply H; [right; exact Ha | exact Hb].
  - apply Forall_app. split; [exact Hx | ].
    apply Forall_forall. intros y Hy. apply H; [left; reflexivity | exact Hy].
Qed.

Lemma sorted_rev (l : list nat) :
  StronglySorted (ge_key v) l -> StronglySorted (le_key v) (rev l).
Proof.
  intros H. induction H as [ | x l Hs IH Hx]; [constructor | ].
  cbn [rev]. apply sorted_app.
  - exact IH.
  - constructor; constructor.
  - intros a b Ha Hb. destruct Hb as [Hb | []]. subst b.
    apply in_rev in Ha. rewrite Forall_forall in Hx. apply (Hx a Ha).
Qed.

(** A list is sorted when its elements are in order position by
    position. *)
Lemma sorted_of_nth (a : list nat) :
  (forall i j, i < j < length a -> (le_key v) (nth i a 0) (nth j a 0)) ->
  StronglySorted (le_key v) a.
Proof.
  induction a as [ | x a IH]; intros H; [constructor | ].
  constructor.
  - apply IH. intros i j Hij. apply (H (S i) (S j)). cbn [length]. lia.
  - apply Forall_forall. intros y Hy.
    destruct (In_nth a y 0 Hy) as (j & Hj & E). subst y.
    apply (H 0 (S j)). cbn [length]. lia.
Qed.

(** *** Insertion sort *)

Lemma insert_perm (vi : nat) (rprefix : list nat) :
  Permutation (insert_from_right v vi rprefix) (vi :: rprefix).
Proof.
  induction rprefix as [ | k rest IH]; cbn [insert_from_right]; [apply Permutation_refl | ].
  destruct (less v vi k); [ | apply Permutation_refl].
  apply Permutation_trans with (k :: vi :: rest);
    [apply perm_skip; exact IH | apply perm_swap].
Qed.

Lemma insert_sorted (vi : nat) (rprefix : list nat) :
  StronglySorted (ge_key v) rprefix ->
  StronglySorted (ge_key v) (insert_from_right v vi rprefix).
Proof.
  intros H. induction H as [ | k rest Hs IH Hk]; cbn [insert_from_right].
  - constructor; constructor.
  - destruct (less v vi k) eqn:E.
    + apply less_lt in E. constructor; [exact IH | ].
      apply Forall_forall. intros y Hy.
      apply (Permutation_in _ (insert_perm vi rest)) in Hy.
      destruct Hy as [Hy | Hy].
      * subst y. unfold ge_key. lia.
      * rewrite Forall_forall in Hk. apply (Hk y Hy).
    + apply less_ge in E. constructor; [constructor; assumption | ].
      constructor; [exact E | ].
      apply Forall_forall. intros y Hy. rewrite Forall_forall in Hk.
      specialize (Hk y Hy). unfold ge_key in *. lia.
Qed.

Lemma insertion_fold (seg rprefix : list nat) :
  StronglySorted (ge_key v) rprefix ->
  Permutation (fold_left (fun r vi => insert_from_right v vi r) seg rprefix)
              (seg ++ rprefix) /\
  StronglySorted (ge_key v) (fold_left (fun r vi => insert_from_right v vi r) seg rprefix).
Proof.
  revert rprefix. induction seg as [ | x seg IH]; intros rprefix H.
  - split; [apply Permutation_refl | exact H].
  - cbn [fold_left]. destruct (IH _ (insert_sorted x rprefix H)) as [P S].
    split; [ | exact S].
    apply Permutation_trans with (seg ++ insert_from_right v x rprefix); [exact P | ].
    apply Permutation_trans with (seg ++ x :: rprefix).
    + apply Permutation_app_head. apply insert_perm.
    + apply Permutation_sym. apply Permutation_middle.
Qed.

Lemma insertion_sort_sorts (seg : list nat) :
  Permutation (insertion_sort v seg) seg /\
  StronglySorted (le_key v) (insertion_sort v seg).
Proof.
  unfold insertion_sort.
  destruct (insertion_fold seg [] (SSorted_nil _)) as [P S]. split.
  - apply Permutation_trans with (fold_left (fun r vi => insert_from_right v vi r) seg []).
    + apply Permutation_sym. apply Permutation_rev.
    + rewrite app_nil_r in P. exact P.
  - apply sorted_rev. exact S.
Qed.

(** *** Partition *)

Lemma scan_up_spec (fuel : nat) (a : list nat) (vp i b : nat) :
  i <= b -> b - i < fuel -> less v (nth b a 0) vp = false ->
  i <= scan_up v fuel a vp i <= b /\
  less v (nth (scan_up v fuel a vp i) a 0) vp = false /\
  (forall k, i <= k < scan_up v fuel a vp i -> less v (nth k a 0) vp = true).
Proof.
  revert i. induction fuel as [ | fuel IH]; intros i Hib Hf Hb; [lia | ].
  cbn [scan_up]. destruct (less v (nth i a 0) vp) eqn:E.
  - assert (i <> b) by (intros ->; congruence).
    destruct (IH (S i)) as (R1 & R2 & R3); try lia; try assumption.
    split; [lia | ]. split; [exact R2 | ].
    intros k Hk. destruct (Nat.eq_dec k i) as [-> | N]; [exact E | apply R3; lia].
  - split; [lia | ]. split; [exact E | ]. intros k Hk. lia.
Qed.

Lemma scan_down_spec (fuel : nat) (a : list nat) (vp j b : nat) :
  b <= j -> j - b < fuel -> less v vp (nth b a 0) = false ->
  b <= scan_down v fuel a vp j <= j /\
  less v vp (nth (scan_down v fuel a vp j) a 0) = false /\
  (forall k, scan_down v fuel a vp j < k <= j -> less v vp (nth k a 0) = true).
Proof.
  revert j. induction fuel as [ | fuel IH]; intros j Hbj Hf Hb; [lia | ].
  cbn [scan_down]. destruct (less v vp (nth j a 0)) eqn:E.
  - assert (j <> b) by (intros ->; congruence).
    destruct (IH (pred j)) as (R1 & R2 & R3); try lia; try assumption.
    split; [lia | ]. split; [exact R2 | ].
    intros k Hk. destruct (Nat.eq_dec k j) as [-> | N]; [exact E | apply R3; lia].
  - split; [lia | ]. split; [exact E | ]. intros k Hk. lia.
Qed.

Lemma partition_loop_spec (n vp : nat) (fuel : nat) (a : list nat) (pi pj : nat) :
  (partition_inv v) n vp a pi pj -> pj - pi < fuel ->
  Permutation (fst (partition_loop v fuel a vp pi pj)) a /\
  length (fst (partition_loop v fuel a vp pi pj)) = n /\
  pi < snd (partition_loop v fuel a vp pi pj) <= n - 2 /\
  (forall k, k < snd (partition_loop v fuel a vp pi pj) ->
             (le_key v) (nth k (fst (partition_loop v fuel a vp pi pj)) 0) vp) /\
  (forall k, snd (partition_loop v fuel a vp pi pj) <= k <= n - 1 ->
             (le_key v) vp (nth k (fst (partition_loop v fuel a vp pi pj)) 0)) /\
  (key v) (nth (n - 2) (fst (partition_loop v fuel a vp pi pj)) 0) = (key v) vp.
Proof.
  revert a pi pj. induction fuel as [ | fuel IH]; intros a pi pj Inv Hf; [lia | ].
  destruct Inv as (Hn & Hlt & Hpj & Hlo & Hhi & Hpiv).
  unfold partition_inv, le_key in *.
  cbn [partition_loop].
  assert (Hup : less v (nth pj a 0) vp = false).
  { apply less_ge. apply Hhi. lia. }
  assert (Hdown : less v vp (nth pi a 0) = false).
  { apply less_ge. apply Hlo. lia. }
  destruct (scan_up_spec (length a) a vp (S pi) pj) as (U1 & U2 & U3);
    try lia; try assumption.
  destruct (scan_down_spec (length a) a vp (pred pj) pi) as (D1 & D2 & D3);
    try lia; try assumption.
  set (i := scan_up v (length a) a vp (S pi)) in *.
  set (j := scan_down v (length a) a vp (pred pj)) in *.
  apply less_ge in U2. apply less_ge in D2.
  destruct (Nat.leb_spec j i) as [Hji | Hij]; cbn [fst snd].
  - split; [apply Permutation_refl | ]. split; [exact Hn | ]. split; [lia | ].
    split; [ | split; [ | exact Hpiv]].
    + intros k Hk. destruct (Nat.le_gt_cases k pi) as [Hk' | Hk']; [apply Hlo; exact Hk' | ].
      assert (L : less v (nth k a 0) vp = true) by (apply U3; lia).
      apply less_lt in L. lia.
    + intros k Hk. destruct (Nat.le_gt_cases pj k) as [Hk' | Hk']; [apply Hhi; lia | ].
      destruct (Nat.eq_dec k i) as [-> | N]; [exact U2 | ].
      assert (L : less v vp (nth k a 0) = true) by (apply D3; lia).
      apply less_lt in L. lia.
  - assert (Li : i < length a) by lia. assert (Lj : j < length a) by lia.
    destruct (IH (swap i j a) i j) as (P & L & B & Lo & Hi & Pv).
    + rewrite swap_length. split; [exact Hn | ].
      split; [exact Hij | ]. split; [lia | ]. split; [ | split].
      * intros k Hk. destruct (Nat.eq_dec k i) as [-> | N].
        { rewrite nth_swap_l by assumption. exact D2. }
        rewrite nth_swap_other by lia.
        destruct (Nat.le_gt_cases k pi) as [Hk' | Hk']; [apply Hlo; exact Hk' | ].
        assert (L : less v (nth k a 0) vp = true) by (apply U3; lia).
        apply less_lt in L. lia.
      * intros k Hk. destruct (Nat.eq_dec k j) as [-> | N].
        { rewrite nth_swap_r by assumption. exact U2. }
        rewrite nth_swap_other by lia.
        destruct (Nat.le_gt_cases pj k) as [Hk' | Hk']; [apply Hhi; lia | ].
        assert (L : less v vp (nth k a 0) = true) by (apply D3; lia).
        apply less_lt in L. lia.
      * rewrite nth_swap_other by lia. exact Hpiv.
    + lia.
    + split; [ | split; [exact L | split; [lia | split; [exact Lo | split; [exact Hi | exact Pv]]]]].
      apply Permutation_trans with (swap i j a); [exact P | ].
      apply swap_perm; assumption.
Qed.

Lemma order_two (a : list nat) (p q : nat) :
  p < length a -> q < length a -> p <> q ->
  Permutation (ordered_two v a p q) a /\ length (ordered_two v a p q) = length a /\
  (le_key v) (nth q (ordered_two v a p q) 0) (nth p (ordered_two v a p q) 0) /\
  (forall k, k <> p -> k <> q -> nth k (ordered_two v a p q) 0 = nth k a 0) /\
  ((nth p (ordered_two v a p q) 0 = nth p a 0 /\
    nth q (ordered_two v a p q) 0 = nth q a 0) \/
   (nth p (ordered_two v a p q) 0 = nth q a 0 /\
    nth q (ordered_two v a p q) 0 = nth p a 0)).
Proof.
  intros Hp Hq N. unfold ordered_two, le_key.
  destruct (less v (nth p a 0) (nth q a 0)) eqn:E.
  - apply less_lt in E. split; [apply swap_perm; assumption | ].
    split; [apply swap_length | ].
    rewrite nth_swap_l, nth_swap_r by assumption.
    split; [lia | ]. split; [ | right; split; reflexivity].
    intros k K1 K2. apply nth_swap_other; assumption.
  - apply less_ge in E. split; [apply Permutation_refl | ].
    split; [reflexivity | ]. split; [exact E | ].
    split; [reflexivity | left; split; reflexivity].
Qed.

Lemma partition_spec (seg : list nat) :
  3 <= length seg ->
  Permutation (fst (partition v seg)) seg /\
  snd (partition v seg) < length seg /\
  (forall k, k < snd (partition v seg) ->
             (le_key v) (nth k (fst (partition v seg)) 0)
                    (nth (snd (partition v seg)) (fst (partition v seg)) 0)) /\
  (forall k, snd (partition v seg) < k < length seg ->
             (le_key v) (nth (snd (partition v seg)) (fst (partition v seg)) 0)
                    (nth k (fst (partition v seg)) 0)).
Proof.
  intros H3. unfold partition.
  set (n := length seg). set (pr := n - 1).
  replace (0 + (pr - 0) / 2) with (pr / 2) by (rewrite Nat.sub_0_r; reflexivity).
  set (pm := pr / 2).
  assert (Hpm : 1 <= pm < pr).
  { unfold pm. split.
    - apply Nat.div_le_lower_bound; lia.
    - apply Nat.div_lt; lia. }
  fold (ordered_two v seg pm 0). set (a1 := (ordered_two v) seg pm 0).
  fold (ordered_two v a1 pr pm). set (a2 := (ordered_two v) a1 pr pm).
  fold (ordered_two v a2 pm 0). set (a3 := (ordered_two v) a2 pm 0).
  destruct (order_two seg pm 0) as (P1 & L1 & O1 & K1 & C1);
    [fold n; lia | fold n; lia | lia | ].
  fold a1 in P1, L1, O1, K1, C1.
  destruct (order_two a1 pr pm) as (P2 & L2 & O2 & K2 & C2);
    [rewrite L1; fold n; lia | rewrite L1; fold n; lia | lia | ].
  fold a2 in P2, L2, O2, K2, C2.
  destruct (order_two a2 pm 0) as (P3 & L3 & O3 & K3 & C3);
    [rewrite L2, L1; fold n; lia | rewrite L2, L1; fold n; lia | lia | ].
  fold a3 in P3, L3, O3, K3, C3.
  assert (La3 : length a3 = n) by (rewrite L3, L2, L1; reflexivity).
  assert (M : (le_key v) (nth 0 a3 0) (nth pm a3 0) /\ (le_key v) (nth pm a3 0) (nth pr a3 0)).
  { pose proof (K2 0 ltac:(lia) ltac:(lia)) as E20.
    pose proof (K3 pr ltac:(lia) ltac:(lia)) as E3r.
    unfold le_key in *. rewrite E3r. rewrite E20 in *.
    destruct C2 as [[C2a C2b] | [C2a C2b]], C3 as [[C3a C3b] | [C3a C3b]];
      rewrite ?C3a, ?C3b in *; rewrite ?C2a, ?C2b in *; lia. }
  destruct M as [M0 Mr].
  set (vp := nth pm a3 0) in *.
  set (a4 := swap pm (pr - 1) a3).
  assert (La4 : length a4 = n) by (unfold a4; rewrite swap_length; exact La3).
  assert (Inv : (partition_inv v) n vp a4 0 (pr - 1)).
  { unfold partition_inv. split; [exact La4 | ]. split; [lia | ]. split; [lia | ].
    split; [ | split].
    - intros k Hk. assert (k = 0) by lia. subst k.
      unfold a4. rewrite nth_swap_other by lia. exact M0.
    - intros k Hk. destruct (Nat.eq_dec k (pr - 1)) as [-> | N].
      + unfold a4. rewrite nth_swap_r by lia. unfold le_key, vp. lia.
      + assert (k = pr) by lia. subst k.
        unfold a4. rewrite nth_swap_other by lia. exact Mr.
    - replace (n - 2) with (pr - 1) by lia.
      unfold a4. rewrite nth_swap_r by lia. reflexivity. }
  destruct (partition_loop_spec n vp (length a4) a4 0 (pr - 1) Inv)
    as (P & L & B & Lo & Hi & Pv); [lia | ].
  destruct (partition_loop v (length a4) a4 vp 0 (pr - 1)) as [a5 i] eqn:E5.
  cbn [fst snd] in *.
  replace (pr - 1) with (n - 2) by lia.
  assert (Ei : nth i (swap i (n - 2) a5) 0 = nth (n - 2) a5 0)
    by (apply nth_swap_l; lia).
  split; [ | split; [lia | split]].
  - apply Permutation_trans with a5; [apply swap_perm; lia | ].
    apply Permutation_trans with a4; [exact P | ].
    apply Permutation_trans with a3; [apply swap_perm; lia | ].
    apply Permutation_trans with a2; [exact P3 | ].
    apply Permutation_trans with a1; [exact P2 | exact P1].
  - intros k Hk. rewrite Ei, nth_swap_other by lia.
    unfold le_key in *. rewrite Pv. apply Lo. exact Hk.
  - intros k Hk. rewrite Ei. unfold le_key in *. rewrite Pv.
    destruct (Nat.eq_dec k (n - 2)) as [-> | N].
    + rewrite nth_swap_r by lia. apply Hi. lia.
    + rewrite nth_swap_other by lia. apply Hi. lia.
Qed.

(** *** Heapsort *)

Lemma hset_length (a : list nat) (k x : nat) : length (hset a k x) = length a.
Proof. unfold hset. apply upd_length. Qed.

Lemma hget_hset_same (a : list nat) (k x : nat) :
  1 <= k <= length a -> hget (hset a k x) k = x.
Proof. intros H. unfold hget, hset. apply nth_upd_same. lia. Qed.

Lemma hget_hset_other (a : list nat) (i k x : nat) :
  1 <= i -> 1 <= k -> k <> i -> hget (hset a i x) k = hget a k.
Proof. intros Hi Hk N. unfold hget, hset. apply nth_upd_other. lia. Qed.

(** Exchanging the hole with a child, in the array where the hole holds
    [tmp]. *)
Lemma hole_moves (a : list nat) (tmp i j : nat) :
  1 <= i <= length a -> 1 <= j <= length a -> i <> j ->
  hset (hset a i (hget a j)) j tmp = swap (i - 1) (j - 1) (hset a i tmp).
Proof.
  intros Hi Hj Hij. apply nth_ext with (d := 0) (d' := 0).
  - unfold hset, swap. rewrite !upd_length. reflexivity.
  - intros k Hk. unfold hset, hget in *. rewrite !upd_length in Hk.
    destruct (Nat.eq_dec k (j - 1)) as [-> | Nj].
    + rewrite nth_upd_same by (rewrite upd_length; lia).
      rewrite nth_swap_r by (rewrite upd_length; lia).
      rewrite nth_upd_same by lia. reflexivity.
    + rewrite nth_upd_other by exact Nj.
      destruct (Nat.eq_dec k (i - 1)) as [-> | Ni].
      * rewrite nth_upd_same by lia.
        rewrite nth_swap_l by (rewrite upd_length; lia).
        rewrite nth_upd_other by lia. reflexivity.
      * rewrite nth_upd_other by exact Ni.
        rewrite nth_swap_other by assumption.
        rewrite nth_upd_other by exact Ni. reflexivity.
Qed.

Lemma hset_hget_same (a : list nat) (k : nat) :
  1 <= k <= length a -> hset a k (hget a k) = a.
Proof.
  intros H. apply nth_ext with (d := 0) (d' := 0).
  - apply hset_length.
  - intros i Hi. unfold hset, hget. destruct (Nat.eq_dec i (k - 1)) as [-> | N].
    + apply nth_upd_same. lia.
    + apply nth_upd_other. exact N.
Qed.

Lemma sift_spec (l n : nat) (fuel : nat) (a : list nat) (tmp i : nat) :
  1 <= l -> l <= i -> i <= n -> n <= length a -> n - i < fuel ->
  (heap_except v) (hset a i tmp) l n i -> (heap_grand v) (hset a i tmp) l n i ->
  Permutation (sift v fuel a tmp i n) (hset a i tmp) /\
  length (sift v fuel a tmp i n) = length a /\
  (heap_all v) (sift v fuel a tmp i n) l n /\
  (forall k, 1 <= k -> k < i \/ n < k ->
             hget (sift v fuel a tmp i n) k = hget (hset a i tmp) k) /\
  (forall k, i <= k <= n ->
             exists k', i <= k' <= n /\
                        hget (sift v fuel a tmp i n) k = hget (hset a i tmp) k').
Proof.
  intros Hl. revert a i.
  induction fuel as [ | fuel IH]; intros a i Hli Hin Hn Hf He Hg; [lia | ].
  assert (Stop : (forall c, (c = 2 * i \/ c = 2 * i + 1) -> c <= n ->
                            (hkey v (hset a i tmp) c <= (key v) tmp)%Z) ->
                 Permutation (hset a i tmp) (hset a i tmp) /\
                 length (hset a i tmp) = length a /\
                 (heap_all v) (hset a i tmp) l n /\
                 (forall k, 1 <= k -> k < i \/ n < k ->
                            hget (hset a i tmp) k = hget (hset a i tmp) k) /\
                 (forall k, i <= k <= n ->
                            exists k', i <= k' <= n /\
                                       hget (hset a i tmp) k = hget (hset a i tmp) k')).
  { intros Hc. split; [apply Permutation_refl | ]. split; [apply hset_length | ].
    split; [ | split; [reflexivity | ]].
    - intros k c Hk Hkc Hcn. destruct (Nat.eq_dec k i) as [-> | N].
      + unfold hkey at 2. rewrite hget_hset_same by lia. apply Hc; assumption.
      + apply He; assumption.
    - intros k Hk. exists k. split; [exact Hk | reflexivity]. }
  cbn [sift]. destruct (Nat.ltb_spec n (2 * i)) as [Hleaf | Hchild].
  - apply Stop. intros c Hc Hcn. lia.
  - set (j := if (2 * i <? n) && less v (hget a (2 * i)) (hget a (2 * i + 1))
              then 2 * i + 1 else 2 * i).
    assert (Hj : (j = 2 * i \/ j = 2 * i + 1) /\ j <= n /\
                 forall c, (c = 2 * i \/ c = 2 * i + 1) -> c <= n ->
                           (hkey v a c <= (hkey v) a j)%Z).
    { unfold j. destruct (Nat.ltb_spec (2 * i) n) as [H2 | H2]; cbn [andb].
      - destruct (less v (hget a (2 * i)) (hget a (2 * i + 1))) eqn:E.
        + apply less_lt in E. split; [right; reflexivity | ]. split; [lia | ].
          intros c [-> | ->] Hc; unfold hkey; lia.
        + apply less_ge in E. split; [left; reflexivity | ]. split; [lia | ].
          intros c [-> | ->] Hc; unfold hkey; lia.
      - split; [left; reflexivity | ]. split; [lia | ].
        intros c [-> | ->] Hc; unfold hkey; lia. }
    destruct Hj as (Hj1 & Hj2 & Hj3). clearbody j.
    assert (Hread : forall c, 1 <= c -> c <> i -> (hkey v) (hset a i tmp) c = (hkey v) a c).
    { intros c Hc N. unfold hkey. rewrite hget_hset_other by lia. reflexivity. }
    destruct (less v tmp (hget a j)) eqn:E.
    + apply less_lt in E.
      assert (Hb1 : hset (hset a i (hget a j)) j tmp
                    = swap (i - 1) (j - 1) (hset a i tmp))
        by (apply hole_moves; lia).
      assert (R1 : forall c, 1 <= c -> c <> i -> c <> j ->
                             (hkey v) (hset (hset a i (hget a j)) j tmp) c
                             = (hkey v) (hset a i tmp) c).
      { intros c Hc Ni Nj. unfold hkey. rewrite !hget_hset_other by lia. reflexivity. }
      assert (Ri : (hkey v) (hset (hset a i (hget a j)) j tmp) i = (hkey v) a j).
      { unfold hkey. rewrite hget_hset_other by lia.
        rewrite hget_hset_same by lia. reflexivity. }
      assert (Rj : (hkey v) (hset (hset a i (hget a j)) j tmp) j = (key v) tmp).
      { unfold hkey. rewrite hget_hset_same by (rewrite hset_length; lia). reflexivity. }
      destruct (IH (hset a i (hget a j)) j) as (P & L & H & A & B);
        try lia; try (rewrite hset_length; lia).
      * intros k c Hk Nk Hc Hcn. destruct (Nat.eq_dec k i) as [-> | Ni].
        { rewrite Ri. destruct (Nat.eq_dec c j) as [-> | Nc].
          - rewrite Rj. unfold hkey. lia.
          - rewrite R1 by lia. rewrite Hread by lia. apply Hj3; assumption. }
        rewrite (R1 k) by lia.
        destruct (Nat.eq_dec c i) as [-> | Nci].
        { rewrite Ri. rewrite <- (Hread j) by lia.
          apply (Hg k j); try assumption. }
        destruct (Nat.eq_dec c j) as [-> | Ncj]; [lia | ].
        rewrite R1 by lia. apply He; assumption.
      * intros p c Hp Hpj Hc Hcn. assert (p = i) by lia. subst p.
        rewrite Ri. rewrite R1 by lia. rewrite Hread by lia.
        rewrite <- (Hread j), <- (Hread c) by lia.
        apply (He j c); try assumption; lia.
      * rewrite hset_length in L. split; [ | split; [exact L | split; [exact H | split]]].
        { apply Permutation_trans with (hset (hset a i (hget a j)) j tmp); [exact P | ].
          rewrite Hb1. apply swap_perm; rewrite hset_length; lia. }
        { intros k Hk Hki. rewrite A by lia.
          rewrite !hget_hset_other by lia. reflexivity. }
        { intros k Hk. destruct (Nat.le_gt_cases j k) as [Hjk | Hjk].
          - destruct (B k ltac:(lia)) as (k' & Hk' & Ek').
            destruct (Nat.eq_dec k' j) as [-> | Nk'].
            + exists i. split; [lia | ]. rewrite Ek'.
              rewrite hget_hset_same by (rewrite hset_length; lia).
              rewrite hget_hset_same by lia. reflexivity.
            + exists k'. split; [lia | ]. rewrite Ek'.
              rewrite !hget_hset_other by lia. reflexivity.
          - rewrite A by lia. destruct (Nat.eq_dec k i) as [-> | Nki].
            + exists j. split; [lia | ].
              rewrite hget_hset_other by lia. rewrite hget_hset_same by lia.
              rewrite hget_hset_other by lia. reflexivity.
            + exists k. split; [lia | ].
              rewrite !hget_hset_other by lia. reflexivity. }
    + apply less_ge in E. apply Stop. intros c Hc Hcn.
      rewrite Hread by lia. specialize (Hj3 c Hc Hcn). unfold hkey in *. lia.
Qed.

Lemma heapify_spec (n count : nat) (a : list nat) :
  n <= length a -> count <= n -> (heap_all v) a (count + 1) n ->
  Permutation (heapify v count a n) a /\
  length (heapify v count a n) = length a /\
  (heap_all v) (heapify v count a n) 1 n.
Proof.
  intros Hn. revert a Hn. induction count as [ | l IH]; intros a Hn Hc H.
  - split; [apply Permutation_refl | ]. split; [reflexivity | exact H].
  - cbn [heapify].
    assert (Eb : hset a (S l) (hget a (S l)) = a) by (apply hset_hget_same; lia).
    destruct (sift_spec (S l) n n a (hget a (S l)) (S l)) as (P & L & Hp & _ & _);
      try lia.
    + rewrite Eb. intros k c Hk Nk Hkc Hcn. apply H; try assumption. lia.
    + rewrite Eb. intros p c Hp' Hi' Hc' Hcn. lia.
    + rewrite Eb in P.
      destruct (IH (sift v n a (hget a (S l)) (S l) n)) as (P' & L' & H').
      * rewrite L. exact Hn.
      * lia.
      * replace (l + 1) with (S l) by lia. exact Hp.
      * split; [apply Permutation_trans with (sift v n a (hget a (S l)) (S l) n);
                assumption | ].
        split; [rewrite L', L; reflexivity | exact H'].
Qed.

(** The root of a heap holds a greatest (key v). *)
Lemma heap_root_max (a : list nat) (m : nat) :
  (heap_all v) a 1 m -> forall k, 1 <= k <= m -> (hkey v a k <= (hkey v) a 1)%Z.
Proof.
  intros H k. induction k as [k IH] using lt_wf_ind. intros Hk.
  destruct (Nat.eq_dec k 1) as [-> | N]; [lia | ].
  assert (Hp : 1 <= k / 2 < k).
  { split; [apply Nat.div_le_lower_bound; lia | apply Nat.div_lt; lia]. }
  assert (Hc : k = 2 * (k / 2) \/ k = 2 * (k / 2) + 1).
  { pose proof (Nat.div_mod_eq k 2) as E.
    pose proof (Nat.mod_upper_bound k 2 ltac:(lia)) as B. lia. }
  specialize (IH (k / 2) ltac:(lia) ltac:(lia)).
  specialize (H (k / 2) k ltac:(lia) Hc ltac:(lia)). lia.
Qed.

Lemma extract_spec (N m : nat) (a : list nat) :
  (extract_inv v) a m N ->
  Permutation (extract v m a) a /\
  length (extract v m a) = N /\
  (forall i j, 1 <= i -> i < j -> j <= N ->
               (hkey v (extract v m a) i <= (hkey v) (extract v m a) j)%Z).
Proof.
  revert a. induction m as [ | m' IH]; intros a (L & Hm & Hh & Hs & Hb).
  - split; [apply Permutation_refl | ]. split; [exact L | ].
    intros i j Hi Hij Hj. apply Hs; lia.
  - cbn [extract]. destruct m' as [ | m''].
    + split; [apply Permutation_refl | ]. split; [exact L | ].
      intros i j Hi Hij Hj. destruct (Nat.eq_dec i 1) as [-> | N1].
      * apply Hb; lia.
      * apply Hs; lia.
    + set (m := S (S m'')) in *. set (n' := S m'') in *.
      set (tmp := hget a m). set (a1 := hset a m (hget a 1)).
      assert (La1 : length a1 = N) by (unfold a1; rewrite hset_length; exact L).
      assert (Eb : hset a1 1 tmp = swap (m - 1) (1 - 1) a).
      { unfold a1, tmp. rewrite hole_moves by lia.
        rewrite hset_hget_same by lia. reflexivity. }
      assert (Rb : forall k, 1 <= k -> k <> 1 -> k <> m ->
                             hget (hset a1 1 tmp) k = hget a k).
      { intros k K1 K2 K3. unfold a1. rewrite !hget_hset_other by lia. reflexivity. }
      assert (Rb1 : hget (hset a1 1 tmp) 1 = hget a m).
      { apply hget_hset_same. lia. }
      assert (Rbm : hget (hset a1 1 tmp) m = hget a 1).
      { unfold a1. rewrite hget_hset_other by lia. apply hget_hset_same. lia. }
      destruct (sift_spec 1 n' n' a1 tmp 1) as (P & Ls & Hp & A & B); try lia.
      * intros k c Hk Nk Hc Hcn. unfold hkey. rewrite !Rb by lia.
        apply Hh; try assumption; lia.
      * intros p c Hp Hi Hc Hcn. lia.
      * destruct (IH (sift v n' a1 tmp 1 n')) as (P' & L' & S').
        { unfold extract_inv. split; [rewrite Ls; exact La1 | ].
          split; [lia | ]. split; [exact Hp | ]. split.
          - intros i j Hi Hij Hj. unfold hkey. rewrite !A by lia.
            destruct (Nat.eq_dec i m) as [-> | Nim].
            + rewrite Rbm, Rb by lia. apply Hb; lia.
            + rewrite !Rb by lia. apply Hs; lia.
          - intros i j Hi Hj. unfold hkey. rewrite (A j) by lia.
            destruct (B i ltac:(lia)) as (k' & Hk' & Ek'). rewrite Ek'.
            assert (Hel : exists x, 1 <= x <= m /\ hget (hset a1 1 tmp) k' = hget a x).
            { destruct (Nat.eq_dec k' 1) as [-> | N1].
              - exists m. split; [lia | exact Rb1].
              - exists k'. split; [lia | apply Rb; lia]. }
            destruct Hel as (x & Hx & Ex). rewrite Ex.
            destruct (Nat.eq_dec j m) as [-> | Njm].
            + rewrite Rbm. apply (heap_root_max a m Hh x Hx).
            + rewrite Rb by lia. apply Hb; lia. }
        split; [ | split; [exact L' | exact S']].
        apply Permutation_trans with (sift v n' a1 tmp 1 n'); [exact P' | ].
        apply Permutation_trans with (hset a1 1 tmp); [exact P | ].
        rewrite Eb. apply swap_perm; lia.
Qed.

Lemma aheapsort_sorts (seg : list nat) :
  Permutation (aheapsort v seg) seg /\ StronglySorted (le_key v) (aheapsort v seg).
Proof.
  unfold aheapsort. set (n := length seg).
  destruct (heapify_spec n (n / 2) seg) as (P & L & H).
  - unfold n. lia.
  - pose proof (Nat.div_mod_eq n 2) as E. lia.
  - intros k c Hk Hc Hcn. exfalso.
    pose proof (Nat.div_mod_eq n 2) as E.
    pose proof (Nat.mod_upper_bound n 2 ltac:(lia)) as B. lia.
  - destruct (extract_spec n n (heapify v (n / 2) seg n)) as (P' & L' & S').
    + unfold extract_inv. split; [rewrite L; reflexivity | ].
      split; [lia | ]. split; [exact H | ]. split; intros; lia.
    + split; [apply Permutation_trans with (heapify v (n / 2) seg n); assumption | ].
      apply sorted_of_nth. intros i j Hij. rewrite L' in Hij.
      specialize (S' (S i) (S j) ltac:(lia) ltac:(lia) ltac:(lia)).
      unfold hkey, hget in S'. cbn [Nat.sub] in S'. rewrite !Nat.sub_0_r in S'.
      exact S'.
Qed.

(** *** The introsort *)

Lemma quick_sorts (fuel : nat) (cdepth : Z) (seg : list nat) :
  length seg <= fuel ->
  Permutation (quick v fuel cdepth seg) seg /\
  StronglySorted (le_key v) (quick v fuel cdepth seg).
Proof.
  revert cdepth seg. induction fuel as [ | fuel IH]; intros cdepth seg Hf.
  - destruct seg; [ | cbn in Hf; lia]. split; [apply Permutation_refl | constructor].
  - cbn [quick]. destruct (Nat.ltb_spec 16 (length seg)) as [Hlong | Hshort];
      [ | apply insertion_sort_sorts].
    destruct (partition_spec seg ltac:(lia)) as (P & Hpi & Lo & Hi).
    destruct (partition v seg) as [a pi]. cbn [fst snd] in *.
    assert (La : length a = length seg) by (apply Permutation_length; exact P).
    set (left := firstn pi a). set (right := skipn (S pi) a).
    set (p := nth pi a 0) in *.
    assert (Ea : a = left ++ p :: right) by (apply nth_split_at; lia).
    assert (Ll : length left <= fuel).
    { unfold left. rewrite length_firstn. lia. }
    assert (Lr : length right <= fuel).
    { unfold right. rewrite length_skipn. lia. }
    assert (Hleft : forall x, In x left -> (le_key v) x p).
    { intros x Hx. destruct (In_nth _ _ 0 Hx) as (k & Hk & E).
      unfold left in Hk, E. rewrite length_firstn in Hk.
      rewrite nth_firstn in E.
      destruct (Nat.ltb_spec k pi) as [Hkp | Hkp]; [ | lia].
      subst x. apply Lo. exact Hkp. }
    assert (Hright : forall x, In x right -> (le_key v) p x).
    { intros x Hx. destruct (In_nth _ _ 0 Hx) as (k & Hk & E).
      unfold right in Hk, E. rewrite length_skipn in Hk.
      rewrite nth_skipn in E. subst x. apply Hi. lia. }
    assert (Popped : forall part, length part <= fuel ->
               Permutation
                 (if (cdepth - 1 <? 0)%Z then aheapsort v part
                  else quick v fuel (cdepth - 1) part) part /\
               StronglySorted (le_key v)
                 (if (cdepth - 1 <? 0)%Z then aheapsort v part
                  else quick v fuel (cdepth - 1) part)).
    { intros part Hp. destruct (cdepth - 1 <? 0)%Z;
        [apply aheapsort_sorts | apply IH; exact Hp]. }
    assert (Glue : forall l' r', Permutation l' left -> Permutation r' right ->
               StronglySorted (le_key v) l' -> StronglySorted (le_key v) r' ->
               Permutation (l' ++ p :: r') seg /\
               StronglySorted (le_key v) (l' ++ p :: r')).
    { intros l' r' Pl Pr Sl Sr. split.
      - apply Permutation_trans with a; [ | exact P]. rewrite Ea.
        apply Permutation_app; [exact Pl | apply perm_skip; exact Pr].
      - apply sorted_app; [exact Sl | | ].
        + constructor; [exact Sr | ]. apply Forall_forall. intros y Hy.
          apply Hright. apply (Permutation_in _ Pr). exact Hy.
        + intros x y Hx Hy. apply (Permutation_in _ Pl) in Hx.
          specialize (Hleft x Hx). destruct Hy as [<- | Hy]; [exact Hleft | ].
          apply (Permutation_in _ Pr) in Hy. specialize (Hright y Hy).
          unfold le_key in *. lia. }
    destruct (IH (cdepth - 1)%Z left Ll) as [Pl Sl].
    destruct (IH (cdepth - 1)%Z right Lr) as [Pr Sr].
    destruct (Popped left Ll) as [Pl' Sl'].
    destruct (Popped right Lr) as [Pr' Sr'].
    fold left right p.
    destruct (Nat.ltb (length left) (length right)); apply Glue; assumption.
Qed.

(** numpy's argsort with the default kind returns the positions of the
    keys, each once, in an order in which the keys do not decrease. *)
Theorem aquicksort_sorts :
  Permutation (aquicksort v) (seq 0 (length v)) /\
  StronglySorted (le_key v) (aquicksort v).
Proof. unfold aquicksort. apply quick_sorts. rewrite length_seq. lia. Qed.

End Keys.

End NpysortProofs.

(** ** The table is sorted by date *)

Lemma nrows_set_col (df : DataFrame) (name : string) (s : Series) :
  df <> [] -> length s = nrows df -> nrows (set_col df name s) = nrows df.
Proof.
  intros N L. destruct df as [ | [n c] df]; [contradiction N; reflexivity | ].
  unfold set_col. cbn [dict_set]. destruct (String.eqb n name); cbn [nrows]; [exact L | reflexivity].
Qed.

Lemma well_formed_set_col (df : DataFrame) (name : string) (s : Series) :
  well_formed df -> df <> [] -> length s = nrows df ->
  well_formed (set_col df name s).
Proof.
  intros W N L. unfold well_formed. rewrite nrows_set_col by assumption.
  unfold well_formed in W. remember (nrows df) as n eqn:En. clear En N.
  unfold set_col. induction W as [ | [k c] d Hc Hd IH]; cbn [dict_set].
  - constructor; [exact L | constructor].
  - destruct (String.eqb k name); constructor; auto.
Qed.

Lemma build_new_df_well_formed (df : DataFrame) (date : Series)
  (column_mapping : list (string * string)) :
  well_formed df -> length date = nrows df ->
  well_formed (build_new_df df date column_mapping) /\
  nrows (build_new_df df date column_mapping) = nrows df.
Proof.
  intros W L. unfold build_new_df.
  assert (W0 : well_formed (set_col [] "date" date)) by (repeat constructor).
  assert (N0 : nrows (set_col [] "date" date) = nrows df) by exact L.
  assert (E0 : set_col [] "date" date <> []) by discriminate.
  revert W0 N0 E0. generalize (set_col [] "date" date) as acc.
  induction column_mapping as [ | [old new] m IH]; intros acc W0 N0 E0.
  - split; assumption.
  - cbn [fold_left fst snd]. destruct (get_col df old) as [c | ] eqn:Ec.
    + assert (Lc : length c = nrows acc).
      { rewrite N0. apply (get_col_length df old c W Ec). }
      apply IH.
      * apply well_formed_set_col; assumption.
      * rewrite nrows_set_col by assumption. exact N0.
      * unfold set_col. destruct acc as [ | [k c0] acc]; [contradiction E0; reflexivity | ].
        cbn [dict_set]. destruct (String.eqb k new); discriminate.
    + apply IH; assumption.
Qed.

Lemma normalized_dates_length
  (parse : date_parser) (date_col : Series) :
  length (normalized_dates parse date_col) = length date_col.
Proof. unfold normalized_dates. apply length_map. Qed.

Lemma mapped_frame_well_formed
  (parse : date_parser) (wb : Workbook)
  (header_row : list cell) (date_col : Series) :
  passes_checks wb header_row date_col -> well_formed (wb_df wb) ->
  well_formed (mapped_frame parse (wb_df wb) header_row date_col).
Proof.
  intros (_ & _ & He & _ & Hd) W. unfold mapped_frame.
  assert (Ne : wb_df wb <> []) by (intros E; rewrite E in He; discriminate).
  assert (L : length (normalized_dates parse date_col) = nrows (wb_df wb)).
  { rewrite normalized_dates_length. apply (get_col_length _ _ _ W Hd). }
  apply build_new_df_well_formed.
  - apply well_formed_set_col; assumption.
  - rewrite nrows_set_col by assumption. exact L.
Qed.

Lemma retained_rows_are_dated_rows
  (parse : date_parser) (wb : Workbook)
  (header_row : list cell) (date_col : Series) :
  passes_checks wb header_row date_col -> well_formed (wb_df wb) ->
  dated_rows (retained_frame parse (wb_df wb) header_row date_col)
  = retained_rows parse (wb_df wb) header_row date_col.
Proof.
  intros Hp W. unfold retained_rows, retained_frame, retained_positions.
  apply (dated_rows_select notna).
  - apply (mapped_frame_well_formed parse wb header_row date_col Hp W).
  - apply mapped_frame_date.
Qed.

Lemma retained_dates_are_timestamps
  (parse : date_parser) (date_col : Series) (c : cell) :
  In c (take (retained_positions parse date_col) (normalized_dates parse date_col)) ->
  is_time_cell c = true.
Proof.
  intros H.
  pose proof (take_where_satisfy notna (normalized_dates parse date_col) c H) as H'.
  assert (Hin : In c (normalized_dates parse date_col)).
  { unfold take in H. apply in_map_iff in H. destruct H as (i & E & Hi).
    unfold retained_positions in Hi. rewrite where_map in Hi.
    apply filter_In in Hi. destruct Hi as [Hi _]. apply in_seq in Hi.
    rewrite <- E. apply nth_In. lia. }
  unfold normalized_dates in Hin. apply in_map_iff in Hin.
  destruct Hin as (x & Ex & _). rewrite <- Ex in *.
  destruct (safe_convert_date parse x); [reflexivity | discriminate].
Qed.

Lemma sorted_map {A B : Type} (g : A -> B) (R : B -> B -> Prop)
  (R' : A -> A -> Prop) (l : list A) :
  (forall a b, R' a b -> R (g a) (g b)) ->
  StronglySorted R' l -> StronglySorted R (map g l).
Proof.
  intros H S. induction S as [ | x l Hs IH Hx]; cbn [map]; constructor.
  - exact IH.
  - apply Forall_forall. intros y Hy. apply in_map_iff in Hy.
    destruct Hy as (z & <- & Hz). apply H. rewrite Forall_forall in Hx. apply Hx. exact Hz.
Qed.

(** C4, as the code has it.  The table that the load returns holds the
    retained rows of the sheet, each once (a rearrangement: nothing is
    dropped or merged by date), every row with a date, in an order in which
    the dates do not decrease. *)
Theorem C4_rows_sorted_by_date
  (parse : date_parser) (wb : Workbook)
  (header_row : list cell) (date_col : Series) (df : DataFrame) :
  passes_checks wb header_row date_col -> well_formed (wb_df wb) ->
  load_excel_data parse wb = Ok df ->
  is_metric_table df /\
  Permutation (dated_rows df)
              (retained_rows parse (wb_df wb) header_row date_col) /\
  StronglySorted date_le (dated_rows df).
Proof.
  intros Hp W Hl. rewrite (load_after_checks parse wb header_row date_col Hp) in Hl.
  destruct (Nat.eqb (length (retained_positions parse date_col)) 0); [discriminate | ].
  inversion Hl as [E]. clear Hl.
  set (rdate := take (retained_positions parse date_col)
                     (normalized_dates parse date_col)) in *.
  set (rf := retained_frame parse (wb_df wb) header_row date_col) in *.
  set (keys := map date_key rdate) in *.
  destruct (NpysortProofs.aquicksort_sorts keys) as [P S].
  assert (Hrd : get_col rf "date" = Some rdate) by apply retained_frame_date.
  assert (Wrf : well_formed rf) by apply well_formed_take.
  assert (Lk : length keys = nrows rf).
  { unfold keys. rewrite length_map. apply (get_col_length rf _ rdate Wrf Hrd). }
  assert (Hrows : dated_rows (take_rows (Npysort.aquicksort keys) rf)
                  = map (fun i => (nth i rdate CNa, row_at rf i)) (Npysort.aquicksort keys))
    by (apply dated_rows_take; exact Hrd).
  split; [ | split].
  - split; [apply well_formed_take | ].
    exists (take (Npysort.aquicksort keys) rdate). split.
    + rewrite get_col_take, Hrd. reflexivity.
    + apply forallb_forall. intros c Hc. unfold take in Hc.
      apply in_map_iff in Hc. destruct Hc as (i & <- & Hi).
      apply (Permutation_in _ P) in Hi. apply in_seq in Hi.
      apply (retained_dates_are_timestamps parse date_col).
      apply nth_In. unfold keys in Hi. rewrite length_map in Hi.
      unfold rdate in Hi. lia.
  - rewrite Hrows.
    rewrite <- (retained_rows_are_dated_rows parse wb header_row date_col Hp W).
    fold rf. rewrite (dated_rows_seq rf rdate Wrf Hrd), <- Lk.
    apply Permutation_map. exact P.
  - rewrite Hrows.
    apply (sorted_map _ date_le (Npysort.le_key keys)); [ | exact S].
    intros a b Hab. unfold date_le, Npysort.le_key, Npysort.key, keys in *.
    cbn [fst].
    change 0 with (date_key CNa) in Hab. rewrite !map_nth in Hab. exact Hab.
Qed.

Lemma workbook_12_well_formed : well_formed (wb_df workbook_12).
Proof. repeat constructor. Qed.

(** A witness of C4: the 12-column sheet of scenario C. *)
Lemma C4_witness :
  is_metric_table table_12 /\
  Permutation (dated_rows table_12)
              (retained_rows sample_parser (wb_df workbook_12) labels_12
                 [CStr "日期"; CInt 45657; CInt 45658]) /\
  StronglySorted date_le (dated_rows table_12).
Proof.
  apply (C4_rows_sorted_by_date sample_parser workbook_12 labels_12
           [CStr "日期"; CInt 45657; CInt 45658] table_12).
  - exact workbook_12_passes.
  - exact workbook_12_well_formed.
  - vm_compute. reflexivity.
Defined.

(** C4 as stated fails: the sort is not stable.  On the sheet with 18 rows
    of the same day the load returns the rows numbered 1, 16, 15, ..., 2,
    17, 18 in this order: rows with equal dates do not keep the order they
    have in the sheet. *)
Lemma C4_ties_change_their_order :
  load_excel_data sample_parser workbook_ties = Ok table_ties /\
  get_col table_ties "user1_exposure"
  = Some (map CInt [1; 16; 15; 14; 13; 12; 11; 10; 9; 8; 7; 6; 5; 4; 3; 2; 17; 18]) /\
  ~ keeps_order_of_ties
      (retained_rows sample_parser (wb_df workbook_ties) labels_12
         (CStr "日期" :: repeat (CInt 45657) 18))
      (dated_rows table_ties).
Proof.
  split; [vm_compute; reflexivity | ]. split; [reflexivity | ].
  intros H. specialize (H 1735603200000000000).
  vm_compute in H. discriminate H.
Qed.

(** * Further properties *)

(** ** convert_excel_date *)

Lemma not_negative_trunc (f : f64) (d : Z) :
  lt_Z f 0 = false -> trunc f = Some d -> 0 <= d.
Proof.
  destruct f as [s | s | | s m e]; cbn [trunc]; try discriminate.
  - intros _ E. inversion E. lia.
  - unfold lt_Z, cmp_Z. destruct (0 <=? e) eqn:He.
    + intros H E. inversion E as [E']. clear E E'.
      destruct s; cbn [smant cond_Zopp] in *.
      * exfalso. destruct (Z.compare_spec (Z.opp (Z.pos m) * 2 ^ e) 0) as [C | C | C];
          try discriminate H;
          assert (0 < 2 ^ e) by (apply Z.pow_pos_nonneg; [lia | apply Z.leb_le; exact He]); nia.
      * assert (0 < 2 ^ e) by (apply Z.pow_pos_nonneg; [lia | apply Z.leb_le; exact He]). nia.
    + intros H E. inversion E as [E']. clear E E'.
      destruct s; cbn [smant cond_Zopp] in *.
      * exfalso. rewrite Z.mul_0_l in H.
        destruct (Z.compare_spec (Z.opp (Z.pos m)) 0) as [C | C | C]; try discriminate H; lia.
      * apply Z.quot_pos; [lia | ]. apply Z.pow_pos_nonneg; [lia | ].
        apply Z.leb_gt in He. lia.
Qed.

Lemma some_eq {A : Type} (a b : A) : Some a = Some b -> a = b.
Proof. intros H. injection H as H. exact H. Qed.

(** X1.  On a number, a blank, a text or a datetime, [convert_excel_date]
    returns a date exactly when the input is a number that is not negative
    and whose integer part [d] is at most the day count of 9999-12-31; the
    date is then [d] whole days after 1899-12-30 (the fraction of a day is
    dropped, and no date before the base date is ever returned).  It raises
    on every other such input: a negative number, NaN, an infinity, and a
    cell that is not a number.  The objects of other kinds ([COther], among
    them the bool, which Python counts as an int) are left aside. *)
Theorem convert_excel_date_whole_days (x : cell) (t : Z) :
  x <> COther ->
  (convert_excel_date x = Some t <->
   exists d,
     num_trunc x = Some d /\ negative x = false /\
     0 <= d <= datetime_max_day /\ t = base_date + d * ns_per_day).
Proof.
  intros _. split.
  - destruct x as [ | z | f | s | t' | ]; cbn [convert_excel_date]; try discriminate.
    + destruct (z <? 0) eqn:Hn; [discriminate | ].
      destruct (z <=? datetime_max_day) eqn:Hm; [ | discriminate].
      intros E. apply some_eq in E. subst t.
      exists z. cbn [num_trunc negative].
      split; [reflexivity | ]. split; [exact Hn | ].
      apply Z.ltb_ge in Hn. apply Z.leb_le in Hm.
      split; [split; assumption | reflexivity].
    + destruct (lt_Z f 0) eqn:Hn; [discriminate | ].
      destruct (trunc f) as [d | ] eqn:Ht; [ | discriminate].
      destruct (d <=? datetime_max_day) eqn:Hm; [ | discriminate].
      intros E. apply some_eq in E. subst t. exists d. cbn [num_trunc negative].
      apply Z.leb_le in Hm.
      split; [exact Ht | ]. split; [exact Hn | ].
      split; [split; [ | exact Hm] | reflexivity].
      apply (not_negative_trunc f d Hn Ht).
  - intros (d & Ht & Hn & [H0 Hm] & ->).
    destruct x as [ | z | f | s | t' | ]; cbn [num_trunc] in Ht; try discriminate;
      cbn [negative] in Hn; cbn [convert_excel_date]; rewrite Hn.
    + apply some_eq in Ht. subst z. apply Z.leb_le in Hm. rewrite Hm. reflexivity.
    + rewrite Ht. apply Z.leb_le in Hm. rewrite Hm. reflexivity.
Qed.

(** A witness of X1: the day count 45657.75. *)
Lemma convert_excel_date_whole_days_witness :
  convert_excel_date (CFloat (S754_finite false 6275153377886208 (-37)))
  = Some (base_date + 45657 * ns_per_day) <->
  exists d,
    num_trunc (CFloat (S754_finite false 6275153377886208 (-37))) = Some d /\
    negative (CFloat (S754_finite false 6275153377886208 (-37))) = false /\
    0 <= d <= datetime_max_day /\
    base_date + 45657 * ns_per_day = base_date + d * ns_per_day.
Proof.
  apply (convert_excel_date_whole_days
           (CFloat (S754_finite false 6275153377886208 (-37)))).
  discriminate.
Defined.

(** ** The converted date column *)

Lemma safe_convert_date_of_date_cell
  (parse : date_parser) (t : option Z) :
  safe_convert_date parse (date_cell t) = t.
Proof. destruct t; reflexivity. Qed.

Lemma datetime_cell_is_date_cell (c : cell) :
  is_datetime_cell c = true -> exists t, c = date_cell t.
Proof.
  destruct c; try discriminate; intros _.
  - exists None. reflexivity.
  - exists (Some t). reflexivity.
Qed.

Lemma normalized_datetime_column
  (parse : date_parser) (s : Series) :
  is_datetime64_any_dtype s = true ->
  map (fun x => date_cell (safe_convert_date parse x)) s = s.
Proof.
  unfold is_datetime64_any_dtype.
  induction s as [ | c s IH]; [reflexivity | ].
  cbn [forallb map]. intros H. apply andb_prop in H. destruct H as [Hc Hs].
  destruct (datetime_cell_is_date_cell c Hc) as [t ->].
  rewrite safe_convert_date_of_date_cell, (IH Hs). reflexivity.
Qed.

Lemma normalized_is_datetime
  (parse : date_parser) (s : Series) :
  is_datetime64_any_dtype
    (map (fun x => date_cell (safe_convert_date parse x)) s) = true.
Proof.
  unfold is_datetime64_any_dtype. apply forallb_forall. intros c Hc.
  apply in_map_iff in Hc. destruct Hc as (x & <- & _).
  destruct (safe_convert_date parse x); reflexivity.
Qed.

(** X2.  The date column that the loader stores is a datetime column
    (timestamps and NaT only), whatever the cells of the sheet are;
    converting it once more changes nothing; and on a column that is
    already a datetime column the cell-wise conversion is the identity, so
    that the two branches of the loader agree. *)
Theorem converted_date_column_is_stable
  (parse : date_parser) (date_col : Series) :
  is_datetime64_any_dtype (convert_date_column parse date_col) = true /\
  convert_date_column parse (convert_date_column parse date_col)
  = convert_date_column parse date_col /\
  (is_datetime64_any_dtype date_col = true ->
   map (fun x => date_cell (safe_convert_date parse x)) date_col = date_col).
Proof.
  assert (D : is_datetime64_any_dtype (convert_date_column parse date_col) = true).
  { unfold convert_date_column.
    destruct (is_datetime64_any_dtype date_col) eqn:E;
      [exact E | apply normalized_is_datetime]. }
  split; [exact D | ]. split.
  - unfold convert_date_column at 1. rewrite D. reflexivity.
  - apply normalized_datetime_column.
Qed.

(** ** Integer day counts inside and outside the window *)

(** X3.  On the whole numbers of days from -81182 to 132320 the Date
    Normalizer is one and the same map: the day count [z] gives the date [z]
    days from 1899-12-30, inside the window from 1 to 100000 and outside it
    (0, the negative counts and the counts above 100000 go through the
    fallback conversion and get the same date).  These are the days from
    1677-09-22 to 2262-04-11. *)
Theorem integer_day_counts_beyond_the_window (parse : date_parser) (z : Z) :
  -81182 <= z <= 132320 ->
  safe_convert_date parse (CInt z) = Some (base_date + z * ns_per_day).
Proof.
  intros Hz. unfold safe_convert_date. cbn [isna]. unfold in_day_count_range.
  destruct (Z.leb_spec 1 z) as [H1 | H1];
    [destruct (Z.leb_spec z 100000) as [H2 | H2] | ]; cbn [andb];
    try (apply origin_of_int; exact Hz).
  unfold convert_excel_date.
  destruct (Z.ltb_spec z 0) as [H3 | H3]; [lia | ].
  destruct (Z.leb_spec z datetime_max_day) as [H4 | H4];
    [reflexivity | unfold datetime_max_day in H4; lia].
Qed.

(** A witness of X3: the day count 120000, which is 2228-07-18. *)
Lemma integer_day_counts_beyond_the_window_witness :
  safe_convert_date no_parser (CInt 120000) = Some (base_date + 120000 * ns_per_day).
Proof.
  apply (integer_day_counts_beyond_the_window no_parser 120000). lia.
Defined.

(** ** The errors of the load *)

Lemma load_ok_passes
  (parse : date_parser) (wb : Workbook) (df : DataFrame) :
  load_excel_data parse wb = Ok df ->
  exists header_row date_col, passes_checks wb header_row date_col.
Proof.
  unfold load_excel_data, passes_checks.
  destruct (file_exists wb); cbn [negb]; [ | discriminate].
  destruct (nth_error (wb_raw wb) 0); [ | discriminate].
  destruct (df_empty (wb_df wb)); [discriminate | ].
  destruct (Nat.ltb_spec (length (columns (wb_df wb))) 12) as [Hc | Hc]; [discriminate | ].
  destruct (get_col (wb_df wb) (nth 0 (columns (wb_df wb)) ""%string))
    as [date_col | ]; [ | discriminate].
  destruct (nth_error (wb_raw wb) 1) as [header_row | ]; [ | discriminate].
  intros _. exists header_row, date_col. repeat split. exact Hc.
Qed.

(** X4.  [load_excel_data] lets out FileNotFoundError or a ValueError, and
    nothing else (no KeyError, TypeError or parse error of pandas reaches
    the caller).  FileNotFoundError is raised exactly when the file does
    not exist; the error about the column count carries the number of
    columns of the sheet, which is below 12; and the error about the dates
    is raised only when no cell of the date column normalises to a date. *)
Theorem load_raises_only_load_errors
  (parse : date_parser) (wb : Workbook) (e : error) :
  load_excel_data parse wb = Raise e ->
  is_load_error e = true /\
  (e = FileNotFoundError <-> file_exists wb = false) /\
  (forall n, e = TooFewColumns n ->
             n = length (columns (wb_df wb)) /\ (n < 12)%nat) /\
  (forall ty sample, e = NoParsableDates ty sample ->
     exists header_row date_col,
       passes_checks wb header_row date_col /\
       ty = dtype_of date_col /\ sample = firstn 5 date_col /\
       filter (has_date parse) date_col = []).
Proof.
  intros H.
  destruct (file_exists wb) eqn:Hf.
  2:{ unfold load_excel_data in H. rewrite Hf in H. cbn [negb] in H.
      injection H as <-. repeat split; try reflexivity; try discriminate. }
  destruct (nth_error (wb_raw wb) 0) as [first_row | ] eqn:H0.
  2:{ unfold load_excel_data in H. rewrite Hf, H0 in H. cbn [negb] in H.
      injection H as <-. repeat split; try reflexivity; try discriminate. }
  destruct (df_empty (wb_df wb)) eqn:He.
  { unfold load_excel_data in H. rewrite Hf, H0, He in H. cbn [negb] in H.
    injection H as <-. repeat split; try reflexivity; try discriminate. }
  destruct (Nat.ltb_spec (length (columns (wb_df wb))) 12) as [Hc | Hc].
  { unfold load_excel_data in H. rewrite Hf, H0, He in H. cbn [negb] in H.
    apply Nat.ltb_lt in Hc. rewrite Hc in H. apply Nat.ltb_lt in Hc.
    injection H as <-. split; [reflexivity | ]. split; [split; discriminate | ].
    split; [ | discriminate].
    intros n E. injection E as <-. split; [reflexivity | exact Hc]. }
  destruct (get_col (wb_df wb) (nth 0 (columns (wb_df wb)) ""%string))
    as [date_col | ] eqn:Hd.
  2:{ unfold load_excel_data in H. rewrite Hf, H0, He in H. cbn [negb] in H.
      apply Nat.ltb_ge in Hc. rewrite Hc, Hd in H.
      injection H as <-. repeat split; try reflexivity; try discriminate. }
  destruct (nth_error (wb_raw wb) 1) as [header_row | ] eqn:H1.
  2:{ unfold load_excel_data in H. rewrite Hf, H0, He in H. cbn [negb] in H.
      apply Nat.ltb_ge in Hc. rewrite Hc, Hd, H1 in H.
      injection H as <-. repeat split; try reflexivity; try discriminate. }
  assert (Hp : passes_checks wb header_row date_col).
  { unfold passes_checks. repeat split; assumption. }
  rewrite (load_after_checks parse wb header_row date_col Hp) in H.
  destruct (Nat.eqb (length (retained_positions parse date_col)) 0) eqn:Hn;
    [ | discriminate].
  injection H as <-. split; [reflexivity | ]. split; [split; discriminate | ].
  split; [discriminate | ].
  intros ty sample E. injection E as <- <-.
  exists header_row, date_col. repeat split; try assumption; try reflexivity.
  apply Nat.eqb_eq in Hn.
  pose proof (proj1 (no_retained_position parse date_col) Hn) as Hn'.
  clear Hn. rename Hn' into Hn.
  apply filter_none. intros x Hx. unfold has_date. rewrite (Hn x Hx). reflexivity.
Qed.

(** A witness of X4: the sheet whose date column holds no date. *)
Lemma load_raises_only_load_errors_witness :
  is_load_error (NoParsableDates Object [CStr "日期"; CStr "N/A"]) = true /\
  (NoParsableDates Object [CStr "日期"; CStr "N/A"] = FileNotFoundError <->
   file_exists workbook_no_date = false) /\
  (forall n, NoParsableDates Object [CStr "日期"; CStr "N/A"] = TooFewColumns n ->
             n = length (columns (wb_df workbook_no_date)) /\ (n < 12)%nat) /\
  (forall ty sample,
     NoParsableDates Object [CStr "日期"; CStr "N/A"] = NoParsableDates ty sample ->
     exists header_row date_col,
       passes_checks workbook_no_date header_row date_col /\
       ty = dtype_of date_col /\ sample = firstn 5 date_col /\
       filter (has_date sample_parser) date_col = []).
Proof.
  apply (load_raises_only_load_errors sample_parser workbook_no_date).
  vm_compute. reflexivity.
Defined.

(** ** The columns of the table *)

Lemma columns_take_rows (idx : list nat) (df : DataFrame) :
  columns (take_rows idx df) = columns df.
Proof.
  unfold columns, take_rows. rewrite map_map. apply map_ext. intros [n c]. reflexivity.
Qed.

Lemma dict_set_keys {V : Type} (d : list (string * V)) (k : string) (v : V) :
  map fst (dict_set d k v)
  = if existsb (String.eqb k) (map fst d) then map fst d else map fst d ++ [k].
Proof.
  induction d as [ | [k' v'] d IH]; [reflexivity | ].
  cbn [dict_set map fst existsb].
  rewrite (String.eqb_sym k k').
  destruct (String.eqb k' k) eqn:E; cbn [orb map fst]; [reflexivity | ].
  rewrite IH. destruct (existsb (String.eqb k) (map fst d)); reflexivity.
Qed.

Lemma existsb_eqb_in (k : string) (l : list string) :
  existsb (String.eqb k) l = true <-> In k l.
Proof.
  rewrite existsb_exists. split.
  - intros (x & Hx & E). apply String.eqb_eq in E. subst x. exact Hx.
  - intros H. exists k. split; [exact H | apply String.eqb_refl].
Qed.

Lemma dict_set_keys_in {V : Type} (d : list (string * V)) (k : string) (v : V)
  (name : string) :
  In name (map fst (dict_set d k v)) <-> name = k \/ In name (map fst d).
Proof.
  rewrite dict_set_keys.
  destruct (existsb (String.eqb k) (map fst d)) eqn:E.
  - apply existsb_eqb_in in E. split; [auto | ]. intros [-> | H]; assumption.
  - rewrite in_app_iff. cbn [In]. split.
    + intros [H | [H | []]]; [right; exact H | left; symmetry; exact H].
    + intros [H | H]; [right; left; symmetry; exact H | left; exact H].
Qed.

Lemma dict_set_keys_nodup {V : Type} (d : list (string * V)) (k : string) (v : V) :
  NoDup (map fst d) -> NoDup (map fst (dict_set d k v)).
Proof.
  intros H. rewrite dict_set_keys.
  destruct (existsb (String.eqb k) (map fst d)) eqn:E; [exact H | ].
  apply NoDup_app; [exact H | constructor; [intros [] | constructor] | ].
  intros x Hx [Hk | []]. subst x.
  apply existsb_eqb_in in Hx. rewrite Hx in E. discriminate.
Qed.

Lemma build_fold_columns (Q : string -> Prop) (df : DataFrame)
  (column_mapping : list (string * string)) (acc : DataFrame) :
  NoDup (columns acc) -> (forall name, In name (columns acc) -> Q name) ->
  Forall (fun it => Q (snd it)) column_mapping ->
  NoDup (columns (fold_left
           (fun new_df (item : string * string) =>
              match get_col df (fst item) with
              | Some c => set_col new_df (snd item) c
              | None => new_df
              end) column_mapping acc)) /\
  (forall name,
      In name (columns (fold_left
           (fun new_df (item : string * string) =>
              match get_col df (fst item) with
              | Some c => set_col new_df (snd item) c
              | None => new_df
              end) column_mapping acc)) -> Q name).
Proof.
  revert acc. induction column_mapping as [ | [old new] m IH]; intros acc N I F.
  - cbn [fold_left]. split; assumption.
  - cbn [fold_left fst snd]. inversion F as [ | it l Hq Hm]. subst it l.
    cbn [snd] in Hq.
    destruct (get_col df old) as [c | ]; [ | apply IH; assumption].
    apply IH; [apply dict_set_keys_nodup; exact N | | exact Hm].
    intros name H. apply dict_set_keys_in in H.
    destruct H as [-> | H]; [exact Hq | apply I; exact H].
Qed.

Lemma canonical_field_of_label (user hv f : string) :
  (user = "user1" \/ user = "user2")%string ->
  field_of_label user hv = Some f -> In f canonical_fields.
Proof.
  intros Hu H. apply field_of_label_cases in H.
  destruct Hu as [-> | ->];
    destruct H as [[_ ->] | [[_ ->] | [[_ ->] | [[_ ->] | [_ ->]]]]];
    cbn; tauto.
Qed.

Lemma column_mapping_canonical (headers : list string) (header_row : list cell) :
  Forall (fun it => In (snd it) canonical_fields)
         (column_mapping_of headers header_row).
Proof.
  apply (column_mapping_values (fun f => In f canonical_fields)).
  - cbn; tauto.
  - cbn; tauto.
  - intros user i f Hu H. apply (canonical_field_of_label user _ f Hu H).
Qed.

(** X5.  The table that the load returns has the column "date" first, then
    metric columns under canonical names only (no name of the sheet reaches
    the table), each name once; and all its columns have the same
    length. *)
Theorem loaded_table_schema
  (parse : date_parser) (wb : Workbook) (df : DataFrame) :
  load_excel_data parse wb = Ok df ->
  (exists date rest, df = ("date"%string, date) :: rest) /\
  NoDup (columns df) /\
  (forall name, In name (columns df) ->
                name = "date"%string \/ In name canonical_fields) /\
  well_formed df.
Proof.
  intros H. destruct (load_ok_passes parse wb df H) as (header_row & date_col & Hp).
  rewrite (load_after_checks parse wb header_row date_col Hp) in H.
  destruct (Nat.eqb (length (retained_positions parse date_col)) 0); [discriminate | ].
  injection H as <-.
  assert (C : NoDup (columns (mapped_frame parse (wb_df wb) header_row date_col)) /\
              (forall name,
                  In name (columns (mapped_frame parse (wb_df wb) header_row date_col)) ->
                  name = "date"%string \/ In name canonical_fields)).
  { unfold mapped_frame, build_new_df.
    apply (build_fold_columns (fun n => n = "date"%string \/ In n canonical_fields)).
    - constructor; [intros [] | constructor].
    - intros name [E | []]. left. symmetry. exact E.
    - eapply Forall_impl; [ | apply column_mapping_canonical].
      intros it Hit. right. exact Hit. }
  unfold retained_frame. rewrite !columns_take_rows.
  split; [ | split; [apply C | split; [apply C | apply well_formed_take]]].
  destruct (mapped_frame_head parse (wb_df wb) header_row date_col) as [rest E].
  rewrite E. cbn [take_rows map fst snd]. eexists. eexists. reflexivity.
Qed.

(** A witness of X5: the table of the 12-column sheet. *)
Lemma loaded_table_schema_witness :
  (exists date rest, table_12 = ("date"%string, date) :: rest) /\
  NoDup (columns table_12) /\
  (forall name, In name (columns table_12) ->
                name = "date"%string \/ In name canonical_fields) /\
  well_formed table_12.
Proof.
  apply (loaded_table_schema sample_parser workbook_12 table_12).
  vm_compute. reflexivity.
Defined.

(** ** The rows of the table *)

Lemma map_nth_positions {A : Type} (l : list A) (d : A) :
  map (fun k => nth k l d) (seq 0 (length l)) = l.
Proof.
  induction l as [ | x l IH]; [reflexivity | ].
  cbn [length seq map nth]. f_equal.
  rewrite <- seq_shift, map_map. exact IH.
Qed.

Lemma filter_positions_length {A : Type} (p : A -> bool) (l : list A) (d : A) :
  length (filter (fun k => p (nth k l d)) (seq 0 (length l))) = length (filter p l).
Proof.
  rewrite <- (length_map (fun k => nth k l d)).
  rewrite (map_filter_comm (fun k => nth k l d) p), map_nth_positions.
  reflexivity.
Qed.

Lemma retained_positions_count
  (parse : date_parser) (date_col : Series) :
  length (retained_positions parse date_col)
  = length (filter (has_date parse) date_col).
Proof.
  unfold retained_positions, normalized_dates. rewrite map_map.
  set (p := fun x => notna (date_cell (safe_convert_date parse x))).
  rewrite (where_map p), (filter_positions_length p date_col CNa).
  f_equal. apply filter_ext. intros x. unfold p, has_date.
  destruct (safe_convert_date parse x); reflexivity.
Qed.

Lemma filter_length_le {A : Type} (p : A -> bool) (l : list A) :
  (length (filter p l) <= length l)%nat.
Proof.
  induction l as [ | x l IH]; [apply Nat.le_refl | ].
  cbn [filter length]. destruct (p x); cbn [length]; lia.
Qed.

Lemma loaded_nrows
  (parse : date_parser) (wb : Workbook)
  (header_row : list cell) (date_col : Series) (df : DataFrame) :
  passes_checks wb header_row date_col ->
  load_excel_data parse wb = Ok df ->
  nrows df = length (filter (has_date parse) date_col) /\ (0 < nrows df)%nat.
Proof.
  intros Hp H. rewrite (load_after_checks parse wb header_row date_col Hp) in H.
  destruct (Nat.eqb_spec (length (retained_positions parse date_col)) 0) as [Hn | Hn];
    [discriminate | ].
  injection H as <-.
  destruct (mapped_frame_head parse (wb_df wb) header_row date_col) as [rest E].
  assert (N : nrows (take_rows
                (Npysort.aquicksort
                   (map date_key
                      (take (retained_positions parse date_col)
                            (normalized_dates parse date_col))))
                (retained_frame parse (wb_df wb) header_row date_col))
              = length (retained_positions parse date_col)).
  { rewrite nrows_take.
    - destruct (NpysortProofs.aquicksort_sorts
                  (map date_key
                     (take (retained_positions parse date_col)
                           (normalized_dates parse date_col)))) as [P _].
      rewrite (Permutation_length P), length_seq, length_map. apply take_length.
    - unfold retained_frame. rewrite E. discriminate. }
  rewrite N, <- retained_positions_count. split; [reflexivity | lia].
Qed.

(** X6.  The table that the load returns is never empty: it has one row
    for each cell of the date column that normalises to a date, at least
    one and no more than the sheet has rows. *)
Theorem loaded_table_row_count
  (parse : date_parser) (wb : Workbook)
  (header_row : list cell) (date_col : Series) (df : DataFrame) :
  passes_checks wb header_row date_col ->
  load_excel_data parse wb = Ok df ->
  nrows df = length (filter (has_date parse) date_col) /\
  (0 < nrows df <= length date_col)%nat /\
  df_empty df = false.
Proof.
  intros Hp H. destruct (loaded_nrows parse wb header_row date_col df Hp H) as [N P].
  split; [exact N | ]. split.
  - split; [exact P | ]. rewrite N. apply filter_length_le.
  - unfold df_empty. destruct df as [ | c df]; [cbn in P; lia | ].
    apply Nat.eqb_neq. lia.
Qed.

(** A witness of X6: the 12-column sheet, whose first data row is the row
    of labels. *)
Lemma loaded_table_row_count_witness :
  nrows table_12
  = length (filter (has_date sample_parser) [CStr "日期"; CInt 45657; CInt 45658]) /\
  (0 < nrows table_12 <= length [CStr "日期"; CInt 45657; CInt 45658])%nat /\
  df_empty table_12 = false.
Proof.
  apply (loaded_table_row_count sample_parser workbook_12 labels_12
           [CStr "日期"; CInt 45657; CInt 45658] table_12).
  - exact workbook_12_passes.
  - vm_compute. reflexivity.
Defined.

(** ** Tables of at most 16 rows: the sort keeps the order of ties *)

Section Stability.

Variable v : list Z.

Lemma with_key_app (t : Z) (l1 l2 : list nat) :
  with_key v t (l1 ++ l2) = with_key v t l1 ++ with_key v t l2.
Proof. apply filter_app. Qed.

Lemma insert_keeps_ties (t : Z) (vi : nat) (rprefix : list nat) :
  with_key v t (rev (Npysort.insert_from_right v vi rprefix))
  = with_key v t (rev rprefix ++ [vi]).
Proof.
  induction rprefix as [ | k rest IH]; cbn [Npysort.insert_from_right]; [reflexivity | ].
  destruct (Npysort.less v vi k) eqn:E; [ | reflexivity].
  apply NpysortProofs.less_lt in E.
  cbn [rev]. rewrite with_key_app, IH, !with_key_app, <- !app_assoc.
  apply (f_equal (app (with_key v t (rev rest)))).
  unfold with_key. cbn [filter app].
  destruct (Z.eqb_spec (Npysort.key v vi) t) as [E1 | E1];
    destruct (Z.eqb_spec (Npysort.key v k) t) as [E2 | E2]; try reflexivity.
  lia.
Qed.

Lemma insertion_fold_keeps_ties (t : Z) (seg rprefix : list nat) :
  with_key v t
    (rev (fold_left (fun r vi => Npysort.insert_from_right v vi r) seg rprefix))
  = with_key v t (rev rprefix ++ seg).
Proof.
  revert rprefix. induction seg as [ | x seg IH]; intros rprefix.
  - cbn [fold_left]. rewrite app_nil_r. reflexivity.
  - cbn [fold_left]. rewrite IH.
    rewrite with_key_app, insert_keeps_ties, <- with_key_app, <- app_assoc.
    reflexivity.
Qed.

Lemma insertion_sort_keeps_ties (t : Z) (seg : list nat) :
  with_key v t (Npysort.insertion_sort v seg) = with_key v t seg.
Proof. unfold Npysort.insertion_sort. apply insertion_fold_keeps_ties. Qed.

Lemma aquicksort_short :
  (length v <= 16)%nat ->
  Npysort.aquicksort v = Npysort.insertion_sort v (seq 0 (length v)).
Proof.
  intros H. unfold Npysort.aquicksort.
  destruct (length v) as [ | n] eqn:E; [reflexivity | ].
  cbn [Npysort.quick]. rewrite length_seq.
  destruct (Nat.ltb_spec 16 (S n)) as [H' | H']; [lia | reflexivity].
Qed.

Lemma aquicksort_keeps_ties (t : Z) :
  (length v <= 16)%nat ->
  with_key v t (Npysort.aquicksort v) = with_key v t (seq 0 (length v)).
Proof.
  intros H. rewrite (aquicksort_short H). apply insertion_sort_keeps_ties.
Qed.

End Stability.

(** X7.  When the sheet has at most 16 rows with a date, the rows of the
    table that share a date are in the order they have in the sheet: the
    sort only runs its insertion sort, which moves a row past the rows with
    a later date and no other. *)
Theorem short_table_keeps_order_of_ties
  (parse : date_parser) (wb : Workbook)
  (header_row : list cell) (date_col : Series) (df : DataFrame) :
  passes_checks wb header_row date_col -> well_formed (wb_df wb) ->
  load_excel_data parse wb = Ok df ->
  (length (filter (has_date parse) date_col) <= 16)%nat ->
  keeps_order_of_ties
    (retained_rows parse (wb_df wb) header_row date_col) (dated_rows df).
Proof.
  intros Hp W Hl Hs. rewrite (load_after_checks parse wb header_row date_col Hp) in Hl.
  destruct (Nat.eqb (length (retained_positions parse date_col)) 0); [discriminate | ].
  injection Hl as <-.
  rewrite <- retained_positions_count in Hs.
  set (rdate := take (retained_positions parse date_col)
                     (normalized_dates parse date_col)) in *.
  set (rf := retained_frame parse (wb_df wb) header_row date_col) in *.
  set (keys := map date_key rdate) in *.
  assert (Hrd : get_col rf "date" = Some rdate) by apply retained_frame_date.
  assert (Wrf : well_formed rf) by apply well_formed_take.
  assert (Lk : length keys = nrows rf).
  { unfold keys. rewrite length_map. apply (get_col_length rf _ rdate Wrf Hrd). }
  assert (Ls : (length keys <= 16)%nat).
  { unfold keys, rdate. rewrite length_map, take_length. exact Hs. }
  intros t.
  rewrite (dated_rows_take _ rf rdate Hrd).
  rewrite <- (retained_rows_are_dated_rows parse wb header_row date_col Hp W).
  fold rf. rewrite (dated_rows_seq rf rdate Wrf Hrd), <- Lk.
  set (g := fun i => (nth i rdate CNa, row_at rf i)).
  rewrite <- !(map_filter_comm g (fun dr => date_key (fst dr) =? t)).
  f_equal.
  assert (K : forall i, date_key (fst (g i)) = Npysort.key keys i).
  { intros i. unfold g, Npysort.key, keys. cbn [fst].
    change 0 with (date_key CNa). rewrite map_nth. reflexivity. }
  rewrite (filter_ext _ (fun i => Npysort.key keys i =? t))
    by (intros i; rewrite K; reflexivity).
  rewrite (filter_ext (fun x => date_key (fst (g x)) =? t)
                      (fun i => Npysort.key keys i =? t))
    by (intros i; rewrite K; reflexivity).
  apply (aquicksort_keeps_ties keys t Ls).
Qed.

Lemma workbook_three_ties_passes :
  passes_checks workbook_three_ties labels_12
    [CStr "日期"; CInt 45657; CInt 45657; CInt 45657].
Proof. unfold passes_checks. repeat split; reflexivity. Qed.

Lemma workbook_three_ties_well_formed : well_formed (wb_df workbook_three_ties).
Proof. repeat constructor. Qed.

(** A witness of X7: a sheet with three rows of the same day. *)
Lemma short_table_keeps_order_of_ties_witness :
  keeps_order_of_ties
    (retained_rows sample_parser (wb_df workbook_three_ties) labels_12
       [CStr "日期"; CInt 45657; CInt 45657; CInt 45657])
    (dated_rows table_three_ties).
Proof.
  apply (short_table_keeps_order_of_ties sample_parser workbook_three_ties labels_12
           [CStr "日期"; CInt 45657; CInt 45657; CInt 45657] table_three_ties).
  - exact workbook_three_ties_passes.
  - exact workbook_three_ties_well_formed.
  - vm_compute. reflexivity.
  - vm_compute. lia.
Defined.

(** ** A chronological sheet is kept in its order *)

Lemma sorted_nth {A : Type} (R : A -> A -> Prop) (l : list A) (d : A) :
  StronglySorted R l ->
  forall i j, (i < j < length l)%nat -> R (nth i l d) (nth j l d).
Proof.
  intros S. induction S as [ | x l Hs IH Hx]; intros i j Hij; [cbn in Hij; lia | ].
  cbn [length] in Hij. destruct j as [ | j]; [lia | ].
  destruct i as [ | i]; cbn [nth].
  - rewrite Forall_forall in Hx. apply Hx. apply nth_In. lia.
  - apply IH. lia.
Qed.

Lemma sorted_lt_unique (l1 l2 : list nat) :
  StronglySorted lt l1 -> StronglySorted lt l2 ->
  (forall x, In x l1 <-> In x l2) -> l1 = l2.
Proof.
  intros S1. revert l2. induction S1 as [ | x l1 Hs IH Hx]; intros l2 S2 H.
  - destruct l2 as [ | y l2]; [reflexivity | ].
    exfalso. apply (proj2 (H y)). left. reflexivity.
  - destruct S2 as [ | y l2 Hs2 Hy].
    + exfalso. apply (proj1 (H x)). left. reflexivity.
    + rewrite Forall_forall in Hx, Hy.
      assert (E : x = y).
      { destruct (proj1 (H x) (or_introl eq_refl)) as [E | Hin]; [symmetry; exact E | ].
        destruct (proj2 (H y) (or_introl eq_refl)) as [E | Hin']; [exact E | ].
        specialize (Hx y Hin'). specialize (Hy x Hin). lia. }
      subst y. f_equal. apply IH; [exact Hs2 | ].
      intros z. split; intros Hz.
      * destruct (proj1 (H z) (or_intror Hz)) as [E | Hin]; [ | exact Hin].
        subst z. specialize (Hx x Hz). lia.
      * destruct (proj2 (H z) (or_intror Hz)) as [E | Hin]; [ | exact Hin].
        subst z. specialize (Hy x Hz). lia.
Qed.

Lemma seq_sorted_lt (n start : nat) : StronglySorted lt (seq start n).
Proof.
  revert start. induction n as [ | n IH]; intros start; cbn [seq]; constructor.
  - apply IH.
  - apply Forall_forall. intros y Hy. apply in_seq in Hy. lia.
Qed.

Lemma sorted_positions (keys : list Z) (l : list nat) :
  (forall i j, (i < j < length keys)%nat ->
               (Npysort.key keys i < Npysort.key keys j)%Z) ->
  (forall a, In a l -> (a < length keys)%nat) ->
  NoDup l -> StronglySorted (Npysort.le_key keys) l -> StronglySorted lt l.
Proof.
  intros H B N S. induction S as [ | x l Hs IH Hx]; constructor.
  - apply IH.
    + intros a Ha. apply B. right. exact Ha.
    + inversion N. assumption.
  - apply Forall_forall. intros y Hy. rewrite Forall_forall in Hx.
    specialize (Hx y Hy). unfold Npysort.le_key in Hx.
    destruct (Nat.lt_trichotomy x y) as [L | [E | G]]; [exact L | | ].
    + subst y. inversion N. contradiction.
    + assert (Bx : (x < length keys)%nat) by (apply B; left; reflexivity).
      specialize (H y x (conj G Bx)). lia.
Qed.

(** The sort of keys that increase strictly returns the positions in their
    order. *)
Lemma aquicksort_of_increasing (keys : list Z) :
  (forall i j, (i < j < length keys)%nat ->
               (Npysort.key keys i < Npysort.key keys j)%Z) ->
  Npysort.aquicksort keys = seq 0 (length keys).
Proof.
  intros H. destruct (NpysortProofs.aquicksort_sorts keys) as [P S].
  apply sorted_lt_unique.
  - apply (sorted_positions keys); [exact H | | | exact S].
    + intros a Ha. apply (Permutation_in _ P) in Ha. apply in_seq in Ha. lia.
    + apply (Permutation_NoDup (Permutation_sym P)). apply seq_NoDup.
  - apply seq_sorted_lt.
  - intros x. split; intros Hx.
    + apply (Permutation_in _ P). exact Hx.
    + apply (Permutation_in _ (Permutation_sym P)). exact Hx.
Qed.

(** X8.  When the rows of the sheet that have a date stand in the sheet
    in the order of their dates, with no date twice, the table holds them
    in the order of the sheet, whatever their number. *)
Theorem chronological_sheet_is_kept_in_order
  (parse : date_parser) (wb : Workbook)
  (header_row : list cell) (date_col : Series) (df : DataFrame) :
  passes_checks wb header_row date_col -> well_formed (wb_df wb) ->
  load_excel_data parse wb = Ok df ->
  StronglySorted date_lt (retained_rows parse (wb_df wb) header_row date_col) ->
  dated_rows df = retained_rows parse (wb_df wb) header_row date_col.
Proof.
  intros Hp W Hl Hs. rewrite (load_after_checks parse wb header_row date_col Hp) in Hl.
  destruct (Nat.eqb (length (retained_positions parse date_col)) 0); [discriminate | ].
  injection Hl as <-.
  rewrite <- (retained_rows_are_dated_rows parse wb header_row date_col Hp W) in *.
  set (rdate := take (retained_positions parse date_col)
                     (normalized_dates parse date_col)) in *.
  set (rf := retained_frame parse (wb_df wb) header_row date_col) in *.
  set (keys := map date_key rdate) in *.
  assert (Hrd : get_col rf "date" = Some rdate) by apply retained_frame_date.
  assert (Wrf : well_formed rf) by apply well_formed_take.
  assert (Lk : length keys = nrows rf).
  { unfold keys. rewrite length_map. apply (get_col_length rf _ rdate Wrf Hrd). }
  rewrite (dated_rows_take _ rf rdate Hrd).
  rewrite (dated_rows_seq rf rdate Wrf Hrd), <- Lk in *.
  f_equal. apply aquicksort_of_increasing.
  intros i j Hij.
  set (g := fun i => (nth i rdate CNa, row_at rf i)) in *.
  pose proof (sorted_nth date_lt _ (g 0%nat) Hs i j) as R.
  rewrite length_map, length_seq in R. specialize (R Hij).
  rewrite !(nth_map_in_range g (seq 0 (length keys)) _ 0%nat) in R
    by (rewrite length_seq; lia).
  rewrite !seq_nth in R by lia. cbn [Nat.add] in R.
  unfold date_lt, g in R. cbn [fst] in R.
  unfold Npysort.key, keys. change 0 with (date_key CNa). rewrite !map_nth. exact R.
Qed.

(** A witness of X8: the 12-column sheet, whose two dated rows are
    consecutive days. *)
Lemma chronological_sheet_is_kept_in_order_witness :
  dated_rows table_12
  = retained_rows sample_parser (wb_df workbook_12) labels_12
      [CStr "日期"; CInt 45657; CInt 45658].
Proof.
  apply (chronological_sheet_is_kept_in_order sample_parser workbook_12 labels_12
           [CStr "日期"; CInt 45657; CInt 45658] table_12).
  - exact workbook_12_passes.
  - exact workbook_12_well_formed.
  - vm_compute. reflexivity.
  - vm_compute. repeat constructor.
Defined.

(** ** A labelled column reaches the table *)

Lemma dict_get_in {V : Type} (d : list (string * V)) (k : string) (v : V) :
  dict_get d k = Some v -> In (k, v) d.
Proof.
  induction d as [ | [k' v'] d IH]; cbn [dict_get]; [discriminate | ].
  destruct (String.eqb_spec k' k) as [-> | N].
  - intros E. injection E as ->. left. reflexivity.
  - intros E. right. apply IH. exact E.
Qed.

Lemma in_dict_get {V : Type} (d : list (string * V)) (k : string) (v : V) :
  NoDup (map fst d) -> In (k, v) d -> dict_get d k = Some v.
Proof.
  induction d as [ | [k' v'] d IH]; cbn [map fst dict_get]; [intros _ [] | ].
  intros N H. inversion N as [ | x l Hn Hd]. subst x l.
  destruct H as [E | H].
  - injection E as -> ->. rewrite String.eqb_refl. reflexivity.
  - destruct (String.eqb_spec k' k) as [-> | Ne]; [ | apply IH; assumption].
    exfalso. apply Hn. apply in_map_iff. exists (k, v). split; [reflexivity | exact H].
Qed.

Lemma dict_get_none {V : Type} (d : list (string * V)) (k : string) :
  dict_get d k = None <-> ~ In k (map fst d).
Proof.
  induction d as [ | [k' v] d IH]; cbn [dict_get map fst In]; [tauto | ].
  destruct (String.eqb_spec k' k) as [-> | N]; [ | rewrite IH; tauto].
  split; [discriminate | ]. intros H. exfalso. apply H. left. reflexivity.
Qed.

Lemma merge_cols_keys (P : string -> Prop) (headers : list string)
  (cols : list (nat * string)) (m : list (string * string)) :
  (forall h, In h headers -> P h) ->
  NoDup (map fst m) -> (forall k, In k (map fst m) -> P k) ->
  NoDup (map fst (merge_cols headers cols m)) /\
  (forall k, In k (map fst (merge_cols headers cols m)) -> P k).
Proof.
  intros Hh. unfold merge_cols. revert m.
  induction cols as [ | [j f] cols IH]; intros m N K; cbn [fold_left fst snd].
  - split; assumption.
  - destruct (nth_error headers j) as [h | ] eqn:E; [ | apply IH; assumption].
    apply IH; [apply dict_set_keys_nodup; exact N | ].
    intros k Hk. apply dict_set_keys_in in Hk. destruct Hk as [-> | Hk].
    + apply Hh. apply (nth_error_In _ _ E).
    + apply K. exact Hk.
Qed.

Lemma column_mapping_keys (headers : list string) (header_row : list cell) :
  (3 <= length headers)%nat ->
  NoDup (map fst (column_mapping_of headers header_row)) /\
  (forall k, In k (map fst (column_mapping_of headers header_row)) -> In k headers).
Proof.
  intros L. unfold column_mapping_of.
  assert (N0 : NoDup (map fst (dict_set (dict_set [] (nth 1 headers ""%string)
                                          "user1_exposure"%string)
                                (nth 2 headers ""%string) "user1_greet"%string))).
  { apply dict_set_keys_nodup. constructor; [intros [] | constructor]. }
  assert (K0 : forall k,
             In k (map fst (dict_set (dict_set [] (nth 1 headers ""%string)
                                        "user1_exposure"%string)
                              (nth 2 headers ""%string) "user1_greet"%string)) ->
             In k headers).
  { intros k Hk. apply dict_set_keys_in in Hk.
    destruct Hk as [-> | [Hk | []]]; [ | subst k]; apply nth_In; lia. }
  destruct (merge_cols_keys (fun k => In k headers) headers
              (block_cols "user1" header_row 1 6) _ (fun h H => H) N0 K0) as [N1 K1].
  apply (merge_cols_keys (fun k => In k headers) headers
           (block_cols "user2" header_row 8 13) _ (fun h H => H) N1 K1).
Qed.

(** The column stored under a field that one column of the sheet only is
    mapped to. *)
Lemma build_fold_get (df : DataFrame) (f h : string) (c : Series)
  (column_mapping : list (string * string)) (acc : DataFrame) :
  (forall old, In (old, f) column_mapping -> old = h) ->
  get_col df h = Some c ->
  In (h, f) column_mapping \/ get_col acc f = Some c ->
  get_col (fold_left
             (fun new_df (item : string * string) =>
                match get_col df (fst item) with
                | Some c => set_col new_df (snd item) c
                | None => new_df
                end) column_mapping acc) f = Some c.
Proof.
  intros U Hc. revert acc.
  induction column_mapping as [ | [old new] m IH]; intros acc H; cbn [fold_left fst snd].
  - destruct H as [[] | H]. exact H.
  - assert (U' : forall old', In (old', f) m -> old' = h)
      by (intros old' Ho; apply U; right; exact Ho).
    destruct (String.eqb_spec new f) as [-> | Nf].
    + assert (old = h) by (apply U; left; reflexivity). subst old.
      rewrite Hc. apply (IH U'). right. apply dict_get_set_same.
    + assert (H' : In (h, f) m \/ get_col acc f = Some c).
      { destruct H as [[E | H] | H]; [ | left; exact H | right; exact H].
        injection E as _ E. contradiction Nf. }
      destruct (get_col df old) as [c' | ]; [ | apply (IH U'); exact H'].
      apply (IH U'). destruct H' as [H' | H']; [left; exact H' | right].
      unfold get_col, set_col. rewrite dict_get_set_other by exact Nf. exact H'.
Qed.

Lemma positions_of_pairs {B : Type} (a : Series) (b : list B) (db : B) :
  length a = length b ->
  map (fun k => (nth k a CNa, nth k b db)) (seq 0 (length a)) = combine a b.
Proof.
  revert b. induction a as [ | x a IH]; intros [ | y b] L; try discriminate L;
    [reflexivity | ].
  cbn [length seq map nth combine]. f_equal.
  rewrite <- seq_shift, map_map. apply IH. injection L as L. exact L.
Qed.

Lemma combine_take (idx : list nat) (a b : Series) :
  combine (take idx a) (take idx b)
  = map (fun k => (nth k a CNa, nth k b CNa)) idx.
Proof. unfold take. apply combine_map_same. Qed.

(** X9.  A column of the sheet reaches the table under the field that its
    label names (or that it has by position), whenever no other column is
    mapped to that field: the table then holds, under that field, the cells
    of the column for the rows with a date, each beside the date of its
    row. *)
Theorem labelled_column_arrives
  (parse : date_parser) (wb : Workbook)
  (header_row : list cell) (date_col : Series) (df : DataFrame)
  (i : nat) (f : string) (c : Series) :
  passes_checks wb header_row date_col -> well_formed (wb_df wb) ->
  NoDup (columns (wb_df wb)) ->
  load_excel_data parse wb = Ok df ->
  (i < length (columns (wb_df wb)))%nat ->
  nth i (columns (wb_df wb)) ""%string <> "date"%string ->
  get_col (wb_df wb) (nth i (columns (wb_df wb)) ""%string) = Some c ->
  field_of_column header_row i = Some f ->
  (forall j, (j < length (columns (wb_df wb)))%nat ->
             field_of_column header_row j = Some f -> j = i) ->
  exists dates vals,
    get_col df "date" = Some dates /\ get_col df f = Some vals /\
    Permutation (combine dates vals)
      (filter (fun dv => notna (fst dv))
              (combine (normalized_dates parse date_col) c)).
Proof.
  intros Hp W N Hl Hi Hnd Hc Hf U.
  pose proof Hp as (_ & _ & He & H12 & Hd).
  rewrite (load_after_checks parse wb header_row date_col Hp) in Hl.
  destruct (Nat.eqb (length (retained_positions parse date_col)) 0); [discriminate | ].
  injection Hl as <-.
  set (headers := columns (wb_df wb)) in *.
  set (h := nth i headers ""%string) in *.
  set (nd := normalized_dates parse date_col).
  set (m := column_mapping_of headers header_row).
  set (idx1 := retained_positions parse date_col).
  destruct (column_mapping_keys headers header_row) as [Nm Km]; [lia | ].
  fold m in Nm, Km.
  assert (G : dict_get m h = Some f).
  { unfold m, h. rewrite (column_mapping_get headers N header_row i) by lia.
    exact Hf. }
  assert (Uq : forall old, In (old, f) m -> old = h).
  { intros old Ho.
    assert (Hin : In old headers).
    { apply Km. apply in_map_iff. exists (old, f). split; [reflexivity | exact Ho]. }
    destruct (In_nth headers old ""%string Hin) as (j & Hj & Ej). subst old.
    pose proof (in_dict_get m _ f Nm Ho) as D. unfold m in D.
    rewrite (column_mapping_get headers N header_row j) in D by lia.
    rewrite (U j Hj D). reflexivity. }
  assert (Mf : get_col (mapped_frame parse (wb_df wb) header_row date_col) f = Some c).
  { unfold mapped_frame, build_new_df. fold nd headers m.
    apply (build_fold_get (set_col (wb_df wb) "date" nd) f h c).
    - exact Uq.
    - unfold get_col, set_col. rewrite dict_get_set_other; [exact Hc | ].
      intros E. apply Hnd. symmetry. exact E.
    - left. apply dict_get_in. exact G. }
  set (keys := map date_key (take idx1 nd)).
  exists (take (Npysort.aquicksort keys) (take idx1 nd)),
         (take (Npysort.aquicksort keys) (take idx1 c)).
  split; [ | split].
  - rewrite get_col_take, retained_frame_date. reflexivity.
  - rewrite get_col_take. unfold retained_frame. rewrite get_col_take, Mf. reflexivity.
  - destruct (NpysortProofs.aquicksort_sorts keys) as [P _].
    rewrite combine_take.
    apply Permutation_trans
      with (map (fun k => (nth k (take idx1 nd) CNa, nth k (take idx1 c) CNa))
                (seq 0 (length keys))); [apply Permutation_map; exact P | ].
    assert (L : length (take idx1 nd) = length (take idx1 c))
      by (rewrite !take_length; reflexivity).
    assert (Lk : length keys = length (take idx1 nd))
      by (unfold keys; apply length_map).
    rewrite Lk, (positions_of_pairs _ _ CNa L), combine_take.
    assert (Lc : length nd = length c).
    { unfold nd. rewrite normalized_dates_length.
      rewrite (get_col_length _ _ _ W Hd), (get_col_length _ _ _ W Hc). reflexivity. }
    rewrite <- (positions_of_pairs nd c CNa Lc).
    rewrite <- (map_filter_comm (fun k => (nth k nd CNa, nth k c CNa))
                  (fun dv => notna (fst dv))).
    cbn [fst]. unfold idx1, retained_positions. fold nd.
    rewrite (where_map notna nd). apply Permutation_refl.
Qed.

Lemma workbook_12_columns : columns (wb_df workbook_12) = headers_12.
Proof. reflexivity. Qed.

Lemma headers_12_distinct : NoDup headers_12.
Proof.
  unfold headers_12.
  repeat (constructor; [cbn [In]; intuition discriminate | ]).
  constructor.
Qed.

(** A witness of X9: the exposure column of user 1 in the 12-column
    sheet. *)
Lemma labelled_column_arrives_witness :
  exists dates vals,
    get_col table_12 "date" = Some dates /\
    get_col table_12 "user1_exposure" = Some vals /\
    Permutation (combine dates vals)
      (filter (fun dv => notna (fst dv))
              (combine (normalized_dates sample_parser
                          [CStr "日期"; CInt 45657; CInt 45658])
                       [CStr "曝光"; CInt 100; CInt 110])).
Proof.
  apply (labelled_column_arrives sample_parser workbook_12 labels_12
           [CStr "日期"; CInt 45657; CInt 45658] table_12 1
           "user1_exposure" [CStr "曝光"; CInt 100; CInt 110]).
  - exact workbook_12_passes.
  - exact workbook_12_well_formed.
  - rewrite workbook_12_columns. exact headers_12_distinct.
  - vm_compute. reflexivity.
  - vm_compute. lia.
  - vm_compute. discriminate.
  - reflexivity.
  - reflexivity.
  - intros j Hj. rewrite workbook_12_columns in Hj.
    do 12 (destruct j as [ | j]; [vm_compute; intros H; first [reflexivity | discriminate H] | ]).
    cbn [headers_12 length] in Hj. lia.
Defined.

(** ** The fields that the table has *)

Lemma build_fold_has (df : DataFrame) (f : string)
  (column_mapping : list (string * string)) (acc : DataFrame) :
  (exists c, get_col (fold_left
                        (fun new_df (item : string * string) =>
                           match get_col df (fst item) with
                           | Some c => set_col new_df (snd item) c
                           | None => new_df
                           end) column_mapping acc) f = Some c) <->
  (exists c, get_col acc f = Some c) \/
  (exists h c, In (h, f) column_mapping /\ get_col df h = Some c).
Proof.
  revert acc. induction column_mapping as [ | [old new] m IH]; intros acc;
    cbn [fold_left fst snd].
  - split; [intros H; left; exact H | ].
    intros [H | (h & c & [] & _)]. exact H.
  - destruct (get_col df old) as [c0 | ] eqn:E.
    + rewrite IH. split.
      * intros [(c & Hc) | (h & c & Hin & Hc)].
        -- destruct (String.eqb_spec new f) as [-> | N].
           ++ right. exists old, c0. split; [left; reflexivity | exact E].
           ++ left. exists c. unfold get_col, set_col in Hc.
              rewrite dict_get_set_other in Hc by exact N. exact Hc.
        -- right. exists h, c. split; [right; exact Hin | exact Hc].
      * intros [(c & Hc) | (h & c & [Heq | Hin] & Hc)].
        -- left. destruct (String.eqb_spec new f) as [-> | N].
           ++ exists c0. apply dict_get_set_same.
           ++ exists c. unfold get_col, set_col.
              rewrite dict_get_set_other by exact N. exact Hc.
        -- injection Heq as -> ->. left. exists c0. apply dict_get_set_same.
        -- right. exists h, c. split; assumption.
    + rewrite IH. split.
      * intros [H | (h & c & Hin & Hc)]; [left; exact H | ].
        right. exists h, c. split; [right; exact Hin | exact Hc].
      * intros [H | (h & c & [Heq | Hin] & Hc)]; [left; exact H | | ].
        -- injection Heq as -> ->. rewrite E in Hc. discriminate.
        -- right. exists h, c. split; assumption.
Qed.

Lemma in_columns_get_col (df : DataFrame) (name : string) :
  In name (columns df) -> exists c, get_col df name = Some c.
Proof.
  intros H. unfold get_col. destruct (dict_get df name) as [c | ] eqn:E.
  - exists c. reflexivity.
  - apply dict_get_none in E. contradiction.
Qed.

(** The table has a field exactly when a column of the sheet is mapped to
    it. *)
Lemma loaded_field_iff_mapped
  (parse : date_parser) (wb : Workbook)
  (header_row : list cell) (date_col : Series) (df : DataFrame) (f : string) :
  passes_checks wb header_row date_col ->
  NoDup (columns (wb_df wb)) ->
  load_excel_data parse wb = Ok df ->
  f <> "date"%string ->
  ((exists c, get_col df f = Some c) <->
   is_mapped (columns (wb_df wb)) header_row f).
Proof.
  intros Hp N Hl Hf. unfold is_mapped.
  pose proof Hp as (_ & _ & He & H12 & Hd).
  rewrite (load_after_checks parse wb header_row date_col Hp) in Hl.
  destruct (Nat.eqb (length (retained_positions parse date_col)) 0); [discriminate | ].
  injection Hl as <-.
  set (headers := columns (wb_df wb)) in *.
  set (nd := normalized_dates parse date_col).
  set (m := column_mapping_of headers header_row).
  destruct (column_mapping_keys headers header_row) as [Nm Km]; [lia | ].
  fold m in Nm, Km.
  assert (T : (exists c, get_col (take_rows
                  (Npysort.aquicksort
                     (map date_key
                        (take (retained_positions parse date_col)
                              (normalized_dates parse date_col))))
                  (retained_frame parse (wb_df wb) header_row date_col)) f = Some c)
              <-> (exists c, get_col (mapped_frame parse (wb_df wb) header_row date_col) f
                             = Some c)).
  { unfold retained_frame. rewrite !get_col_take.
    destruct (get_col (mapped_frame parse (wb_df wb) header_row date_col) f) as [c | ];
      cbn [option_map]; split; intros [c' E]; try discriminate; eexists; reflexivity. }
  refine (iff_trans T _). clear T.
  unfold mapped_frame, build_new_df. fold headers nd m.
  rewrite build_fold_has. split.
  - intros [(c & Hc) | (h & c & Hin & Hc)].
    + exfalso. unfold get_col, set_col in Hc. cbn [dict_set dict_get] in Hc.
      destruct (String.eqb_spec "date" f) as [E | _]; [ | discriminate].
      apply Hf. symmetry. exact E.
    + assert (Hh : In h headers).
      { apply Km. apply in_map_iff. exists (h, f). split; [reflexivity | exact Hin]. }
      destruct (In_nth headers h ""%string Hh) as (j & Hj & Ej). subst h.
      exists j. split; [exact Hj | ].
      pose proof (in_dict_get m _ f Nm Hin) as D. unfold m in D.
      rewrite (column_mapping_get headers N header_row j) in D by lia. exact D.
  - intros (j & Hj & Hfc). right.
    assert (D : dict_get m (nth j headers ""%string) = Some f).
    { unfold m. rewrite (column_mapping_get headers N header_row j) by lia. exact Hfc. }
    assert (Hh : In (nth j headers ""%string) (columns (wb_df wb)))
      by (apply nth_In; exact Hj).
    destruct (in_columns_get_col _ _ Hh) as [c Hc].
    exists (nth j headers ""%string).
    destruct (String.eqb_spec "date" (nth j headers ""%string)) as [E | Ne].
    + exists nd. split; [apply dict_get_in; exact D | ].
      rewrite <- E. apply dict_get_set_same.
    + exists c. split; [apply dict_get_in; exact D | ].
      unfold get_col, set_col. rewrite dict_get_set_other by exact Ne. exact Hc.
Qed.

Lemma loaded_has_date
  (parse : date_parser) (wb : Workbook)
  (header_row : list cell) (date_col : Series) (df : DataFrame) :
  passes_checks wb header_row date_col ->
  load_excel_data parse wb = Ok df ->
  exists dates, get_col df "date" = Some dates.
Proof.
  intros Hp Hl. rewrite (load_after_checks parse wb header_row date_col Hp) in Hl.
  destruct (Nat.eqb (length (retained_positions parse date_col)) 0); [discriminate | ].
  injection Hl as <-. rewrite get_col_take, retained_frame_date.
  eexists. reflexivity.
Qed.

Lemma metric_fields_are_not_date (metric : string) (cols : string * string) :
  lookup_metric metric = Ok cols ->
  fst cols <> "date"%string /\ snd cols <> "date"%string.
Proof.
  unfold lookup_metric.
  destruct (dict_get metric_mapping metric) as [c | ] eqn:E; [ | discriminate].
  intros H. injection H as <-. apply dict_get_in in E.
  cbn [metric_mapping In] in E.
  destruct E as [E | [E | [E | [E | [E | []]]]]]; injection E as _ <-;
    split; discriminate.
Qed.

(** X10.  The table has a metric column exactly when a column of the sheet
    is mapped to it, by its label or by its position.  Hence a metric
    lookup on the table returns exactly when both fields of the metric are
    mapped, and it raises KeyError otherwise, for the field of user 1 when
    that one is not mapped, and else for the field of user 2. *)
Theorem table_has_field_iff_mapped
  (parse : date_parser) (wb : Workbook)
  (header_row : list cell) (date_col : Series) (df : DataFrame) :
  passes_checks wb header_row date_col ->
  NoDup (columns (wb_df wb)) ->
  load_excel_data parse wb = Ok df ->
  (forall f, f <> "date"%string ->
     ((exists c, get_col df f = Some c) <->
      is_mapped (columns (wb_df wb)) header_row f)) /\
  (forall metric cols, lookup_metric metric = Ok cols ->
     ((exists r, fst (get_metric_data df metric) = Ok r) <->
      is_mapped (columns (wb_df wb)) header_row (fst cols) /\
      is_mapped (columns (wb_df wb)) header_row (snd cols)) /\
     (~ is_mapped (columns (wb_df wb)) header_row (fst cols) ->
      fst (get_metric_data df metric) = Raise (KeyError (fst cols))) /\
     (is_mapped (columns (wb_df wb)) header_row (fst cols) ->
      ~ is_mapped (columns (wb_df wb)) header_row (snd cols) ->
      fst (get_metric_data df metric) = Raise (KeyError (snd cols)))).
Proof.
  intros Hp N Hl.
  assert (F : forall f, f <> "date"%string ->
             ((exists c, get_col df f = Some c) <->
              is_mapped (columns (wb_df wb)) header_row f))
    by (intros f Hf; apply (loaded_field_iff_mapped parse wb header_row date_col df f);
        assumption).
  split; [exact F | ].
  intros metric cols Hm.
  destruct (metric_fields_are_not_date metric cols Hm) as [N1 N2].
  destruct (loaded_has_date parse wb header_row date_col df Hp Hl) as [dates Hd].
  pose proof (F (fst cols) N1) as F1. pose proof (F (snd cols) N2) as F2.
  unfold get_metric_data, getitem. cbn [fst]. rewrite Hm. cbn [bind].
  rewrite Hd. cbn [bind].
  destruct (get_col df (fst cols)) as [u1 | ] eqn:E1; cbn [bind].
  - assert (M1 : is_mapped (columns (wb_df wb)) header_row (fst cols))
      by (apply F1; exists u1; reflexivity).
    destruct (get_col df (snd cols)) as [u2 | ] eqn:E2; cbn [bind].
    + assert (M2 : is_mapped (columns (wb_df wb)) header_row (snd cols))
        by (apply F2; exists u2; reflexivity).
      split; [split; [intros _; split; assumption | intros _; eexists; reflexivity] | ].
      split; intros; contradiction.
    + assert (M2 : ~ is_mapped (columns (wb_df wb)) header_row (snd cols)).
      { intros M. apply F2 in M. destruct M as [c Hc]. discriminate. }
      split; [split; [intros [r Hr]; discriminate | intros [_ M]; contradiction] | ].
      split; [intros; contradiction | reflexivity].
  - assert (M1 : ~ is_mapped (columns (wb_df wb)) header_row (fst cols)).
    { intros M. apply F1 in M. destruct M as [c Hc]. discriminate. }
    split; [split; [intros [r Hr]; discriminate | intros [M _]; contradiction] | ].
    split; [reflexivity | intros; contradiction].
Qed.

(** A witness of X10: the 12-column sheet, which has the add columns and
    no kill-count column. *)
Lemma table_has_field_iff_mapped_witness :
  (forall f, f <> "date"%string ->
     ((exists c, get_col table_12 f = Some c) <->
      is_mapped (columns (wb_df workbook_12)) labels_12 f)) /\
  (forall metric cols, lookup_metric metric = Ok cols ->
     ((exists r, fst (get_metric_data table_12 metric) = Ok r) <->
      is_mapped (columns (wb_df workbook_12)) labels_12 (fst cols) /\
      is_mapped (columns (wb_df workbook_12)) labels_12 (snd cols)) /\
     (~ is_mapped (columns (wb_df workbook_12)) labels_12 (fst cols) ->
      fst (get_metric_data table_12 metric) = Raise (KeyError (fst cols))) /\
     (is_mapped (columns (wb_df workbook_12)) labels_12 (fst cols) ->
      ~ is_mapped (columns (wb_df workbook_12)) labels_12 (snd cols) ->
      fst (get_metric_data table_12 metric) = Raise (KeyError (snd cols)))).
Proof.
  apply (table_has_field_iff_mapped sample_parser workbook_12 labels_12
           [CStr "日期"; CInt 45657; CInt 45658] table_12).
  - exact workbook_12_passes.
  - rewrite workbook_12_columns. exact headers_12_distinct.
  - vm_compute. reflexivity.
Defined.

(** ** White space around names and labels *)

Lemma lstrip_of_clean (s : string) : starts_clean s -> lstrip s = s.
Proof.
  unfold starts_clean.
  destruct s as [ | a [ | b [ | c r3]]]; cbn [starts_with_space lstrip];
    try reflexivity; intros H.
  - rewrite orb_false_r in H. rewrite H. reflexivity.
  - apply orb_false_elim in H. destruct H as [Ea H].
    rewrite orb_false_r in H. rewrite Ea, H. reflexivity.
  - apply orb_false_elim in H. destruct H as [Ea H].
    apply orb_false_elim in H. destruct H as [Eb Ec].
    rewrite Ea, Eb, Ec. reflexivity.
Qed.

Lemma lstrip_clean (s : string) : starts_clean (lstrip s).
Proof.
  unfold starts_clean.
  remember (String.length s) as n eqn:E.
  assert (H : (String.length s <= n)%nat) by lia. clear E. revert s H.
  induction n as [ | n IH]; intros s H.
  - destruct s; [reflexivity | cbn in H; lia].
  - destruct s as [ | a r]; [reflexivity | ].
    cbn [lstrip]. cbn [String.length] in H.
    destruct (is_space a) eqn:Ea; [apply IH; lia | ].
    destruct r as [ | b r2].
    { cbn [starts_with_space]. rewrite Ea. reflexivity. }
    cbn [String.length] in H.
    destruct (is_space2 a b) eqn:Eb; [apply IH; lia | ].
    destruct r2 as [ | c r3].
    { cbn [starts_with_space]. rewrite Ea, Eb. reflexivity. }
    cbn [String.length] in H.
    destruct (is_space3 a b c) eqn:Ec; [apply IH; lia | ].
    cbn [starts_with_space]. rewrite Ea, Eb, Ec. reflexivity.
Qed.

Lemma starts_clean_prefix (p u : string) :
  starts_clean (p ++ u)%string -> starts_clean p.
Proof.
  unfold starts_clean.
  destruct p as [ | a [ | b [ | c r3]]]; cbn [append starts_with_space];
    try reflexivity; intros H.
  - apply orb_false_elim in H. destruct H as [Ea _]. rewrite Ea. reflexivity.
  - apply orb_false_elim in H. destruct H as [Ea H].
    apply orb_false_elim in H. destruct H as [Eb _]. rewrite Ea, Eb. reflexivity.
  - exact H.
Qed.

Lemma rstrip_prefix (s : string) : exists u, s = (rstrip s ++ u)%string.
Proof.
  induction s as [ | a r [u IH]]; [exists EmptyString; reflexivity | ].
  cbn [rstrip]. destruct (is_space_char (String a (rstrip r))).
  - exists (String a r). reflexivity.
  - exists u. cbn [append]. rewrite <- IH. reflexivity.
Qed.

Lemma rstrip_keeps_clean (s : string) : starts_clean s -> starts_clean (rstrip s).
Proof.
  intros H. destruct (rstrip_prefix s) as [u E].
  apply (starts_clean_prefix (rstrip s) u). rewrite <- E. exact H.
Qed.

Lemma rstrip_idempotent (s : string) : rstrip (rstrip s) = rstrip s.
Proof.
  induction s as [ | a r IH]; [reflexivity | ].
  cbn [rstrip]. destruct (is_space_char (String a (rstrip r))) eqn:E; [reflexivity | ].
  cbn [rstrip]. rewrite IH, E. reflexivity.
Qed.

Lemma strip_idempotent (s : string) : strip (strip s) = strip s.
Proof.
  unfold strip.
  rewrite (lstrip_of_clean (rstrip (lstrip s)))
    by (apply rstrip_keeps_clean; apply lstrip_clean).
  apply rstrip_idempotent.
Qed.

(** The white space of Unicode is removed like that of ASCII: here an
    ideographic space (U+3000, bytes E3 80 80) before a label, and a space
    and a no-break space (U+00A0, bytes C2 A0) after it. *)
Example strip_removes_unicode_space :
  strip (String (ascii_of_nat 227) (String (ascii_of_nat 128)
           (String (ascii_of_nat 128)
              ("曝光 " ++ String (ascii_of_nat 194)
                            (String (ascii_of_nat 160) EmptyString)))))
  = "曝光"%string.
Proof. vm_compute. reflexivity. Qed.

Lemma user_name_stripped (py_str : cell -> string) (first_row : list cell)
  (i : nat) (default : string) :
  strip default = default ->
  strip (user_name py_str first_row i default) = user_name py_str first_row i default.
Proof.
  intros D. unfold user_name.
  destruct (nth_error first_row i) as [c | ]; [ | exact D].
  destruct (notna c); [apply strip_idempotent | exact D].
Qed.

(** X11.  The two display names that the load returns beside the table
    carry no white space at their start or at their end (the white space
    of [str.strip()], that of Unicode); and the name of a
    user whose name cell is blank, or is missing from the first row, is the
    default name of that user. *)
Theorem display_names_are_stripped
  (py_str : cell -> string) (parse : date_parser)
  (wb : Workbook) (df : DataFrame) (names : string * string) :
  load_excel_data_with_names py_str parse wb = Ok (df, names) ->
  load_excel_data parse wb = Ok df /\
  strip (fst names) = fst names /\ strip (snd names) = snd names /\
  (forall first_row, nth_error (wb_raw wb) 0 = Some first_row ->
     (forall c, nth_error first_row 0 = Some c -> isna c = true) ->
     fst names = "用户1"%string) /\
  (forall first_row, nth_error (wb_raw wb) 0 = Some first_row ->
     (forall c, nth_error first_row 7 = Some c -> isna c = true) ->
     snd names = "用户2"%string).
Proof.
  unfold load_excel_data_with_names.
  destruct (load_excel_data parse wb) as [new_df | ]; [ | discriminate].
  destruct (nth_error (wb_raw wb) 0) as [first_row | ]; [ | discriminate].
  intros E. injection E as <- <-. cbn [fst snd user_names].
  split; [reflexivity | ].
  split; [apply user_name_stripped; reflexivity | ].
  split; [apply user_name_stripped; reflexivity | ].
  split; intros fr Efr B; injection Efr as <-; unfold user_name.
  - destruct (nth_error first_row 0) as [c | ]; [ | reflexivity].
    unfold notna. rewrite (B c eq_refl). reflexivity.
  - destruct (nth_error first_row 7) as [c | ]; [ | reflexivity].
    unfold notna. rewrite (B c eq_refl). reflexivity.
Qed.

(** A witness of X11: the 12-column sheet, whose users are Alice and Bob. *)
Lemma display_names_are_stripped_witness :
  load_excel_data sample_parser workbook_12 = Ok table_12 /\
  strip "Alice" = "Alice"%string /\ strip "Bob" = "Bob"%string /\
  (forall first_row, nth_error (wb_raw workbook_12) 0 = Some first_row ->
     (forall c, nth_error first_row 0 = Some c -> isna c = true) ->
     "Alice"%string = "用户1"%string) /\
  (forall first_row, nth_error (wb_raw workbook_12) 0 = Some first_row ->
     (forall c, nth_error first_row 7 = Some c -> isna c = true) ->
     "Bob"%string = "用户2"%string).
Proof.
  apply (display_names_are_stripped str_of_text sample_parser workbook_12
           table_12 ("Alice", "Bob")%string).
  vm_compute. reflexivity.
Defined.

Lemma header_val_strip_text (c : cell) : header_val (strip_text c) = header_val c.
Proof.
  destruct c as [ | z | x | s | t | ]; try reflexivity.
  cbn [strip_text header_val isna]. apply strip_idempotent.
Qed.

Lemma block_cols_strip_text (user : string) (header_row : list cell) (lo hi : nat) :
  block_cols user (map strip_text header_row) lo hi
  = block_cols user header_row lo hi.
Proof.
  unfold block_cols. rewrite length_map.
  apply flat_map_ext. intros i.
  change CNa with (strip_text CNa) at 1. rewrite map_nth, header_val_strip_text.
  reflexivity.
Qed.

(** X12.  The header labels are read without the white space around them:
    a header row and the same row with every label stripped give the same
    column mapping. *)
Theorem labels_are_read_stripped (headers : list string) (header_row : list cell) :
  column_mapping_of headers (map strip_text header_row)
  = column_mapping_of headers header_row.
Proof.
  unfold column_mapping_of. rewrite !block_cols_strip_text. reflexivity.
Qed.

(** ** Range filter: schema, order and size of the result *)

Lemma sorted_filter {A : Type} (R : A -> A -> Prop) (p : A -> bool) (l : list A) :
  StronglySorted R l -> StronglySorted R (filter p l).
Proof.
  intros S. induction S as [ | x l Hs IH Hx]; cbn [filter]; [constructor | ].
  destruct (p x); [ | exact IH]. constructor; [exact IH | ].
  apply Forall_forall. intros y Hy. apply filter_In in Hy.
  rewrite Forall_forall in Hx. apply Hx. apply Hy.
Qed.

Lemma where_length_le (mask : list bool) :
  (length (where_ mask) <= length mask)%nat.
Proof.
  unfold where_. rewrite where_from_filter.
  etransitivity; [apply filter_length_le | ]. rewrite length_seq. apply Nat.le_refl.
Qed.

(** X13.  On a MetricTable the range filter returns a MetricTable with the
    same columns, in the same order, and with no more rows; and when the
    rows of the table are in the order of their dates, so are the rows of
    the result. *)
Theorem range_filter_keeps_schema_and_order
  (parse : date_parser) (df : DataFrame)
  (start_date end_date : string) (s e : Z) :
  is_metric_table df ->
  parse start_date = Some (Some s) -> parse end_date = Some (Some e) ->
  exists out,
    fst (filter_by_date_range parse df start_date end_date) = Ok out /\
    columns out = columns df /\ is_metric_table out /\
    (nrows out <= nrows df)%nat /\
    (StronglySorted date_le (dated_rows df) ->
     StronglySorted date_le (dated_rows out)).
Proof.
  intros [W (date & Hd & Ht)] Hs He.
  rewrite (filter_metric_table parse df date start_date end_date s e Hd Ht Hs He).
  cbn [fst]. eexists. split; [reflexivity | ].
  split; [apply columns_take_rows | ].
  split; [apply (select_metric_table s e df date Hd) | ].
  split.
  - unfold select_rows. rewrite nrows_take.
    + etransitivity; [apply where_length_le | ].
      rewrite length_map, (get_col_length df _ date W Hd). apply Nat.le_refl.
    + intros E. rewrite E in Hd. discriminate.
  - intros S. rewrite (dated_rows_select (date_within s e) df date W Hd).
    apply sorted_filter. exact S.
Qed.

(** A witness of X13: the first two days of the sample. *)
Lemma range_filter_keeps_schema_and_order_witness :
  exists out,
    fst (filter_by_date_range sample_parser sample_exposure "2024-12-31" "2025-01-01")
    = Ok out /\
    columns out = columns sample_exposure /\ is_metric_table out /\
    (nrows out <= nrows sample_exposure)%nat /\
    (StronglySorted date_le (dated_rows sample_exposure) ->
     StronglySorted date_le (dated_rows out)).
Proof.
  apply (range_filter_keeps_schema_and_order sample_parser sample_exposure
           "2024-12-31" "2025-01-01" 1735603200000000000 1735689600000000000).
  - exact sample_exposure_is_metric_table.
  - reflexivity.
  - reflexivity.
Defined.

(** ** Range filters compose *)

Lemma map_filter_positions {A B : Type} (F : A -> B) (P : A -> bool)
  (l : list A) (d : A) :
  map (fun k => F (nth k l d)) (filter (fun k => P (nth k l d)) (seq 0 (length l)))
  = map F (filter P l).
Proof.
  rewrite <- (map_map (fun k => nth k l d) F).
  rewrite (map_filter_comm (fun k => nth k l d) P), map_nth_positions.
  reflexivity.
Qed.

Lemma filter_twice {A : Type} (p q : A -> bool) (l : list A) :
  filter q (filter p l) = filter (fun x => p x && q x) l.
Proof.
  induction l as [ | x l IH]; [reflexivity | ].
  cbn [filter]. destruct (p x); cbn [filter andb]; [ | exact IH].
  destruct (q x); [f_equal | ]; exact IH.
Qed.

(** Selecting by a mask on the dates, and then by a second one, selects the
    rows at which both masks hold. *)
Lemma take_where_twice (p q : cell -> bool) (date s : Series) :
  take (where_ (map q (take (where_ (map p date)) date)))
       (take (where_ (map p date)) s)
  = take (where_ (map (fun c => p c && q c) date)) s.
Proof.
  rewrite !where_map. set (l1 := filter (fun k => p (nth k date CNa)) (seq 0 (length date))).
  unfold take at 1. rewrite take_length.
  rewrite (filter_ext_in
             (fun k => q (nth k (take l1 date) CNa))
             (fun k => q (nth (nth k l1 0%nat) date CNa))).
  2:{ intros k Hk. apply in_seq in Hk.
      unfold take. rewrite (nth_map_in_range _ l1 k 0%nat CNa) by lia. reflexivity. }
  rewrite (map_ext_in
             (fun i => nth i (take l1 s) CNa)
             (fun k => nth (nth k l1 0%nat) s CNa)).
  2:{ intros k Hk. apply filter_In in Hk. destruct Hk as [Hk _]. apply in_seq in Hk.
      unfold take. rewrite (nth_map_in_range _ l1 k 0%nat CNa) by lia. reflexivity. }
  rewrite (map_filter_positions (fun i => nth i s CNa)
             (fun i => q (nth i date CNa)) l1 0%nat).
  unfold l1. rewrite filter_twice. reflexivity.
Qed.

Lemma select_twice (p q : cell -> bool) (date : Series) (df : DataFrame) :
  select_rows (map q (take (where_ (map p date)) date))
              (select_rows (map p date) df)
  = select_rows (map (fun c => p c && q c) date) df.
Proof.
  unfold select_rows, take_rows. rewrite map_map.
  apply map_ext. intros [n s]. cbn [fst snd]. f_equal. apply take_where_twice.
Qed.

Lemma date_within_both (s1 e1 s2 e2 : Z) (c : cell) :
  date_within s1 e1 c && date_within s2 e2 c
  = date_within (Z.max s1 s2) (Z.min e1 e2) c.
Proof.
  destruct c; try reflexivity. cbn [date_within].
  destruct (Z.leb_spec s1 t), (Z.leb_spec t e1), (Z.leb_spec s2 t), (Z.leb_spec t e2),
    (Z.leb_spec (Z.max s1 s2) t), (Z.leb_spec t (Z.min e1 e2));
    cbn [andb]; try reflexivity; lia.
Qed.

(** The range filter applied to the result of a range filter. *)
Lemma filter_twice_metric_table
  (parse : date_parser) (df : DataFrame) (date : Series)
  (a1 b1 a2 b2 : string) (s1 e1 s2 e2 : Z) :
  get_col df "date" = Some date -> forallb is_time_cell date = true ->
  parse a1 = Some (Some s1) -> parse b1 = Some (Some e1) ->
  parse a2 = Some (Some s2) -> parse b2 = Some (Some e2) ->
  exists out1,
    fst (filter_by_date_range parse df a1 b1) = Ok out1 /\
    fst (filter_by_date_range parse out1 a2 b2)
    = Ok (select_rows
            (map (fun c => date_within s1 e1 c && date_within s2 e2 c) date) df).
Proof.
  intros Hd Ht H1 H2 H3 H4.
  rewrite (filter_metric_table parse df date a1 b1 s1 e1 Hd Ht H1 H2). cbn [fst].
  eexists. split; [reflexivity | ].
  destruct (select_metric_table s1 e1 df date Hd) as [_ (date1 & Hd1 & Ht1)].
  rewrite (filter_metric_table parse _ date1 a2 b2 s2 e2 Hd1 Ht1 H3 H4). cbn [fst].
  f_equal.
  assert (E : date1 = take (where_ (map (date_within s1 e1) date)) date).
  { unfold select_rows in Hd1. rewrite get_col_take, Hd in Hd1.
    cbn [option_map] in Hd1. injection Hd1 as <-. reflexivity. }
  rewrite E. apply select_twice.
Qed.

(** X14.  On a MetricTable two range filters in a row give the frame that
    one range filter with the intersection of the two ranges gives, and
    they give the same frame in either order. *)
Theorem range_filters_compose
  (parse : date_parser) (df : DataFrame)
  (a1 b1 a2 b2 a b : string) (s1 e1 s2 e2 : Z) :
  is_metric_table df ->
  parse a1 = Some (Some s1) -> parse b1 = Some (Some e1) ->
  parse a2 = Some (Some s2) -> parse b2 = Some (Some e2) ->
  parse a = Some (Some (Z.max s1 s2)) -> parse b = Some (Some (Z.min e1 e2)) ->
  exists out1 out2,
    fst (filter_by_date_range parse df a1 b1) = Ok out1 /\
    fst (filter_by_date_range parse df a2 b2) = Ok out2 /\
    fst (filter_by_date_range parse out1 a2 b2)
    = fst (filter_by_date_range parse df a b) /\
    fst (filter_by_date_range parse out2 a1 b1)
    = fst (filter_by_date_range parse out1 a2 b2).
Proof.
  intros [W (date & Hd & Ht)] H1 H2 H3 H4 Ha Hb.
  destruct (filter_twice_metric_table parse df date a1 b1 a2 b2 s1 e1 s2 e2
              Hd Ht H1 H2 H3 H4) as (out1 & O1 & O12).
  destruct (filter_twice_metric_table parse df date a2 b2 a1 b1 s2 e2 s1 e1
              Hd Ht H3 H4 H1 H2) as (out2 & O2 & O21).
  exists out1, out2. split; [exact O1 | ]. split; [exact O2 | ]. split.
  - rewrite O12, (filter_metric_table parse df date a b _ _ Hd Ht Ha Hb). cbn [fst].
    f_equal. f_equal. apply map_ext. intros c. apply date_within_both.
  - rewrite O12, O21. f_equal. f_equal. apply map_ext. intros c. apply andb_comm.
Qed.

(** A witness of X14: the first two days of the sample, then its first
    day. *)
Lemma range_filters_compose_witness :
  exists out1 out2,
    fst (filter_by_date_range sample_parser sample_exposure "2024-12-31" "2025-01-01")
    = Ok out1 /\
    fst (filter_by_date_range sample_parser sample_exposure "2024-12-31" "2024-12-31")
    = Ok out2 /\
    fst (filter_by_date_range sample_parser out1 "2024-12-31" "2024-12-31")
    = fst (filter_by_date_range sample_parser sample_exposure "2024-12-31" "2024-12-31") /\
    fst (filter_by_date_range sample_parser out2 "2024-12-31" "2025-01-01")
    = fst (filter_by_date_range sample_parser out1 "2024-12-31" "2024-12-31").
Proof.
  apply (range_filters_compose sample_parser sample_exposure
           "2024-12-31" "2025-01-01" "2024-12-31" "2024-12-31"
           "2024-12-31" "2024-12-31"
           1735603200000000000 1735689600000000000
           1735603200000000000 1735603200000000000).
  - exact sample_exposure_is_metric_table.
  - reflexivity.
  - reflexivity.
  - reflexivity.
  - reflexivity.
  - reflexivity.
  - reflexivity.
Defined.

(** ** Range filter: empty ranges, and the frame of the caller *)

Lemma filter_datetime_frame
  (parse : date_parser) (df : DataFrame) (date : Series)
  (start_date end_date : string) (start_dt end_dt : option Z) :
  get_col df "date" = Some date -> is_datetime64_any_dtype date = true ->
  parse start_date = Some start_dt -> parse end_date = Some end_dt ->
  filter_by_date_range parse df start_date end_date
  = (Ok (select_rows (map (in_date_range start_dt end_dt) date) df), df).
Proof.
  intros Hd Ht Hs He. unfold filter_by_date_range, parse_bound, getitem.
  rewrite Hs, He, Hd, Ht, Hd. reflexivity.
Qed.

Lemma where_from_all_false (mask : list bool) (i : nat) :
  (forall b, In b mask -> b = false) -> where_from i mask = [].
Proof.
  revert i. induction mask as [ | b mask IH]; intros i H; [reflexivity | ].
  cbn [where_from]. rewrite (H b) by (left; reflexivity).
  apply IH. intros b' Hb. apply H. right. exact Hb.
Qed.

(** X15.  A range that holds no instant (the end before the start, or a
    bound that parses to NaT) is no error: on a frame with a datetime date
    column the range filter returns the frame with all its columns and no
    row, and leaves the frame of the caller as it is. *)
Theorem empty_range_gives_no_row
  (parse : date_parser) (df : DataFrame) (date : Series)
  (start_date end_date : string) (start_dt end_dt : option Z) :
  get_col df "date" = Some date -> is_datetime64_any_dtype date = true ->
  parse start_date = Some start_dt -> parse end_date = Some end_dt ->
  (start_dt = None \/ end_dt = None \/
   exists s e, start_dt = Some s /\ end_dt = Some e /\ e < s) ->
  filter_by_date_range parse df start_date end_date
  = (Ok (map (fun nc => (fst nc, [])) df), df).
Proof.
  intros Hd Ht Hs He Hr.
  rewrite (filter_datetime_frame parse df date _ _ _ _ Hd Ht Hs He).
  f_equal. f_equal. unfold select_rows, where_.
  rewrite where_from_all_false; [reflexivity | ].
  intros b Hb. apply in_map_iff in Hb. destruct Hb as (c & <- & _).
  destruct Hr as [-> | [-> | (s & e & -> & -> & Hlt)]].
  - destruct c; reflexivity.
  - destruct c, start_dt; reflexivity.
  - destruct c; try reflexivity. cbn [in_date_range].
    destruct (Z.leb_spec s t), (Z.leb_spec t e); try reflexivity. lia.
Qed.

(** A witness of X15: the sample, from its second day back to its first. *)
Lemma empty_range_gives_no_row_witness :
  filter_by_date_range sample_parser sample_exposure "2025-01-01" "2024-12-31"
  = (Ok (map (fun nc => (fst nc, [])) sample_exposure), sample_exposure).
Proof.
  apply (empty_range_gives_no_row sample_parser sample_exposure
           [CTime 1735603200000000000; CTime 1735689600000000000;
            CTime 1735776000000000000]
           "2025-01-01" "2024-12-31"
           (Some 1735689600000000000) (Some 1735603200000000000)).
  - reflexivity.
  - reflexivity.
  - reflexivity.
  - reflexivity.
  - right. right. exists 1735689600000000000, 1735603200000000000.
    split; [reflexivity | ]. split; [reflexivity | lia].
Defined.

Lemma to_datetime_cell_is_datetime
  (parse : date_parser) (c c' : cell) :
  to_datetime_cell parse c = Ok c' -> is_datetime_cell c' = true.
Proof.
  destruct c as [ | z | x | s | t | ]; cbn [to_datetime_cell].
  - intros E. injection E as <-. reflexivity.
  - destruct (timestamp_ok z); [ | discriminate]. intros E. injection E as <-. reflexivity.
  - destruct (is_nan x); [intros E; injection E as <-; reflexivity | ].
    destruct (trunc x) as [z | ]; [ | discriminate].
    destruct (timestamp_ok z); [ | discriminate]. intros E. injection E as <-. reflexivity.
  - destruct (parse s) as [[t | ] | ]; [ | | discriminate];
      intros E; injection E as <-; reflexivity.
  - intros E. injection E as <-. reflexivity.
  - discriminate.
Qed.

Lemma to_datetime_series_is_datetime
  (parse : date_parser) (s d : Series) :
  to_datetime_series parse s = Ok d -> is_datetime64_any_dtype d = true.
Proof.
  revert d. induction s as [ | c s IH]; intros d; cbn [to_datetime_series].
  - intros E. injection E as <-. reflexivity.
  - destruct (to_datetime_cell parse c) as [c' | ] eqn:Ec; cbn [bind]; [ | discriminate].
    destruct (to_datetime_series parse s) as [d' | ]; cbn [bind]; [ | discriminate].
    intros E. injection E as <-. unfold is_datetime64_any_dtype. cbn [forallb].
    rewrite (to_datetime_cell_is_datetime parse c c' Ec). apply (IH d' eq_refl).
Qed.

Lemma columns_set_existing (df : DataFrame) (name : string) (c s : Series) :
  get_col df name = Some c -> columns (set_col df name s) = columns df.
Proof.
  intros H. unfold columns, set_col. rewrite dict_set_keys.
  assert (In name (map fst df)).
  { apply in_map_iff. exists (name, c). split; [reflexivity | ].
    apply dict_get_in. exact H. }
  apply existsb_eqb_in in H0. rewrite H0. reflexivity.
Qed.

(** X16.  What a range filter that returns has done to the frame of the
    caller: every column but "date" is as it was, and the columns are in
    their order; the date column is a datetime column afterwards; and the
    same call on the frame as it is left returns the same result and
    changes nothing more. *)
Theorem range_filter_effect_on_caller
  (parse : date_parser) (df : DataFrame)
  (start_date end_date : string) (out : DataFrame) :
  fst (filter_by_date_range parse df start_date end_date) = Ok out ->
  columns (snd (filter_by_date_range parse df start_date end_date)) = columns df /\
  (forall name, name <> "date"%string ->
     get_col (snd (filter_by_date_range parse df start_date end_date)) name
     = get_col df name) /\
  (exists date,
     get_col (snd (filter_by_date_range parse df start_date end_date)) "date"
     = Some date /\ is_datetime64_any_dtype date = true) /\
  filter_by_date_range parse
    (snd (filter_by_date_range parse df start_date end_date)) start_date end_date
  = (Ok out, snd (filter_by_date_range parse df start_date end_date)).
Proof.
  destruct (parse start_date) as [start_dt | ] eqn:Hs.
  2:{ unfold filter_by_date_range, parse_bound. rewrite Hs. cbn [fst snd]. discriminate. }
  destruct (parse end_date) as [end_dt | ] eqn:He.
  2:{ unfold filter_by_date_range, parse_bound. rewrite Hs, He. cbn [fst snd].
      discriminate. }
  destruct (get_col df "date") as [date | ] eqn:Hd.
  2:{ unfold filter_by_date_range, parse_bound, getitem. rewrite Hs, He, Hd.
      cbn [fst snd]. discriminate. }
  destruct (is_datetime64_any_dtype date) eqn:Ht.
  { rewrite (filter_datetime_frame parse df date _ _ _ _ Hd Ht Hs He). cbn [fst snd].
    intros E. injection E as <-.
    split; [reflexivity | ]. split; [reflexivity | ].
    split; [exists date; split; assumption | ].
    apply (filter_datetime_frame parse df date _ _ _ _ Hd Ht Hs He). }
  destruct (to_datetime_series parse date) as [d | e'] eqn:Hc.
  2:{ unfold filter_by_date_range, parse_bound, getitem. rewrite Hs, He, Hd, Ht, Hc.
      cbn [bind fst snd]. discriminate. }
  assert (Hd1 : get_col (set_col df "date" d) "date" = Some d)
    by apply dict_get_set_same.
  assert (Ht1 : is_datetime64_any_dtype d = true)
    by apply (to_datetime_series_is_datetime parse date d Hc).
  assert (E : filter_by_date_range parse df start_date end_date
              = (Ok (select_rows (map (in_date_range start_dt end_dt) d)
                       (set_col df "date" d)),
                 set_col df "date" d)).
  { unfold filter_by_date_range, parse_bound, getitem. rewrite Hs, He, Hd, Ht, Hc.
    cbn [bind]. rewrite Hd1. reflexivity. }
  rewrite E. cbn [fst snd].
  intros Eo. injection Eo as <-.
  split; [apply (columns_set_existing df "date" date d Hd) | ].
  split; [intros name Hn; apply dict_get_set_other; intros En; apply Hn; symmetry; exact En | ].
  split; [exists d; split; assumption | ].
  apply (filter_datetime_frame parse _ d _ _ _ _ Hd1 Ht1 Hs He).
Qed.

(** A witness of X16: a frame whose dates are text. *)
Lemma range_filter_effect_on_caller_witness :
  columns (snd (filter_by_date_range sample_parser text_dates "2024-12-31" "2024-12-31"))
  = columns text_dates /\
  (forall name, name <> "date"%string ->
     get_col (snd (filter_by_date_range sample_parser text_dates
                     "2024-12-31" "2024-12-31")) name
     = get_col text_dates name) /\
  (exists date,
     get_col (snd (filter_by_date_range sample_parser text_dates
                     "2024-12-31" "2024-12-31")) "date"
     = Some date /\ is_datetime64_any_dtype date = true) /\
  filter_by_date_range sample_parser
    (snd (filter_by_date_range sample_parser text_dates "2024-12-31" "2024-12-31"))
    "2024-12-31" "2024-12-31"
  = (Ok [("date"%string, [CTime 1735603200000000000]);
         ("user1_exposure"%string, [CInt 10])],
     snd (filter_by_date_range sample_parser text_dates "2024-12-31" "2024-12-31")).
Proof.
  apply (range_filter_effect_on_caller sample_parser text_dates
           "2024-12-31" "2024-12-31").
  reflexivity.
Defined.

(** ** Metric lookup *)

Lemma getitem_ok (df : DataFrame) (name : string) (c : Series) :
  getitem df name = Ok c <-> get_col df name = Some c.
Proof.
  unfold getitem. destruct (get_col df name) as [c' | ]; split; intros E;
    try discriminate; injection E as <-; reflexivity.
Qed.

(** What a metric lookup that returns has read. *)
Lemma get_metric_data_ok (df : DataFrame) (metric : string)
  (dates u1 u2 : Series) :
  fst (get_metric_data df metric) = Ok (dates, u1, u2) <->
  exists cols,
    lookup_metric metric = Ok cols /\
    get_col df "date" = Some dates /\
    get_col df (fst cols) = Some u1 /\ get_col df (snd cols) = Some u2.
Proof.
  unfold get_metric_data. cbn [fst]. split.
  - destruct (lookup_metric metric) as [cols | ]; cbn [bind]; [ | discriminate].
    unfold getitem.
    destruct (get_col df "date") as [d | ]; cbn [bind]; [ | discriminate].
    destruct (get_col df (fst cols)) as [a | ] eqn:Ha; cbn [bind]; [ | discriminate].
    destruct (get_col df (snd cols)) as [b | ] eqn:Hb; cbn [bind]; [ | discriminate].
    intros E. injection E as <- <- <-. exists cols.
    repeat split; try reflexivity; assumption.
  - intros (cols & -> & Hd & Ha & Hb). cbn [bind]. unfold getitem.
    rewrite Hd. cbn [bind]. rewrite Ha. cbn [bind]. rewrite Hb. reflexivity.
Qed.

(** X17.  What a chart receives from a loaded table.  The three sequences
    that a metric lookup returns on the table that the load built are
    parallel, with one entry for each row of the table and at least one
    entry; every date is a timestamp (none is missing); and the dates do
    not decrease. *)
Theorem metric_data_of_loaded_table
  (parse : date_parser) (wb : Workbook)
  (header_row : list cell) (date_col : Series) (df : DataFrame)
  (metric : string) (dates u1 u2 : Series) :
  passes_checks wb header_row date_col ->
  load_excel_data parse wb = Ok df ->
  fst (get_metric_data df metric) = Ok (dates, u1, u2) ->
  length dates = nrows df /\ length u1 = nrows df /\ length u2 = nrows df /\
  (0 < nrows df)%nat /\
  forallb is_time_cell dates = true /\
  StronglySorted Z.le (map date_key dates).
Proof.
  intros Hp Hl H.
  destruct (loaded_nrows parse wb header_row date_col df Hp Hl) as [_ Hpos].
  apply get_metric_data_ok in H. destruct H as (cols & _ & Hd & Ha & Hb).
  rewrite (load_after_checks parse wb header_row date_col Hp) in Hl.
  destruct (Nat.eqb (length (retained_positions parse date_col)) 0); [discriminate | ].
  injection Hl as <-.
  set (rdate := take (retained_positions parse date_col)
                     (normalized_dates parse date_col)) in *.
  set (rf := retained_frame parse (wb_df wb) header_row date_col) in *.
  set (keys := map date_key rdate) in *.
  assert (W : well_formed (take_rows (Npysort.aquicksort keys) rf))
    by apply well_formed_take.
  split; [apply (get_col_length _ _ _ W Hd) | ].
  split; [apply (get_col_length _ _ _ W Ha) | ].
  split; [apply (get_col_length _ _ _ W Hb) | ].
  split; [exact Hpos | ].
  rewrite get_col_take in Hd. unfold rf in Hd. rewrite retained_frame_date in Hd.
  cbn [option_map] in Hd. injection Hd as <-. fold rdate.
  destruct (NpysortProofs.aquicksort_sorts keys) as [P S].
  split.
  - apply forallb_forall. intros c Hc. unfold take in Hc.
    apply in_map_iff in Hc. destruct Hc as (i & <- & Hi).
    apply (Permutation_in _ P) in Hi. apply in_seq in Hi.
    apply (retained_dates_are_timestamps parse date_col).
    apply nth_In. unfold keys in Hi. rewrite length_map in Hi.
    unfold rdate in Hi. lia.
  - unfold take. rewrite map_map.
    apply (sorted_map _ Z.le (Npysort.le_key keys)); [ | exact S].
    intros a b Hab. unfold Npysort.le_key, Npysort.key, keys in Hab.
    change 0 with (date_key CNa) in Hab. rewrite !map_nth in Hab. exact Hab.
Qed.

(** A witness of X17: exposure in the table of the 12-column sheet. *)
Lemma metric_data_of_loaded_table_witness :
  length [CTime 1735603200000000000; CTime 1735689600000000000] = nrows table_12 /\
  length [CInt 100; CInt 110] = nrows table_12 /\
  length [CInt 90; CInt 95] = nrows table_12 /\
  (0 < nrows table_12)%nat /\
  forallb is_time_cell [CTime 1735603200000000000; CTime 1735689600000000000] = true /\
  StronglySorted Z.le
    (map date_key [CTime 1735603200000000000; CTime 1735689600000000000]).
Proof.
  apply (metric_data_of_loaded_table sample_parser workbook_12 labels_12
           [CStr "日期"; CInt 45657; CInt 45658] table_12 "曝光").
  - exact workbook_12_passes.
  - vm_compute. reflexivity.
  - vm_compute. reflexivity.
Defined.

(** X18.  The dual-metric lookup returns exactly what the two single
    lookups return, with the dates once: it returns if and only if both
    do. *)
Theorem dual_lookup_is_two_lookups
  (df : DataFrame) (metric1 metric2 : string) (dates a b c d : Series) :
  fst (get_dual_metric_data df metric1 metric2) = Ok (dates, a, b, c, d) <->
  fst (get_metric_data df metric1) = Ok (dates, a, b) /\
  fst (get_metric_data df metric2) = Ok (dates, c, d).
Proof.
  rewrite !get_metric_data_ok. unfold get_dual_metric_data. cbn [fst]. split.
  - destruct (lookup_metric metric1) as [cols1 | ]; cbn [bind]; [ | discriminate].
    destruct (lookup_metric metric2) as [cols2 | ]; cbn [bind]; [ | discriminate].
    unfold getitem.
    destruct (get_col df "date") as [d0 | ]; cbn [bind]; [ | discriminate].
    destruct (get_col df (fst cols1)) as [a0 | ] eqn:Ha; cbn [bind]; [ | discriminate].
    destruct (get_col df (snd cols1)) as [b0 | ] eqn:Hb; cbn [bind]; [ | discriminate].
    destruct (get_col df (fst cols2)) as [c0 | ] eqn:Hc; cbn [bind]; [ | discriminate].
    destruct (get_col df (snd cols2)) as [e0 | ] eqn:He; cbn [bind]; [ | discriminate].
    intros E. injection E as <- <- <- <- <-.
    split; [exists cols1 | exists cols2]; repeat split; try reflexivity; assumption.
  - intros [(cols1 & -> & Hd & Ha & Hb) (cols2 & -> & _ & Hc & He)].
    cbn [bind]. unfold getitem.
    rewrite Hd. cbn [bind]. rewrite Ha. cbn [bind]. rewrite Hb. cbn [bind].
    rewrite Hc. cbn [bind]. rewrite He. reflexivity.
Qed.

Lemma lookup_unknown_metric (metric : string) :
  ~ In metric (map fst metric_mapping) ->
  lookup_metric metric = Raise (InvalidMetric metric).
Proof.
  intros H. unfold lookup_metric. apply dict_get_none in H. rewrite H. reflexivity.
Qed.

Lemma lookup_known_metric (metric : string) :
  In metric (map fst metric_mapping) -> exists cols, lookup_metric metric = Ok cols.
Proof.
  intros H. unfold lookup_metric.
  destruct (dict_get metric_mapping metric) as [cols | ] eqn:E.
  - exists cols. reflexivity.
  - apply dict_get_none in E. contradiction.
Qed.

(** X19.  A metric name that is none of the five is reported before the
    frame is looked at: on every frame, even one without the columns,
    metric lookup and statistics raise the error of the invalid name, and
    so does the dual lookup for its first invalid name. *)
Theorem unknown_metric_is_reported_first (df : DataFrame) (metric : string) :
  ~ In metric (map fst metric_mapping) ->
  fst (get_metric_data df metric) = Raise (InvalidMetric metric) /\
  fst (calculate_statistics df metric) = Raise (InvalidMetric metric) /\
  (forall metric2,
      fst (get_dual_metric_data df metric metric2) = Raise (InvalidMetric metric)) /\
  (forall metric1, In metric1 (map fst metric_mapping) ->
      fst (get_dual_metric_data df metric1 metric) = Raise (InvalidMetric metric)).
Proof.
  intros H. pose proof (lookup_unknown_metric metric H) as E.
  unfold get_metric_data, calculate_statistics, get_dual_metric_data. cbn [fst].
  rewrite E. cbn [bind]. repeat split.
  intros metric1 H1. destruct (lookup_known_metric metric1 H1) as [cols ->].
  reflexivity.
Qed.

(** A witness of X19: a name in lower-case Latin letters, on the empty
    frame. *)
Lemma unknown_metric_is_reported_first_witness :
  fst (get_metric_data [] "exposure") = Raise (InvalidMetric "exposure") /\
  fst (calculate_statistics [] "exposure") = Raise (InvalidMetric "exposure") /\
  (forall metric2,
      fst (get_dual_metric_data [] "exposure" metric2)
      = Raise (InvalidMetric "exposure")) /\
  (forall metric1, In metric1 (map fst metric_mapping) ->
      fst (get_dual_metric_data [] metric1 "exposure")
      = Raise (InvalidMetric "exposure")).
Proof.
  apply (unknown_metric_is_reported_first [] "exposure").
  cbn [metric_mapping map fst In]. intuition discriminate.
Defined.

(** ** Metric lookup on a filtered table *)

(** X20.  Metric lookup on the result of a range filter returns the
    entries of the lookup on the whole table for the rows that the filter
    keeps, in their order, each value beside the date of its row.  The
    rows kept are those whose timestamp [t] has [s <= t <= e], where [s]
    and [e] are the instants that pandas reads from the two bound texts
    (for a calendar date, the midnight that opens the day: a row of the
    end day with a later time of day is not among them). *)
Theorem metric_data_of_filtered_table
  (parse : date_parser) (df : DataFrame)
  (start_date end_date : string) (s e : Z) (metric : string)
  (dates u1 u2 : Series) :
  is_metric_table df ->
  parse start_date = Some (Some s) -> parse end_date = Some (Some e) ->
  fst (get_metric_data df metric) = Ok (dates, u1, u2) ->
  exists out dates' u1' u2',
    fst (filter_by_date_range parse df start_date end_date) = Ok out /\
    fst (get_metric_data out metric) = Ok (dates', u1', u2') /\
    combine dates' (combine u1' u2')
    = filter (fun r => date_within s e (fst r)) (combine dates (combine u1 u2)).
Proof.
  intros [W (date & Hd & Ht)] Hs He H.
  apply get_metric_data_ok in H. destruct H as (cols & Hl & Hd' & Ha & Hb).
  rewrite Hd in Hd'. injection Hd' as <-.
  rewrite (filter_metric_table parse df date start_date end_date s e Hd Ht Hs He).
  cbn [fst]. set (idx := where_ (map (date_within s e) date)).
  exists (select_rows (map (date_within s e) date) df),
         (take idx date), (take idx u1), (take idx u2).
  split; [reflexivity | ]. split.
  - apply get_metric_data_ok. exists cols. split; [exact Hl | ].
    unfold select_rows. fold idx. rewrite !get_col_take, Hd, Ha, Hb.
    repeat split; reflexivity.
  - assert (L1 : length u1 = length date).
    { rewrite (get_col_length _ _ _ W Ha), (get_col_length _ _ _ W Hd). reflexivity. }
    assert (L2 : length u2 = length date).
    { rewrite (get_col_length _ _ _ W Hb), (get_col_length _ _ _ W Hd). reflexivity. }
    assert (L12 : length u1 = length u2) by congruence.
    assert (Lc : length date = length (combine u1 u2)).
    { rewrite length_combine, <- L12, Nat.min_id. symmetry. exact L1. }
    rewrite <- (positions_of_pairs date (combine u1 u2) (CNa, CNa) Lc).
    rewrite <- (map_filter_comm
                  (fun k => (nth k date CNa, nth k (combine u1 u2) (CNa, CNa)))
                  (fun r => date_within s e (fst r))).
    cbn [fst]. unfold idx. rewrite (where_map (date_within s e) date).
    set (l := filter (fun k => date_within s e (nth k date CNa)) (seq 0 (length date))).
    unfold take. rewrite !combine_map_same.
    apply map_ext. intros k. rewrite combine_nth by exact L12. reflexivity.
Qed.

(** A witness of X20: exposure in the first two days of the sample. *)
Lemma metric_data_of_filtered_table_witness :
  exists out dates' u1' u2',
    fst (filter_by_date_range sample_parser sample_exposure "2024-12-31" "2025-01-01")
    = Ok out /\
    fst (get_metric_data out "曝光") = Ok (dates', u1', u2') /\
    combine dates' (combine u1' u2')
    = filter (fun r => date_within 1735603200000000000 1735689600000000000 (fst r))
        (combine [CTime 1735603200000000000; CTime 1735689600000000000;
                  CTime 1735776000000000000]
                 (combine [CInt 10; CNa; CInt 30] [CNa; CNa; CNa])).
Proof.
  apply (metric_data_of_filtered_table sample_parser sample_exposure
           "2024-12-31" "2025-01-01" 1735603200000000000 1735689600000000000 "曝光").
  - exact sample_exposure_is_metric_table.
  - reflexivity.
  - reflexivity.
  - reflexivity.
Defined.

(** ** What a conversion computes *)

Lemma as_float64_of_float64 (xs : list f64) : as_float64 (of_float64 xs) = Ok xs.
Proof.
  induction xs as [ | x xs IH]; [reflexivity | ].
  cbn [of_float64 map as_float64 to_float]. fold (of_float64 xs).
  rewrite IH. reflexivity.
Qed.

Lemma conversion_rate_rates (a e : Series) (xs ys : list f64) :
  as_float64 a = Ok xs -> as_float64 e = Ok ys ->
  conversion_rate a e = Ok (of_float64 (rates xs ys)).
Proof.
  intros Ha He. unfold conversion_rate, series_div, series_mul.
  rewrite Ha, He. cbn [bind]. rewrite as_float64_of_float64. cbn [bind].
  unfold rates, rate. rewrite map_map. reflexivity.
Qed.

Lemma as_float64_length (s : Series) (xs : list f64) :
  as_float64 s = Ok xs -> length xs = length s.
Proof.
  revert xs. induction s as [ | c s IH]; intros xs; cbn [as_float64].
  - intros E. injection E as <-. reflexivity.
  - destruct (to_float c); [ | discriminate].
    destruct (as_float64 s) as [xs' | ]; cbn [bind]; [ | discriminate].
    intros E. injection E as <-. cbn [length]. rewrite (IH xs' eq_refl). reflexivity.
Qed.

Lemma rates_length (xs ys : list f64) :
  length (rates xs ys) = Nat.min (length xs) (length ys).
Proof. unfold rates. rewrite length_map. apply length_combine. Qed.

(** What a conversion that returns has computed. *)
Lemma calculate_conversion_rates_ok (df out : DataFrame) :
  fst (calculate_conversion_rates df) = Ok out <->
  exists a1 e1 a2 e2 xs1 ys1 xs2 ys2,
    get_col df "user1_add" = Some a1 /\ get_col df "user1_exchange" = Some e1 /\
    get_col df "user2_add" = Some a2 /\ get_col df "user2_exchange" = Some e2 /\
    as_float64 a1 = Ok xs1 /\ as_float64 e1 = Ok ys1 /\
    as_float64 a2 = Ok xs2 /\ as_float64 e2 = Ok ys2 /\
    out = set_col (set_col df "user1_conversion_rate" (of_float64 (rates xs1 ys1)))
                  "user2_conversion_rate" (of_float64 (rates xs2 ys2)).
Proof.
  unfold calculate_conversion_rates. cbn [fst]. unfold getitem. split.
  - destruct (get_col df "user1_add") as [a1 | ] eqn:H1; cbn [bind]; [ | discriminate].
    destruct (get_col df "user1_exchange") as [e1 | ] eqn:H2; cbn [bind]; [ | discriminate].
    destruct (as_float64 a1) as [xs1 | ] eqn:F1.
    2:{ unfold conversion_rate, series_div. rewrite F1. cbn [bind]. discriminate. }
    destruct (as_float64 e1) as [ys1 | ] eqn:F2.
    2:{ unfold conversion_rate, series_div. rewrite F1, F2. cbn [bind]. discriminate. }
    rewrite (conversion_rate_rates a1 e1 xs1 ys1 F1 F2). cbn [bind].
    unfold get_col, set_col.
    rewrite !dict_get_set_other by discriminate. fold (get_col df "user2_add").
    fold (get_col df "user2_exchange").
    destruct (get_col df "user2_add") as [a2 | ] eqn:H3; cbn [bind]; [ | discriminate].
    destruct (get_col df "user2_exchange") as [e2 | ] eqn:H4; cbn [bind]; [ | discriminate].
    destruct (as_float64 a2) as [xs2 | ] eqn:F3.
    2:{ unfold conversion_rate, series_div. rewrite F3. cbn [bind]. discriminate. }
    destruct (as_float64 e2) as [ys2 | ] eqn:F4.
    2:{ unfold conversion_rate, series_div. rewrite F3, F4. cbn [bind]. discriminate. }
    rewrite (conversion_rate_rates a2 e2 xs2 ys2 F3 F4). cbn [bind].
    intros E. injection E as <-.
    exists a1, e1, a2, e2, xs1, ys1, xs2, ys2.
    repeat split; try reflexivity; assumption.
  - intros (a1 & e1 & a2 & e2 & xs1 & ys1 & xs2 & ys2 &
            H1 & H2 & H3 & H4 & F1 & F2 & F3 & F4 & ->).
    rewrite H1. cbn [bind]. rewrite H2. cbn [bind].
    rewrite (conversion_rate_rates a1 e1 xs1 ys1 F1 F2). cbn [bind].
    unfold get_col, set_col.
    rewrite !dict_get_set_other by discriminate.
    fold (get_col df "user2_add"). fold (get_col df "user2_exchange").
    rewrite H3. cbn [bind]. rewrite H4. cbn [bind].
    rewrite (conversion_rate_rates a2 e2 xs2 ys2 F3 F4). reflexivity.
Qed.

Lemma nth_combine_in_range {A B : Type} (a : list A) (b : list B)
  (i : nat) (da : A) (db : B) :
  (i < length a)%nat -> (i < length b)%nat ->
  nth i (combine a b) (da, db) = (nth i a da, nth i b db).
Proof.
  revert b i. induction a as [ | x a IH]; intros [ | y b] i Ha Hb;
    cbn [length] in *; try lia.
  destruct i as [ | i]; [reflexivity | ]. cbn [combine nth]. apply IH; lia.
Qed.

Lemma rates_nth (xs ys : list f64) (i : nat) :
  (i < length xs)%nat -> (i < length ys)%nat ->
  nth i (of_float64 (rates xs ys)) CNa = CFloat (rate (nth i xs nan) (nth i ys nan)).
Proof.
  intros Hx Hy. unfold of_float64, rates.
  rewrite (nth_map_in_range CFloat _ i nan CNa)
    by (rewrite length_map, length_combine; lia).
  rewrite (nth_map_in_range _ (combine xs ys) i (nan, nan) nan)
    by (rewrite length_combine; lia).
  rewrite (nth_combine_in_range xs ys i nan nan Hx Hy). cbn [fst snd]. reflexivity.
Qed.

(** ** The conversion and the rest of the table *)

Lemma dict_set_same {V : Type} (d : list (string * V)) (k : string) (v : V) :
  dict_get d k = Some v -> dict_set d k v = d.
Proof.
  induction d as [ | [k' v'] d IH]; cbn [dict_get dict_set]; [discriminate | ].
  destruct (String.eqb k' k).
  - intros E. injection E as ->. reflexivity.
  - intros E. rewrite (IH E). reflexivity.
Qed.

Lemma set_col_nonempty (df : DataFrame) (name : string) (s : Series) :
  set_col df name s <> [].
Proof.
  destruct df as [ | [k c] df]; cbn [set_col dict_set]; [discriminate | ].
  unfold set_col. cbn [dict_set]. destruct (String.eqb k name); discriminate.
Qed.

(** X23.  A conversion that returns has added to the table its two rate
    columns and nothing else: every other column is as it was, no column
    is dropped, and on a well-formed table the result is well-formed with
    the same number of rows. *)
Theorem conversion_keeps_the_table (df out : DataFrame) :
  fst (calculate_conversion_rates df) = Ok out ->
  (forall name,
      name <> "user1_conversion_rate"%string ->
      name <> "user2_conversion_rate"%string ->
      get_col out name = get_col df name) /\
  (forall name,
      In name (columns out) <->
      In name (columns df) \/ name = "user1_conversion_rate"%string \/
      name = "user2_conversion_rate"%string) /\
  (well_formed df -> well_formed out /\ nrows out = nrows df).
Proof.
  intros H. apply calculate_conversion_rates_ok in H.
  destruct H as (a1 & e1 & a2 & e2 & xs1 & ys1 & xs2 & ys2 &
                 H1 & H2 & H3 & H4 & F1 & F2 & F3 & F4 & ->).
  split; [ | split].
  - intros name N1 N2. unfold get_col, set_col.
    rewrite !dict_get_set_other; [reflexivity | | ];
      intros E; [apply N1 | apply N2]; symmetry; exact E.
  - intros name. unfold columns, set_col. rewrite !dict_set_keys_in. tauto.
  - intros W.
    assert (Ne : df <> []) by (intros E; rewrite E in H1; discriminate).
    assert (L : forall c s xs, get_col df c = Some s -> as_float64 s = Ok xs ->
                length xs = nrows df).
    { intros c s xs Hs Fs. rewrite (as_float64_length s xs Fs).
      apply (get_col_length df c s W Hs). }
    assert (L1 : length (of_float64 (rates xs1 ys1)) = nrows df).
    { unfold of_float64. rewrite length_map, rates_length.
      rewrite (L _ a1 xs1 H1 F1), (L _ e1 ys1 H2 F2). apply Nat.min_id. }
    assert (L2 : length (of_float64 (rates xs2 ys2)) = nrows df).
    { unfold of_float64. rewrite length_map, rates_length.
      rewrite (L _ a2 xs2 H3 F3), (L _ e2 ys2 H4 F4). apply Nat.min_id. }
    assert (W1 : well_formed (set_col df "user1_conversion_rate"
                                (of_float64 (rates xs1 ys1))))
      by (apply well_formed_set_col; assumption).
    assert (N1 : nrows (set_col df "user1_conversion_rate"
                          (of_float64 (rates xs1 ys1))) = nrows df)
      by (apply nrows_set_col; assumption).
    split.
    + apply well_formed_set_col; [exact W1 | apply set_col_nonempty | ].
      rewrite N1. exact L2.
    + rewrite nrows_set_col; [exact N1 | apply set_col_nonempty | ].
      rewrite N1. exact L2.
Qed.

(** A witness of X23: the table of scenario D. *)
Lemma conversion_keeps_the_table_witness :
  (forall name,
      name <> "user1_conversion_rate"%string ->
      name <> "user2_conversion_rate"%string ->
      get_col (set_col (set_col scenario_D "user1_conversion_rate"
                          (of_float64 (rates [of_Z 5] [of_Z 0])))
                       "user2_conversion_rate" (of_float64 (rates [of_Z 5] [of_Z 8])))
              name
      = get_col scenario_D name) /\
  (forall name,
      In name (columns (set_col (set_col scenario_D "user1_conversion_rate"
                                   (of_float64 (rates [of_Z 5] [of_Z 0])))
                                "user2_conversion_rate"
                                (of_float64 (rates [of_Z 5] [of_Z 8])))) <->
      In name (columns scenario_D) \/ name = "user1_conversion_rate"%string \/
      name = "user2_conversion_rate"%string) /\
  (well_formed scenario_D ->
   well_formed (set_col (set_col scenario_D "user1_conversion_rate"
                           (of_float64 (rates [of_Z 5] [of_Z 0])))
                        "user2_conversion_rate" (of_float64 (rates [of_Z 5] [of_Z 8]))) /\
   nrows (set_col (set_col scenario_D "user1_conversion_rate"
                     (of_float64 (rates [of_Z 5] [of_Z 0])))
                  "user2_conversion_rate" (of_float64 (rates [of_Z 5] [of_Z 8])))
   = nrows scenario_D).
Proof.
  apply (conversion_keeps_the_table scenario_D).
  reflexivity.
Defined.

(** X24.  The conversion is idempotent: applied to its own result it
    returns that result again. *)
Theorem conversion_is_idempotent (df out : DataFrame) :
  fst (calculate_conversion_rates df) = Ok out ->
  fst (calculate_conversion_rates out) = Ok out.
Proof.
  intros H. apply calculate_conversion_rates_ok in H.
  destruct H as (a1 & e1 & a2 & e2 & xs1 & ys1 & xs2 & ys2 &
                 H1 & H2 & H3 & H4 & F1 & F2 & F3 & F4 & ->).
  set (r1 := of_float64 (rates xs1 ys1)). set (r2 := of_float64 (rates xs2 ys2)).
  set (out := set_col (set_col df "user1_conversion_rate" r1)
                      "user2_conversion_rate" r2).
  assert (G : forall name,
             name <> "user1_conversion_rate"%string ->
             name <> "user2_conversion_rate"%string ->
             get_col out name = get_col df name).
  { intros name N1 N2. unfold out, get_col, set_col.
    rewrite !dict_get_set_other; [reflexivity | | ];
      intros E; [apply N1 | apply N2]; symmetry; exact E. }
  apply calculate_conversion_rates_ok.
  exists a1, e1, a2, e2, xs1, ys1, xs2, ys2.
  rewrite !G by discriminate.
  repeat split; try assumption.
  fold r1 r2.
  assert (S1 : set_col out "user1_conversion_rate" r1 = out).
  { apply dict_set_same. unfold out, set_col.
    rewrite dict_get_set_other by discriminate. apply dict_get_set_same. }
  rewrite S1. symmetry. apply dict_set_same. apply dict_get_set_same.
Qed.

(** A witness of X24: the table of scenario D. *)
Lemma conversion_is_idempotent_witness :
  fst (calculate_conversion_rates
         (set_col (set_col scenario_D "user1_conversion_rate"
                     (of_float64 (rates [of_Z 5] [of_Z 0])))
                  "user2_conversion_rate" (of_float64 (rates [of_Z 5] [of_Z 8]))))
  = Ok (set_col (set_col scenario_D "user1_conversion_rate"
                   (of_float64 (rates [of_Z 5] [of_Z 0])))
                "user2_conversion_rate" (of_float64 (rates [of_Z 5] [of_Z 8]))).
Proof.
  apply (conversion_is_idempotent scenario_D).
  reflexivity.
Defined.

(** ** The conversion commutes with the range filter *)

Lemma take_rows_set_col (idx : list nat) (df : DataFrame) (name : string) (s : Series) :
  take_rows idx (set_col df name s) = set_col (take_rows idx df) name (take idx s).
Proof.
  unfold set_col, take_rows.
  induction df as [ | [k c] df IH]; [reflexivity | ].
  cbn [dict_set map fst snd].
  destruct (String.eqb k name); cbn [map fst snd]; [reflexivity | ].
  rewrite IH. reflexivity.
Qed.

Lemma to_float_nth (s : Series) (xs : list f64) (i : nat) :
  as_float64 s = Ok xs -> to_float (nth i s CNa) = Some (nth i xs nan).
Proof.
  revert xs i. induction s as [ | c s IH]; intros xs i; cbn [as_float64].
  - intros E. injection E as <-. destruct i; reflexivity.
  - destruct (to_float c) as [x | ] eqn:Ec; [ | discriminate].
    destruct (as_float64 s) as [xs' | ]; cbn [bind]; [ | discriminate].
    intros E. injection E as <-.
    destruct i as [ | i]; [exact Ec | ]. cbn [nth]. apply IH. reflexivity.
Qed.

Lemma as_float64_take (idx : list nat) (s : Series) (xs : list f64) :
  as_float64 s = Ok xs ->
  as_float64 (take idx s) = Ok (map (fun i => nth i xs nan) idx).
Proof.
  intros H. unfold take. induction idx as [ | i idx IH]; [reflexivity | ].
  cbn [map as_float64]. rewrite (to_float_nth s xs i H), IH. reflexivity.
Qed.

Lemma take_rates (idx : list nat) (xs ys : list f64) :
  Forall (fun i => (i < length xs)%nat /\ (i < length ys)%nat) idx ->
  take idx (of_float64 (rates xs ys))
  = of_float64 (rates (map (fun i => nth i xs nan) idx)
                      (map (fun i => nth i ys nan) idx)).
Proof.
  intros H. unfold take. unfold rates at 2. rewrite combine_map_same.
  unfold of_float64 at 2. rewrite !map_map. cbn [fst snd].
  apply map_ext_in. intros i Hi. rewrite Forall_forall in H.
  destruct (H i Hi) as [Hx Hy]. apply rates_nth; assumption.
Qed.

Lemma where_in_range (mask : list bool) :
  Forall (fun i => (i < length mask)%nat) (where_ mask).
Proof.
  apply Forall_forall. intros i Hi. unfold where_ in Hi.
  rewrite where_from_filter in Hi. apply filter_In in Hi. destruct Hi as [Hi _].
  apply in_seq in Hi. lia.
Qed.

(** X25.  On a MetricTable the conversion and the range filter commute:
    the rates of the filtered table are the rates of the whole table at the
    rows in the range, and the two orders give the same frame. *)
Theorem conversion_commutes_with_range_filter
  (parse : date_parser) (df cdf : DataFrame)
  (start_date end_date : string) (s e : Z) :
  is_metric_table df ->
  parse start_date = Some (Some s) -> parse end_date = Some (Some e) ->
  fst (calculate_conversion_rates df) = Ok cdf ->
  exists out,
    fst (filter_by_date_range parse df start_date end_date) = Ok out /\
    fst (calculate_conversion_rates out)
    = fst (filter_by_date_range parse cdf start_date end_date).
Proof.
  intros [W (date & Hd & Ht)] Hs He H.
  apply calculate_conversion_rates_ok in H.
  destruct H as (a1 & e1 & a2 & e2 & xs1 & ys1 & xs2 & ys2 &
                 H1 & H2 & H3 & H4 & F1 & F2 & F3 & F4 & ->).
  rewrite (filter_metric_table parse df date start_date end_date s e Hd Ht Hs He).
  cbn [fst]. eexists. split; [reflexivity | ].
  assert (Hd' : get_col (set_col (set_col df "user1_conversion_rate"
                                    (of_float64 (rates xs1 ys1)))
                                 "user2_conversion_rate"
                                 (of_float64 (rates xs2 ys2))) "date" = Some date).
  { unfold get_col, set_col. rewrite !dict_get_set_other by discriminate. exact Hd. }
  rewrite (filter_metric_table parse _ date start_date end_date s e Hd' Ht Hs He).
  cbn [fst]. unfold select_rows.
  set (idx := where_ (map (date_within s e) date)).
  assert (L : forall c col xs, get_col df c = Some col -> as_float64 col = Ok xs ->
              length xs = length date).
  { intros c col xs Hc Fc. rewrite (as_float64_length col xs Fc).
    rewrite (get_col_length df c col W Hc), (get_col_length df _ date W Hd).
    reflexivity. }
  assert (R : forall xs ys : list f64,
              length xs = length date -> length ys = length date ->
              Forall (fun i => (i < length xs)%nat /\ (i < length ys)%nat) idx).
  { intros xs ys Lx Ly. rewrite Lx, Ly.
    pose proof (where_in_range (map (date_within s e) date)) as Hw.
    rewrite length_map in Hw. fold idx in Hw.
    eapply Forall_impl; [ | exact Hw]. intros i Hi. split; exact Hi. }
  apply calculate_conversion_rates_ok.
  exists (take idx a1), (take idx e1), (take idx a2), (take idx e2),
         (map (fun i => nth i xs1 nan) idx), (map (fun i => nth i ys1 nan) idx),
         (map (fun i => nth i xs2 nan) idx), (map (fun i => nth i ys2 nan) idx).
  rewrite !get_col_take, H1, H2, H3, H4. cbn [option_map].
  repeat split; try (apply as_float64_take; assumption).
  rewrite !take_rows_set_col.
  rewrite (take_rates idx xs1 ys1)
    by (apply R; [apply (L _ a1 _ H1 F1) | apply (L _ e1 _ H2 F2)]).
  rewrite (take_rates idx xs2 ys2)
    by (apply R; [apply (L _ a2 _ H3 F3) | apply (L _ e2 _ H4 F4)]).
  reflexivity.
Qed.

Lemma scenario_D_is_metric_table : is_metric_table scenario_D.
Proof.
  split; [repeat constructor | ].
  exists [CTime 1735603200000000000]. split; reflexivity.
Qed.

(** A witness of X25: the table of scenario D and the day of its row. *)
Lemma conversion_commutes_with_range_filter_witness :
  exists out,
    fst (filter_by_date_range sample_parser scenario_D "2024-12-31" "2024-12-31")
    = Ok out /\
    fst (calculate_conversion_rates out)
    = fst (filter_by_date_range sample_parser
             (set_col (set_col scenario_D "user1_conversion_rate"
                         (of_float64 (rates [of_Z 5] [of_Z 0])))
                      "user2_conversion_rate" (of_float64 (rates [of_Z 5] [of_Z 8])))
             "2024-12-31" "2024-12-31").
Proof.
  apply (conversion_commutes_with_range_filter sample_parser scenario_D _
           "2024-12-31" "2024-12-31" 1735603200000000000 1735603200000000000).
  - exact scenario_D_is_metric_table.
  - reflexivity.
  - reflexivity.
  - reflexivity.
Defined.

(** ** Statistics: the extremes bound the values *)

Lemma ltb_rank (x y : f64) :
  is_nan x = false -> is_nan y = false ->
  (ltb x y = true <-> rank_lt (float_rank x) (float_rank y)).
Proof.
  unfold ltb, SFltb, rank_lt.
  destruct x as [sx | sx | | sx mx ex], y as [sy | sy | | sy my ey];
    try discriminate; intros _ _;
    try (destruct sx; cbn; split; intros H; try discriminate; lia);
    try (destruct sy; cbn; split; intros H; try discriminate; lia);
    try (destruct sx, sy; cbn; split; intros H; try discriminate; lia).
  destruct sx, sy; cbn [SFcompare float_rank fst snd].
  - change (Pos.compare_cont Eq mx my) with (Pos.compare mx my).
    destruct (Z.compare_spec ex ey) as [E | E | E];
      [destruct (Pos.compare_spec mx my) as [M | M | M] | | ];
      cbn [CompOpp]; split; intros H; try discriminate; try reflexivity; lia.
  - split; [intros _; lia | reflexivity].
  - split; [discriminate | lia].
  - change (Pos.compare_cont Eq mx my) with (Pos.compare mx my).
    destruct (Z.compare_spec ex ey) as [E | E | E];
      [destruct (Pos.compare_spec mx my) as [M | M | M] | | ];
      split; intros H; try discriminate; try reflexivity; lia.
Qed.

Lemma ltb_irrefl (x : f64) : ltb x x = false.
Proof.
  destruct (is_nan x) eqn:N; [destruct x; try discriminate; reflexivity | ].
  destruct (ltb x x) eqn:E; [ | reflexivity].
  apply (ltb_rank x x N N) in E. unfold rank_lt in E. lia.
Qed.

Lemma ltb_trans (a b c : f64) :
  ltb a b = true -> ltb b c = true -> ltb a c = true.
Proof.
  intros H1 H2.
  assert (Na : is_nan a = false) by (destruct a; try reflexivity; discriminate H1).
  assert (Nb : is_nan b = false) by (destruct b; try reflexivity; discriminate H2).
  assert (Nc : is_nan c = false)
    by (destruct c; try reflexivity; destruct b as [ | [ | ] | | [ | ] ? ?]; discriminate H2).
  apply (ltb_rank a b Na Nb) in H1. apply (ltb_rank b c Nb Nc) in H2.
  apply (ltb_rank a c Na Nc). unfold rank_lt in *. lia.
Qed.

Lemma ltb_between (a b c : f64) :
  is_nan b = false -> ltb a c = true -> ltb a b = true \/ ltb b c = true.
Proof.
  intros Nb H.
  assert (Na : is_nan a = false) by (destruct a; try reflexivity; discriminate H).
  assert (Nc : is_nan c = false)
    by (destruct c; try reflexivity; destruct a as [ | [ | ] | | [ | ] ? ?]; discriminate H).
  apply (ltb_rank a c Na Nc) in H.
  destruct (ltb a b) eqn:E1; [left; reflexivity | right].
  destruct (ltb b c) eqn:E2; [reflexivity | exfalso].
  assert (R1 : ~ rank_lt (float_rank a) (float_rank b))
    by (intros R; apply (ltb_rank a b Na Nb) in R; congruence).
  assert (R2 : ~ rank_lt (float_rank b) (float_rank c))
    by (intros R; apply (ltb_rank b c Nb Nc) in R; congruence).
  unfold rank_lt in *. lia.
Qed.

Lemma fold_fmax_bounds (l : list f64) (acc : f64) :
  Forall (fun x => is_nan x = false) l -> is_nan acc = false ->
  (fold_left fmax l acc = acc \/ In (fold_left fmax l acc) l) /\
  ltb (fold_left fmax l acc) acc = false /\
  (forall x, In x l -> ltb (fold_left fmax l acc) x = false).
Proof.
  intros F. revert acc. induction F as [ | y l Ny F IH]; intros acc Na.
  - cbn [fold_left]. split; [left; reflexivity | ].
    split; [apply ltb_irrefl | intros x []].
  - cbn [fold_left].
    assert (Na' : is_nan (fmax acc y) = false) by (apply fmax_not_nan; assumption).
    destruct (IH (fmax acc y) Na') as (M & B & A).
    set (r := fold_left fmax l (fmax acc y)) in *.
    assert (Hy : ltb r acc = false /\ ltb r y = false).
    { unfold fmax in B. destruct (ltb acc y) eqn:E.
      - split; [ | exact B]. destruct (ltb r acc) eqn:E'; [ | reflexivity].
        rewrite (ltb_trans r acc y E' E) in B. discriminate.
      - split; [exact B | ]. destruct (ltb r y) eqn:E'; [ | reflexivity].
        destruct (ltb_between r acc y Na E') as [H | H]; congruence. }
    split; [ | split; [apply Hy | ]].
    + destruct M as [M | M]; [ | right; right; exact M].
      rewrite M. unfold fmax. destruct (ltb acc y); [right; left | left]; reflexivity.
    + intros x [<- | Hx]; [apply Hy | apply A; exact Hx].
Qed.

Lemma fold_fmin_bounds (l : list f64) (acc : f64) :
  Forall (fun x => is_nan x = false) l -> is_nan acc = false ->
  (fold_left fmin l acc = acc \/ In (fold_left fmin l acc) l) /\
  ltb acc (fold_left fmin l acc) = false /\
  (forall x, In x l -> ltb x (fold_left fmin l acc) = false).
Proof.
  intros F. revert acc. induction F as [ | y l Ny F IH]; intros acc Na.
  - cbn [fold_left]. split; [left; reflexivity | ].
    split; [apply ltb_irrefl | intros x []].
  - cbn [fold_left].
    assert (Na' : is_nan (fmin acc y) = false) by (apply fmin_not_nan; assumption).
    destruct (IH (fmin acc y) Na') as (M & B & A).
    set (r := fold_left fmin l (fmin acc y)) in *.
    assert (Hy : ltb acc r = false /\ ltb y r = false).
    { unfold fmin in B. destruct (ltb y acc) eqn:E.
      - split; [ | exact B]. destruct (ltb acc r) eqn:E'; [ | reflexivity].
        rewrite (ltb_trans y acc r E E') in B. discriminate.
      - split; [exact B | ]. destruct (ltb y r) eqn:E'; [ | reflexivity].
        destruct (ltb_between y acc r Na E') as [H | H]; congruence. }
    split; [ | split; [apply Hy | ]].
    + destruct M as [M | M]; [ | right; right; exact M].
      rewrite M. unfold fmin. destruct (ltb y acc); [right; left | left]; reflexivity.
    + intros x [<- | Hx]; [apply Hy | apply A; exact Hx].
Qed.

Lemma present_not_nan (xs : list f64) :
  Forall (fun x => is_nan x = false) (present xs).
Proof.
  apply Forall_forall. intros x Hx. unfold present in Hx.
  apply filter_In in Hx. destruct Hx as [_ Hx]. apply negb_true_iff. exact Hx.
Qed.

Lemma extremes_of_present (xs : list f64) (st : Stats) :
  stats_over_present xs st -> present xs <> [] -> extremes_of (present xs) st.
Proof.
  intros (Hmax & Hmin) Ne. unfold extremes_of. rewrite Hmax, Hmin.
  pose proof (present_not_nan xs) as F.
  destruct (present xs) as [ | v vs]; [contradiction Ne; reflexivity | ].
  inversion F as [ | v' vs' Nv Fv]. subst v' vs'.
  unfold max_of, min_of, np_reduce.
  destruct (fold_fmax_bounds vs v Fv Nv) as (M1 & B1 & A1).
  destruct (fold_fmin_bounds vs v Fv Nv) as (M2 & B2 & A2).
  split; [ | split].
  - destruct M1 as [-> | M1]; [left; reflexivity | right; exact M1].
  - destruct M2 as [-> | M2]; [left; reflexivity | right; exact M2].
  - intros x [<- | Hx]; [split; assumption | split; [apply A1 | apply A2]; exact Hx].
Qed.

(** X26.  The maximum and the minimum that the statistics report for an
    entity with at least one present value are present values of its
    column, no present value is above the maximum, and none is below the
    minimum. *)
Theorem statistics_extremes_bound_the_values
  (df : DataFrame) (metric : string) (cols : string * string)
  (s1 s2 : Series) (xs1 xs2 : list f64) :
  lookup_metric metric = Ok cols ->
  get_col df (fst cols) = Some s1 -> as_float64 s1 = Ok xs1 ->
  get_col df (snd cols) = Some s2 -> as_float64 s2 = Ok xs2 ->
  exists st1 st2,
    calculate_statistics df metric = (Ok (st1, st2), df) /\
    (present xs1 <> [] -> extremes_of (present xs1) st1) /\
    (present xs2 <> [] -> extremes_of (present xs2) st2).
Proof.
  intros Hm H1 Hx1 H2 Hx2.
  destruct (series_stats_present s1 xs1 Hx1) as (st1 & E1 & P1).
  destruct (series_stats_present s2 xs2 Hx2) as (st2 & E2 & P2).
  exists st1, st2. split; [ | split].
  - unfold calculate_statistics, getitem. rewrite Hm. cbn [bind].
    rewrite H1. cbn [bind]. rewrite E1. cbn [bind].
    rewrite H2. cbn [bind]. rewrite E2. reflexivity.
  - apply extremes_of_present. exact P1.
  - apply extremes_of_present. exact P2.
Qed.

(** A witness of X26: exposure in the sample. *)
Lemma statistics_extremes_bound_the_values_witness :
  exists st1 st2,
    calculate_statistics sample_exposure "曝光" = (Ok (st1, st2), sample_exposure) /\
    (present [of_Z 10; nan; of_Z 30] <> [] ->
     extremes_of (present [of_Z 10; nan; of_Z 30]) st1) /\
    (present [nan; nan; nan] <> [] -> extremes_of (present [nan; nan; nan]) st2).
Proof.
  apply (statistics_extremes_bound_the_values sample_exposure "曝光"
           ("user1_exposure", "user2_exposure")%string
           [CInt 10; CNa; CInt 30] [CNa; CNa; CNa]);
    reflexivity.
Defined.

(** ** The default date range of the application *)






